(** * PropertyTest: building selection, identification and floor synthesis

    A shallow embedding of the client-side core of the Rotterdam property
    viewer: [BuildingSelector.js], [FloorGenerator.js], [TileStyleManager],
    [BuildingDataLoader], [PropertyDataService.js] and [InfoPanel].

    Conventions of the embedding:
    - JavaScript [Map]s are [gmap]s, [Set]s are [gset]s, arrays are lists.
    - Entity and feature objects are shared and mutated in place, so they
      live in a store and are referred to by reference.
    - Numbers are exact: integers are [Z], measurements are [Q], and a
      number that may fail to be finite is a [num] ([None] stands for NaN
      and the infinities).
    - Strings are byte strings; case folding and digit classes are ASCII.
    - Promises are modelled by a list of pending continuations that the
      environment resolves one event at a time; a callback chained on an
      already settled promise runs in the same step (microtasks drain
      before the next UI or network event).
    - The tile engine (ellipsoid conversions, matrices, frames) and the
      string-to-number coercion are parameters, see [CesiumMath]. *)

From Stdlib Require Import ZArith QArith String Ascii List Lia Lqa DecimalString.
From Stdlib Require Import Qround DecimalZ.
From stdpp Require Import gmap strings list.

(** ** JavaScript values and strings *)

Module JS.

(** A property value as handed out by [getProperty]. Numbers are the
    integers (identifiers, counts, whole heights). *)
Inductive value :=
| JUndefined
| JNull
| JBool (b : bool)
| JNum (n : Z)
| JStr (s : string).

(** A number that may be NaN or infinite. *)
Definition num := option Q.

Definition truthy (v : value) : bool :=
  match v with
  | JUndefined | JNull => false
  | JBool b => b
  | JNum n => negb (n =? 0)%Z
  | JStr s => negb (String.eqb s "")
  end.

(** [a || b] *)
Definition or_else (a b : value) : value := if truthy a then a else b.

Definition showZ (n : Z) : string := NilZero.string_of_int (Z.to_int n).

(** [String(v)]. Numbers are the integers, printed in full; the
    exponent form JavaScript switches to from 1e21 on, and the rounding of
    integers no double can hold, are outside the model. *)
Definition toString (v : value) : string :=
  match v with
  | JUndefined => "undefined"
  | JNull => "null"
  | JBool true => "true"
  | JBool false => "false"
  | JNum n => showZ n
  | JStr s => s
  end.

Definition isDigit (c : ascii) : bool :=
  (48 <=? nat_of_ascii c)%nat && (nat_of_ascii c <=? 57)%nat.

Fixpoint allDigits (s : string) : bool :=
  match s with
  | EmptyString => true
  | String c s' => isDigit c && allDigits s'
  end.

(** [/^[0-9]{16}$/.test(s)] *)
Definition exact16 (s : string) : bool :=
  (String.length s =? 16)%nat && allDigits s.

(** [s.match(/[0-9]{16}/)]: the leftmost run of sixteen digits. *)
Fixpoint search16 (s : string) : option string :=
  match s with
  | EmptyString => None
  | String _ s' =>
      let w := String.substring 0 16 s in
      if exact16 w then Some w else search16 s'
  end.

(** [s.match(/[0-9]{10,}/)]: the leftmost maximal run of ten or more
    digits. *)
Fixpoint digitRun (s : string) : string :=
  match s with
  | String c s' => if isDigit c then String c (digitRun s') else EmptyString
  | EmptyString => EmptyString
  end.

Fixpoint searchRun10 (s : string) : option string :=
  match s with
  | EmptyString => None
  | String _ s' =>
      let w := digitRun s in
      if (10 <=? String.length w)%nat then Some w else searchRun10 s'
  end.

Definition lowerAscii (c : ascii) : ascii :=
  let n := nat_of_ascii c in
  if (65 <=? n)%nat && (n <=? 90)%nat then ascii_of_nat (n + 32) else c.

Fixpoint toLowerCase (s : string) : string :=
  match s with
  | EmptyString => EmptyString
  | String c s' => String (lowerAscii c) (toLowerCase s')
  end.

Definition startsWith (s p : string) : bool := String.prefix p s.

(** [hay.includes(needle)] for a non-empty needle. *)
Fixpoint includes (hay needle : string) : bool :=
  match hay with
  | EmptyString => false
  | String _ hay' => String.prefix needle hay || includes hay' needle
  end.

(** [typeof v === 'string' && v.match(/^[0-9]{16}$/)] *)
Definition isPandIdString (v : value) : option string :=
  match v with
  | JStr s => if exact16 s then Some s else None
  | _ => None
  end.

(** Arithmetic on [num]. A division by zero is not finite. *)
Definition nlift2 (f : Q -> Q -> Q) (a b : num) : num :=
  match a, b with
  | Some x, Some y => Some (f x y)
  | _, _ => None
  end.
Definition nadd := nlift2 Qplus.
Definition nsub := nlift2 Qminus.
Definition nmul := nlift2 Qmult.
Definition ndiv (a b : num) : num :=
  match a, b with
  | Some x, Some y => if Qeq_bool y 0 then None else Some (x / y)%Q
  | _, _ => None
  end.
Definition ofZ (n : Z) : num := Some (inject_Z n).

End JS.
Export JS.

(** ** The tile engine *)

Record Cartographic := {
  longitude : Q;
  latitude : Q;
  height : Q
}.

(** What the code asks of Cesium's geometry and of the language's
    string-to-number coercion. *)
Class CesiumMath := {
  Cartesian3 : Type;
  Matrix4 : Type;
  Quaternion : Type;
  (** [new Cesium.Cartesian3(x, y, z)] *)
  newCartesian3 : num -> num -> num -> Cartesian3;
  (** [Cesium.Cartesian3.fromRadians(lon, lat, h)] *)
  fromRadians : Q -> Q -> num -> Cartesian3;
  (** [Cesium.Cartesian3.fromDegrees(lng, lat, h)] *)
  fromDegrees : Q -> Q -> Q -> Cartesian3;
  (** [Cesium.Cartographic.fromCartesian(p)] *)
  fromCartesian : Cartesian3 -> Cartographic;
  (** [Cesium.Matrix4.getTranslation(m, _)] *)
  getTranslation : Matrix4 -> Cartesian3;
  (** [Cesium.Matrix4.multiplyByPoint(m, p, _)] *)
  multiplyByPoint : Matrix4 -> Cartesian3 -> Cartesian3;
  (** [Quaternion.fromRotationMatrix(getMatrix3(eastNorthUpToFixedFrame(p)))] *)
  eastNorthUpQuaternion : Cartesian3 -> Quaternion;
  (** [Number(s)] on a string *)
  stringToNumber : string -> num
}.

(** A flat engine for concrete scenarios: a point is its own cartographic
    triple and a matrix is a translation. *)
Definition flatCartographic (p : Q * Q * num) : Cartographic :=
  {| longitude := p.1.1; latitude := p.1.2;
     height := match p.2 with Some h => h | None => 0%Q end |}.

Definition flatEngine : CesiumMath := {|
  Cartesian3 := Q * Q * num;
  Matrix4 := Q * Q * Q;
  Quaternion := unit;
  newCartesian3 := fun x y z =>
    (match x with Some q => q | None => 0%Q end,
     match y with Some q => q | None => 0%Q end, z);
  fromRadians := fun lon lat h => (lon, lat, h);
  fromDegrees := fun lng lat h => (lng, lat, Some h);
  fromCartesian := flatCartographic;
  getTranslation := fun m => (m.1.1, m.1.2, Some m.2);
  multiplyByPoint := fun m p =>
    ((p.1.1 + m.1.1)%Q, (p.1.2 + m.1.2)%Q, nadd p.2 (Some m.2));
  eastNorthUpQuaternion := fun _ => tt;
  stringToNumber := fun _ => None
|}.

Section Scene.
Context `{CesiumMath}.

Record BoundingSphere := {
  center : Cartesian3;
  radius : Q
}.

Record Tile := {
  computedTransform : option Matrix4;
  transform : option Matrix4;
  tile_boundingSphere : option BoundingSphere
}.

(** Rows of a batch table as seen from one feature: each property name
    with the value [getProperty(batchId, name)] returns. *)
Record BatchTable := {
  (** [false] when the table has no [getPropertyNames] *)
  bt_hasGetPropertyNames : bool;
  bt_properties : list (string * value)
}.

Record Content := {
  tile : option Tile;
  (** [_content._model.modelMatrix] *)
  modelMatrix : option Matrix4;
  content_boundingSphere : option BoundingSphere;
  url : option string;
  batchTable : option BatchTable
}.

Record Primitive := {
  primitive_id : value;
  primitive_boundingSphere : option BoundingSphere
}.

(** A [Cesium3DTileFeature]. [content] is the engine's public getter for
    [_content], so one field serves both spellings. [fid] is the identity
    of the object. *)
Record Feature := {
  fid : nat;
  properties : list (string * value);
  primitive : option Primitive;
  _content : option Content
}.

Fixpoint assoc (l : list (string * value)) (name : string) : option value :=
  match l with
  | [] => None
  | (k, v) :: l' => if String.eqb k name then Some v else assoc l' name
  end.

Definition hasProperty (f : Feature) (name : string) : bool :=
  match assoc (properties f) name with Some _ => true | None => false end.

Definition getProperty (f : Feature) (name : string) : value :=
  match assoc (properties f) name with Some v => v | None => JUndefined end.

Definition getPropertyNames (f : Feature) : list string :=
  map fst (properties f).

End Scene.

(** ** FeatureIdentifier: [BuildingSelector.getFeatureBuildingId] *)

Module FeatureIdentifier.
Section FeatureIdentifier.
Context `{CesiumMath}.

Definition canonicalNames : list string :=
  ["PANDID"; "pandid"; "id"; "ID"; "buildingId"; "gml:id"].

(** The [for (const propName of [...])] loop with its early return. *)
Fixpoint checkNames (f : Feature) (names : list string) : option string :=
  match names with
  | [] => None
  | propName :: rest =>
      if hasProperty f propName then
        match isPandIdString (getProperty f propName) with
        | Some v => Some v
        | None => checkNames f rest
        end
      else checkNames f rest
  end.

(** The [gml:id] block. *)
Definition checkGmlId (f : Feature) : option string :=
  if hasProperty f "gml:id"
  then search16 (toString (getProperty f "gml:id"))
  else None.

(** The loop over the batch table's property names. *)
Fixpoint checkBatchNames (rows : list (string * value)) (names : list string)
  : option string :=
  match names with
  | [] => None
  | name :: rest =>
      if includes (toLowerCase name) "id" then
        match isPandIdString
                (match assoc rows name with Some v => v | None => JUndefined end)
        with
        | Some v => Some v
        | None => checkBatchNames rows rest
        end
      else checkBatchNames rows rest
  end.

Definition extractBuildingIdFromFeature (f : Feature) : option string :=
  match _content f with
  | Some c =>
      match batchTable c with
      | Some bt =>
          if bt_hasGetPropertyNames bt
          then checkBatchNames (bt_properties bt) (map fst (bt_properties bt))
          else None
      | None => None
      end
  | None => None
  end.

(** The value the promise of [getFeatureBuildingId] resolves with;
    [None] is [null]. The function only reads the feature. *)
Definition getFeatureBuildingId (f : Feature) : option string :=
  match checkNames f canonicalNames with
  | Some v => Some v
  | None =>
      match checkGmlId f with
      | Some v => Some v
      | None =>
          match extractBuildingIdFromFeature f with
          | Some featureId =>
              if negb (String.eqb featureId "") then Some featureId else None
          | None => None
          end
      end
  end.

(** The scan the styling code and [clearSelection] run over every
    property: an exact sixteen-digit string, else an embedded run, on
    string values only. *)
Fixpoint scanNames (f : Feature) (names : list string) : option string :=
  match names with
  | [] => None
  | propName :: rest =>
      match getProperty f propName with
      | JStr s =>
          if exact16 s then Some s
          else match search16 s with
               | Some m => Some m
               | None => scanNames f rest
               end
      | _ => scanNames f rest
      end
  end.

Definition scanAllProperties (f : Feature) : option string :=
  scanNames f (getPropertyNames f).

(** *** The strategy chain as the specification words it *)

(** The first success of an ordered list of attempts. *)
Fixpoint firstSuccess {A} (attempts : list (option A)) : option A :=
  match attempts with
  | [] => None
  | Some a :: _ => Some a
  | None :: rest => firstSuccess rest
  end.

(** Strategy 1: the canonical names, in their fixed order, tested for a
    string of exactly sixteen digits. *)
Definition canonicalNameStrategy (f : Feature) : option string :=
  firstSuccess
    (map (fun name => assoc (properties f) name ≫= isPandIdString)
         canonicalNames).

(** Strategy 2: a sixteen-digit run embedded in the gml-style identifier. *)
Definition gmlIdStrategy (f : Feature) : option string :=
  assoc (properties f) "gml:id" ≫= (fun v => search16 (toString v)).

(** Strategy 3: the batch-table property names containing "id", with the
    test of strategy 1. *)
Definition batchTableStrategy (f : Feature) : option string :=
  bt ← _content f ≫= batchTable;
  if bt_hasGetPropertyNames bt then
    firstSuccess
      (map (fun name =>
              if includes (toLowerCase name) "id"
              then assoc (bt_properties bt) name ≫= isPandIdString
              else None)
           (map fst (bt_properties bt)))
  else None.

(** Strategy 4: every property value scanned for an embedded
    sixteen-digit run. *)
Definition fallbackScanStrategy (f : Feature) : option string :=
  firstSuccess
    (map (fun name => search16 (toString (getProperty f name)))
         (getPropertyNames f)).

Definition identifyByFourStrategies (f : Feature) : option string :=
  firstSuccess [canonicalNameStrategy f; gmlIdStrategy f;
                batchTableStrategy f; fallbackScanStrategy f].

Definition identifyByThreeStrategies (f : Feature) : option string :=
  firstSuccess [canonicalNameStrategy f; gmlIdStrategy f;
                batchTableStrategy f].

End FeatureIdentifier.
End FeatureIdentifier.

(** ** Property records *)

(** An integer column of a unit row as it arrives in JSON: absent from the
    object, [null], or a number. *)
Inductive field :=
| FUndefined
| FNull
| FNum (n : Z).

Record PropertyRecord := {
  (** [None] when the row carries no (or an empty) [pandid] *)
  pandid : option string;
  wozobjectnr : string;
  bwjr : field;
  bwlg_vb0 : field;
  laagste_bwlg_pnd : field;
  hoogste_bwlg_pnd : field;
  aant_bwlg_pnd : field
}.

(** [v && v > 0] *)
Definition positiveField (v : field) : option Z :=
  match v with
  | FNum n => if (0 <? n)%Z then Some n else None
  | _ => None
  end.

(** [v !== undefined] *)
Definition defined (v : field) : bool :=
  match v with FUndefined => false | _ => true end.

(** The operand of [-]: [null] counts as zero. *)
Definition fieldToZ (v : field) : Z :=
  match v with FNum n => n | _ => 0%Z end.

(** [p.bwlg_vb0 === floorNum] *)
Definition onFloor (floorNum : Z) (p : PropertyRecord) : bool :=
  match bwlg_vb0 p with
  | FNum n => (n =? floorNum)%Z
  | _ => false
  end.

(** ** Colours *)

Inductive Color :=
| RGBA (r g b a : Q)
| HSLA (h s l a : Q).

Definition RED := RGBA 1 0 0.
Definition BLUE := RGBA 0 0 1.
Definition YELLOW := RGBA 1 1 0.
Definition WHITE := RGBA 1 1 1.
Definition GRAY := RGBA (128 # 255) (128 # 255) (128 # 255).
Definition fromHsl := HSLA.

(** ** FloorGenerator *)

Module FloorGenerator.
Section FloorGenerator.
Context `{CesiumMath}.

Record FloorInfo := {
  totalFloors : Z;
  floorUnits : list nat
}.

Record Geometry := {
  g_position : Cartesian3;
  g_width : Q;
  g_length : Q;
  (** the height as the arithmetic of the floor loop reads it *)
  g_height : num;
  g_orientationQuaternion : Quaternion;
  g_boundingSphere : option BoundingSphere;
  g_worldMatrix : option Matrix4;
  g_isLShaped : bool
}.

Record PositionInfo := {
  pi_position : Cartesian3;
  pi_screenPosition : option (Q * Q);
  pi_isManual : bool
}.

Record Box := {
  box_dimensions : num * num * num;
  box_material : option Color;
  box_fill : bool
}.

(** The [properties] bag of a floor entity. *)
Record FloorProps := {
  fp_buildingId : string;
  fp_floorNumber : Z;
  fp_floorHeight : num;
  fp_unitsCount : nat
}.

(** A [Cesium.Entity]. The id is the one given to the constructor, or a
    generated one. [e_children] is the [children] member that
    [setFloorsVisible] reads; no constructor call sets it. *)
Record Entity := {
  e_id : string + nat;
  e_name : option string;
  e_position : Cartesian3;
  e_orientation : option Quaternion;
  e_box : option Box;
  e_label : option string;
  e_properties : option FloorProps;
  e_parent : option nat;
  e_children : option (list nat);
  e_show : bool
}.

Definition setShow (visible : bool) (e : Entity) : Entity :=
  {| e_id := e_id e; e_name := e_name e; e_position := e_position e;
     e_orientation := e_orientation e; e_box := e_box e;
     e_label := e_label e; e_properties := e_properties e;
     e_parent := e_parent e; e_children := e_children e;
     e_show := visible |}.

(** The generator together with the viewer's entity collection it owns a
    reference to. [heap] holds every entity object ever constructed;
    [collection] is [viewer.entities], keyed by entity id; the keys of
    [floorEntities] and [buildingPositions] are building ids, [None] being
    the key [null].

    Debug markers and the messages written to the page are left out:
    marker ids start with "debug_" and a marker is removed before it is
    added again, so markers neither collide with floor or outline ids nor
    throw. *)
Record State := {
  heap : gmap nat Entity;
  nextRef : nat;
  collection : gmap (string + nat) nat;
  floorEntities : gmap (option string) (list nat);
  activeBuilding : option string;
  buildingPositions : gmap (option string) PositionInfo
}.

Definition initial : State :=
  {| heap := ∅; nextRef := 0; collection := ∅; floorEntities := ∅;
     activeBuilding := None; buildingPositions := ∅ |}.

Definition withHeap (h : gmap nat Entity) (s : State) : State :=
  {| heap := h; nextRef := nextRef s; collection := collection s;
     floorEntities := floorEntities s; activeBuilding := activeBuilding s;
     buildingPositions := buildingPositions s |}.

Definition withCollection (c : gmap (string + nat) nat) (s : State) : State :=
  {| heap := heap s; nextRef := nextRef s; collection := c;
     floorEntities := floorEntities s; activeBuilding := activeBuilding s;
     buildingPositions := buildingPositions s |}.

Definition withFloorEntities (m : gmap (option string) (list nat)) (s : State)
  : State :=
  {| heap := heap s; nextRef := nextRef s; collection := collection s;
     floorEntities := m; activeBuilding := activeBuilding s;
     buildingPositions := buildingPositions s |}.

Definition withActiveBuilding (b : option string) (s : State) : State :=
  {| heap := heap s; nextRef := nextRef s; collection := collection s;
     floorEntities := floorEntities s; activeBuilding := b;
     buildingPositions := buildingPositions s |}.

Definition withBuildingPositions (m : gmap (option string) PositionInfo)
  (s : State) : State :=
  {| heap := heap s; nextRef := nextRef s; collection := collection s;
     floorEntities := floorEntities s; activeBuilding := activeBuilding s;
     buildingPositions := m |}.

(** *** A state monad with exceptions

    [None] is a thrown exception; the state reached before the throw is
    kept, as mutations are in the source. *)

Definition G (A : Type) : Type := State -> option A * State.

#[local] Instance G_ret : MRet G := fun A x s => (Some x, s).
#[local] Instance G_bind : MBind G := fun A B f m s =>
  match m s with
  | (Some a, s') => f a s'
  | (None, s') => (None, s')
  end.

#[local] Instance G_fmap : FMap G := fun A B f m s =>
  match m s with
  | (Some a, s') => (Some (f a), s')
  | (None, s') => (None, s')
  end.

Definition throw {A} : G A := fun s => (None, s).

Definition tryCatch {A} (body handler : G A) : G A := fun s =>
  match body s with
  | (Some a, s') => (Some a, s')
  | (None, s') => handler s'
  end.

Definition modify (f : State -> State) : G unit := fun s => (Some tt, f s).

(** *** The entity collection *)

(** [new Cesium.Entity({...})]: [mk] receives the fresh reference, which
    also seeds the generated id. *)
Definition newEntity (mk : nat -> Entity) : G nat := fun s =>
  let r := nextRef s in
  (Some r,
   {| heap := <[r := mk r]> (heap s); nextRef := S r;
      collection := collection s; floorEntities := floorEntities s;
      activeBuilding := activeBuilding s;
      buildingPositions := buildingPositions s |}).

(** [viewer.entities.contains(entity)] *)
Definition contains (s : State) (r : nat) : bool :=
  match heap s !! r with
  | Some e => bool_decide (collection s !! e_id e = Some r)
  | None => false
  end.

(** [viewer.entities.add(entity)]: throws when the id is already taken. *)
Definition entities_add (r : nat) : G unit := fun s =>
  match heap s !! r with
  | Some e =>
      match collection s !! e_id e with
      | Some _ => (None, s)
      | None => (Some tt, withCollection (<[e_id e := r]> (collection s)) s)
      end
  | None => (None, s)
  end.

(** [if (entity && viewer.entities.contains(entity)) viewer.entities.remove(entity)] *)
Definition removeIfContained (s : State) (r : nat) : State :=
  match heap s !! r with
  | Some e =>
      if contains s r then withCollection (delete (e_id e) (collection s)) s
      else s
  | None => s
  end.

(** *** Positions *)

Definition setBuildingPosition (buildingId : option string)
  (positionInfo : PositionInfo) (s : State) : State :=
  withBuildingPositions (<[buildingId := positionInfo]> (buildingPositions s)) s.

Definition getBuildingPosition (s : State) (buildingId : option string)
  : option PositionInfo :=
  buildingPositions s !! buildingId.

(** *** Identification used by the generator *)

Definition extractBuildingId (feature : option Feature) : option string :=
  match feature with
  | None => None
  | Some f =>
      let id := or_else (or_else (getProperty f "id")
                                 (getProperty f "identificatie"))
                        (getProperty f "identificatie_bag") in
      if truthy id then Some (toString id)
      else
        match primitive f with
        | Some p =>
            if truthy (primitive_id p) then Some (toString (primitive_id p))
            else
              match _content f with
              | Some c =>
                  match url c with Some u => searchRun10 u | None => None end
              | None => None
              end
        | None =>
            match _content f with
            | Some c =>
                match url c with Some u => searchRun10 u | None => None end
            | None => None
            end
        end
  end.

(** *** Floor count *)

Definition countOnFloor (properties : list PropertyRecord) (i : Z) : nat :=
  length (filter (fun p => onFloor i p = true) properties).

Definition getDetailedFloorInfo (properties : list PropertyRecord)
  : option FloorInfo :=
  match properties with
  | [] => None
  | firstProp :: _ =>
      let totalFloors :=
        match positiveField (aant_bwlg_pnd firstProp) with
        | Some n => n
        | None =>
            if defined (hoogste_bwlg_pnd firstProp)
               && defined (laagste_bwlg_pnd firstProp)
            then (fieldToZ (hoogste_bwlg_pnd firstProp)
                  - fieldToZ (laagste_bwlg_pnd firstProp) + 1)%Z
            else 9%Z
        end in
      Some {| totalFloors := totalFloors;
              floorUnits := map (countOnFloor properties) (seqZ 0 totalFloors) |}
  end.

(** The [uniqueFloors] set after the [forEach]. *)
Definition uniqueFloors (properties : list PropertyRecord) : gset Z :=
  foldl (fun acc prop =>
           match bwlg_vb0 prop with
           | FNum n => acc ∪ {[ n ]}
           | _ => acc
           end) ∅ properties.

(** The floor indices observed in the rows, in order, with repetitions. *)
Definition floorIndices (properties : list PropertyRecord) : list Z :=
  omap (fun p => match bwlg_vb0 p with FNum n => Some n | _ => None end)
       properties.

Definition getTotalFloors (properties : list PropertyRecord) : Z :=
  match properties with
  | [] => 15%Z
  | firstProp :: _ =>
      match positiveField (aant_bwlg_pnd firstProp) with
      | Some n => n
      | None =>
          if defined (hoogste_bwlg_pnd firstProp)
             && defined (laagste_bwlg_pnd firstProp)
          then (fieldToZ (hoogste_bwlg_pnd firstProp)
                - fieldToZ (laagste_bwlg_pnd firstProp) + 1)%Z
          else
            let n := size (uniqueFloors properties) in
            if (0 <? n)%nat then Z.of_nat n else 15%Z
      end
  end.

(** The priority as the specification words it, a field being present
    when it carries a number: (a) the total of the first record if
    positive; (b) highest - lowest + 1 if both are present; (c) the number
    of distinct floor indices observed; (d) fifteen. *)
Definition present (v : field) : option Z :=
  match v with FNum n => Some n | _ => None end.

Definition floorCountAsSpecified (properties : list PropertyRecord) : Z :=
  match properties with
  | [] => 15%Z
  | firstProp :: _ =>
      match positiveField (aant_bwlg_pnd firstProp) with
      | Some total => total
      | None =>
          match present (hoogste_bwlg_pnd firstProp),
                present (laagste_bwlg_pnd firstProp) with
          | Some highest, Some lowest => (highest - lowest + 1)%Z
          | _, _ =>
              let distinct := length (remove_dups (floorIndices properties)) in
              if (0 <? distinct)%nat then Z.of_nat distinct else 15%Z
          end
      end
  end.

Definition getPropertiesOnFloor (properties : list PropertyRecord)
  (floorNum : Z) : list PropertyRecord :=
  filter (fun p => onFloor floorNum p = true) properties.

(** The unit sits on one of the floors [0 .. totalFloors - 1]. *)
Definition onSomeFloor (totalFloors : Z) (p : PropertyRecord) : bool :=
  match bwlg_vb0 p with
  | FNum n => (0 <=? n)%Z && (n <? totalFloors)%Z
  | _ => false
  end.

(** *** Colour *)

Definition getFloorColor (floorNum totalFloors : Z) : Color :=
  if (floorNum =? 0)%Z then RED (8 # 10)
  else if (floorNum =? totalFloors - 1)%Z then BLUE (8 # 10)
  else
    let normalizedHeight :=
      (inject_Z floorNum / inject_Z (Z.max 1 (totalFloors - 1)))%Q in
    fromHsl ((6 # 10) - normalizedHeight * (6 # 10))%Q (8 # 10) (6 # 10) (8 # 10).

(** *** Geometry *)

Definition defaultGeometry (position : Cartesian3) : Geometry :=
  {| g_position := position; g_width := 40; g_length := 40;
     g_height := Some 45%Q;
     g_orientationQuaternion := eastNorthUpQuaternion position;
     g_boundingSphere := None; g_worldMatrix := None;
     g_isLShaped := false |}.

(** [feature.getProperty('height') || radius * 2], read as a number. *)
Definition heightOr (v : value) (fallback : Q) : num :=
  if truthy v then
    match v with
    | JNum n => Some (inject_Z n)
    | JStr s => stringToNumber s
    | JBool _ => Some 1%Q
    | _ => None
    end
  else Some fallback.

Definition orElse {A} (a b : option A) : option A :=
  match a with Some x => Some x | None => b end.

(** Nothing in the body throws in this model, so the [catch] branch of
    the source is not represented. The "final try" block of the source
    assigns [position] after [finalPosition] has been fixed and so does
    not reach the result. *)
Definition extractDetailedGeometry (feature : option Feature)
  (storedPosition : option PositionInfo) : option Geometry :=
  let stored := pi_position <$> storedPosition in
  match feature ≫= (fun f => (fun c => (f, c)) <$> _content f) with
  | None => defaultGeometry <$> stored
  | Some (f, c) =>
      let worldMatrix :=
        tile c ≫= (fun t => orElse (computedTransform t) (transform t)) in
      let primitiveSphere := primitive f ≫= primitive_boundingSphere in
      let tileSphere := tile c ≫= tile_boundingSphere in
      let position :=
        match stored with
        | Some p => Some p
        | None =>
            let fromModel := getTranslation <$> modelMatrix c in
            let fromBounds :=
              match fromModel, tile c with
              | Some p, _ => Some p
              | None, Some t =>
                  match primitiveSphere with
                  | Some bs => Some (center bs)
                  | None =>
                      match tile_boundingSphere t with
                      | Some bs =>
                          match worldMatrix with
                          | Some m => Some (multiplyByPoint m (center bs))
                          | None => Some (center bs)
                          end
                      | None => None
                      end
                  end
              | None, None => None
              end in
            let fromContent :=
              orElse fromBounds (center <$> content_boundingSphere c) in
            orElse fromContent (center <$> tileSphere)
        end in
      let found :=
        orElse primitiveSphere (orElse tileSphere (content_boundingSphere c)) in
      let boundingSphere :=
        orElse found ((fun p => {| center := p; radius := 40 |}) <$> position) in
      match boundingSphere with
      | None => None
      | Some bs =>
          let finalPosition :=
            match position with Some p => p | None => center bs end in
          let r := radius bs in
          Some {| g_position := finalPosition;
                  g_width := (r * (16 # 10) * (8 # 10))%Q;
                  g_length := (r * (16 # 10) * (8 # 10))%Q;
                  g_height := heightOr (getProperty f "height") (r * 2)%Q;
                  g_orientationQuaternion := eastNorthUpQuaternion finalPosition;
                  g_boundingSphere := Some bs;
                  g_worldMatrix := worldMatrix;
                  g_isLShaped :=
                    bool_decide (extractBuildingId (Some f)
                                 = Some "0599100000035588") |}
      end
  end.

(** *** Floor entities *)

Definition floorEntityId (buildingId : string) (floorNum : Z) : string + nat :=
  inl ("floor_" +:+ buildingId +:+ "_" +:+ showZ floorNum).

Definition floorName (floorNum : Z) : string :=
  "Floor " +:+ showZ (floorNum + 1).

Definition floorLabel (floorNum : Z) (units : nat) : string :=
  floorName floorNum +:+
  (if (0 <? units)%nat then " (" +:+ showZ (Z.of_nat units) +:+ " units)"
   else "").

Definition createFloorEntityFromGeometry (buildingId : string) (floorNum : Z)
  (position : Cartesian3) (geometry : Geometry) (floorHeight : num)
  (color : Color) (floorProperties : list PropertyRecord) : G nat :=
  newEntity (fun _ =>
    {| e_id := floorEntityId buildingId floorNum;
       e_name := Some (floorName floorNum);
       e_position := position;
       e_orientation := Some (g_orientationQuaternion geometry);
       e_box := Some {| box_dimensions :=
                          (Some (g_width geometry * (95 # 100))%Q,
                           Some (g_length geometry * (95 # 100))%Q,
                           nmul floorHeight (Some (8 # 10)));
                        box_material := Some color;
                        box_fill := true |};
       e_label := Some (floorLabel floorNum (length floorProperties));
       e_properties := Some {| fp_buildingId := buildingId;
                               fp_floorNumber := floorNum;
                               fp_floorHeight := floorHeight;
                               fp_unitsCount := length floorProperties |};
       e_parent := None; e_children := None; e_show := true |}).

(** The two boxes of the L are added to the viewer here; the parent is
    returned for the caller to add. [None] is the [null] of the [catch]. *)
Definition createComplexShapeFloorEntity (buildingId : string) (floorNum : Z)
  (position : Cartesian3) (geometry : Geometry) (floorHeight : num)
  (color : Color) (floorProperties : list PropertyRecord)
  (orientation : Quaternion) : G (option nat) :=
  tryCatch
    (if String.eqb buildingId "0599100000035588" then
       let baseSize := (g_width geometry * (12 # 10))%Q in
       parentEntity ← newEntity (fun _ =>
         {| e_id := floorEntityId buildingId floorNum;
            e_name := Some (floorName floorNum);
            e_position := position;
            e_orientation := Some orientation;
            e_box := None;
            e_label := Some (floorLabel floorNum (length floorProperties));
            e_properties := Some {| fp_buildingId := buildingId;
                                    fp_floorNumber := floorNum;
                                    fp_floorHeight := floorHeight;
                                    fp_unitsCount := length floorProperties |};
            e_parent := None; e_children := None; e_show := true |});
       mainPartEntity ← newEntity (fun r =>
         {| e_id := inr r; e_name := None;
            e_position := newCartesian3 (Some (baseSize * (2 # 10))%Q)
                                        (Some 0%Q) (Some 0%Q);
            e_orientation := None;
            e_box := Some {| box_dimensions :=
                               (Some (baseSize * (6 # 10))%Q, Some baseSize,
                                nmul floorHeight (Some (8 # 10)));
                             box_material := Some color; box_fill := true |};
            e_label := None; e_properties := None;
            e_parent := Some parentEntity; e_children := None;
            e_show := true |});
       extensionEntity ← newEntity (fun r =>
         {| e_id := inr r; e_name := None;
            e_position := newCartesian3 (Some 0%Q)
                                        (Some (baseSize * -(3 # 10))%Q)
                                        (Some 0%Q);
            e_orientation := None;
            e_box := Some {| box_dimensions :=
                               (Some baseSize, Some (baseSize * (4 # 10))%Q,
                                nmul floorHeight (Some (8 # 10)));
                             box_material := Some color; box_fill := true |};
            e_label := None; e_properties := None;
            e_parent := Some parentEntity; e_children := None;
            e_show := true |});
       entities_add mainPartEntity;;
       entities_add extensionEntity;;
       mret (Some parentEntity)
     else
       Some <$> createFloorEntityFromGeometry buildingId floorNum position
                  geometry floorHeight color floorProperties)
    (mret None).

Definition addBuildingOutline (buildingId : string) (geometry : Geometry)
  (buildingHeight : num) : G unit :=
  tryCatch
    (outline ← newEntity (fun _ =>
       {| e_id := inl ("building_outline_" +:+ buildingId);
          e_name := None;
          e_position := g_position geometry;
          e_orientation := Some (g_orientationQuaternion geometry);
          e_box := Some {| box_dimensions :=
                             (Some (g_width geometry * 2)%Q,
                              Some (g_length geometry * 2)%Q, buildingHeight);
                           box_material := None; box_fill := false |};
          e_label := None; e_properties := None;
          e_parent := None; e_children := None; e_show := true |});
     entities_add outline)
    (mret tt).

(** *** Removal and visibility *)

Definition removeFloorModels (buildingId : option string) (s : State)
  : bool * State :=
  match floorEntities s !! buildingId with
  | Some (r :: rest) =>
      let s' := foldl removeIfContained s (r :: rest) in
      (true, withFloorEntities (delete buildingId (floorEntities s')) s')
  | _ => (false, s)
  end.

Definition removeAllFloorModels (s : State) : State :=
  let tracked := concat (map snd (map_to_list (floorEntities s))) in
  withFloorEntities ∅ (foldl removeIfContained s tracked).

(** [if (child) child.show = visible] *)
Definition showChild (visible : bool) (s : State) (child : nat) : State :=
  withHeap (alter (setShow visible) child (heap s)) s.

(** The body of the [forEach] in [setFloorsVisible]. *)
Definition showEntity (visible : bool) (s : State) (r : nat) : State :=
  match heap s !! r with
  | Some e =>
      if contains s r then
        let s' := withHeap (<[r := setShow visible e]> (heap s)) s in
        match e_children e with
        | Some children => foldl (showChild visible) s' children
        | None => s'
        end
      else s
  | None => s
  end.

Definition setFloorsVisible (buildingId : option string) (visible : bool)
  (s : State) : bool * State :=
  match floorEntities s !! buildingId with
  | Some (r :: rest) => (true, foldl (showEntity visible) s (r :: rest))
  | _ => (false, s)
  end.

(** *** The floor stack *)

(** [cartographic.height - buildingHeight / 2] *)
Definition buildingBottom (anchorHeight : Q) (buildingHeight : num) : num :=
  nsub (Some anchorHeight) (ndiv buildingHeight (Some 2%Q)).

(** [buildingHeight / totalFloors] *)
Definition floorHeightOf (buildingHeight : num) (totalFloors : Z) : num :=
  ndiv buildingHeight (ofZ totalFloors).

(** [buildingBottom + floorNum * floorHeight + floorHeight / 2] *)
Definition floorZ (anchorHeight : Q) (buildingHeight : num) (totalFloors : Z)
  (floorNum : Z) : num :=
  let floorHeight := floorHeightOf buildingHeight totalFloors in
  nadd (nadd (buildingBottom anchorHeight buildingHeight)
             (nmul (ofZ floorNum) floorHeight))
       (ndiv floorHeight (Some 2%Q)).

(** The z-range of a floor in the sense of the specification: the slab of
    thickness [floorHeight] around the centre the loop computes. *)
Definition zRange (anchorHeight : Q) (buildingHeight : num) (totalFloors : Z)
  (floorNum : Z) : num * num :=
  let half := ndiv (floorHeightOf buildingHeight totalFloors) (Some 2%Q) in
  let z := floorZ anchorHeight buildingHeight totalFloors floorNum in
  (nsub z half, nadd z half).

(** The vertical extent of the box that is drawn: its height is the third
    of the [dimensions] of [createFloorEntityFromGeometry]. *)
Definition boxRange (anchorHeight : Q) (buildingHeight : num) (totalFloors : Z)
  (floorNum : Z) : num * num :=
  let boxHeight :=
    nmul (floorHeightOf buildingHeight totalFloors) (Some (8 # 10)) in
  let half := ndiv boxHeight (Some 2%Q) in
  let z := floorZ anchorHeight buildingHeight totalFloors floorNum in
  (nsub z half, nadd z half).

(** One turn of the [for] loop of [generateFloorModels]. *)
Definition generateFloor (buildingId : string) (geometry : Geometry)
  (properties : list PropertyRecord) (totalFloors : Z) (isLShaped : bool)
  (floorEntities : list nat) (floorNum : Z) : G (list nat) :=
  let cartographic := fromCartesian (g_position geometry) in
  let buildingHeight := g_height geometry in
  let floorHeight := floorHeightOf buildingHeight totalFloors in
  let floorPosition :=
    fromRadians (longitude cartographic) (latitude cartographic)
      (floorZ (height cartographic) buildingHeight totalFloors floorNum) in
  let floorProperties := getPropertiesOnFloor properties floorNum in
  let color := getFloorColor floorNum totalFloors in
  entity ←
    (if isLShaped then
       createComplexShapeFloorEntity buildingId floorNum floorPosition
         geometry floorHeight color floorProperties
         (g_orientationQuaternion geometry)
     else
       Some <$> createFloorEntityFromGeometry buildingId floorNum
                  floorPosition geometry floorHeight color floorProperties);
  match entity with
  | Some r => entities_add r;; mret (floorEntities ++ [r])
  | None => mret floorEntities
  end.

(** Monadic left fold: a [for] loop that threads its accumulator. *)
Fixpoint forEachM {A B} (f : B -> A -> G B) (l : list A) (acc : B) : G B :=
  match l with
  | [] => mret acc
  | x :: l' => acc' ← f acc x; forEachM f l' acc'
  end.

Definition generateFloorModels (buildingFeature : option Feature)
  (properties : list PropertyRecord) : G bool :=
  tryCatch
    (match extractBuildingId buildingFeature with
     | None => mret false
     | Some buildingId =>
         if String.eqb buildingId "" then mret false else
         fun s =>
         let storedPosition := getBuildingPosition s (Some buildingId) in
         match extractDetailedGeometry buildingFeature storedPosition with
         | None => (Some false, s)
         | Some buildingGeometry =>
             match getDetailedFloorInfo properties with
             | None => (Some false, s)
             | Some floorInfo =>
                 if (totalFloors floorInfo <=? 0)%Z then (Some false, s) else
                 (modify (fun s => (removeFloorModels (Some buildingId) s).2);;
                  let isLShaped :=
                    g_isLShaped buildingGeometry
                    || String.eqb buildingId "0599100000035588" in
                  created ← forEachM
                    (generateFloor buildingId buildingGeometry properties
                       (totalFloors floorInfo) isLShaped)
                    (seqZ 0 (totalFloors floorInfo)) [];
                  modify (fun s =>
                    withFloorEntities
                      (<[Some buildingId := created]> (floorEntities s)) s);;
                  modify (withActiveBuilding (Some buildingId));;
                  addBuildingOutline buildingId buildingGeometry
                    (g_height buildingGeometry);;
                  mret true) s
             end
         end
     end)
    (mret false).

(** [destroy] *)
Definition destroy (s : State) : State := removeAllFloorModels s.

(** [new FloorGenerator(viewer)] on a viewer that is already in use: the
    entities of the viewer, and maps of its own. *)
Definition onViewer (s : State) : State :=
  {| heap := heap s; nextRef := nextRef s; collection := collection s;
     floorEntities := ∅; activeBuilding := None; buildingPositions := ∅ |}.

(** The viewer as another generator [other] left it, with the maps of the
    generator [s]. *)
Definition viewerOf (other s : State) : State :=
  {| heap := heap other; nextRef := nextRef other;
     collection := collection other; floorEntities := floorEntities s;
     activeBuilding := activeBuilding s;
     buildingPositions := buildingPositions s |}.

(** The entity references some building's list tracks. *)
Definition tracked (s : State) (r : nat) : Prop :=
  exists buildingId entities,
    floorEntities s !! buildingId = Some entities /\ r ∈ entities.

(** The floors [0 .. length created - 1] of a building stand in the
    viewer: the [i]-th reference of [created] is an entity object that
    carries the id of floor [i] and its number of units, is shown, and is
    the entity the viewer holds under that id. *)
Definition floorsStand (buildingId : string)
  (properties : list PropertyRecord) (created : list nat) (s : State)
  : Prop :=
  forall (i : nat) (r : nat),
    created !! i = Some r ->
    r < nextRef s
    /\ exists e,
        heap s !! r = Some e
        /\ e_id e = floorEntityId buildingId (Z.of_nat i)
        /\ e_show e = true
        /\ fp_unitsCount <$> e_properties e
           = Some (length (getPropertiesOnFloor properties (Z.of_nat i)))
        /\ collection s !! floorEntityId buildingId (Z.of_nat i) = Some r.

(** *** Where a generated floor stands *)

(** The height of a box: the third of its [dimensions]. *)
Definition boxHeight (b : Box) : num := (box_dimensions b).2.

(** [c] is a part of the compound floor [r]: an entity object, held by
    the viewer, grouped under [r] ([parent: parentEntity]) with no height
    offset from it (the third argument of its
    [new Cesium.Cartesian3(x, y, 0)]), whose box has height [h]. *)
Definition isPart (s : State) (r : nat) (h : num) (c : nat) : Prop :=
  exists e x y,
    c < nextRef s
    /\ heap s !! c = Some e
    /\ contains s c = true
    /\ e_parent e = Some r
    /\ e_position e = newCartesian3 x y (Some 0%Q)
    /\ boxHeight <$> e_box e = Some h.

(** Floor [floorNum] of the building stands at [r] where the loop of
    [generateFloorModels] puts it: [r] is an entity object and the one the
    viewer holds under the floor's id; its position is the anchor's longitude and
    latitude at the height [floorZ]; it records the floor height; and
    what draws it has 0.8 of the floor height: its own box, or, for the
    building of the L-shaped special case, which has no box of its own,
    the boxes of two parts. *)
Definition floorPlaced (buildingId : string) (geometry : Geometry)
  (totalFloors floorNum : Z) (r : nat) (s : State) : Prop :=
  let cartographic := fromCartesian (g_position geometry) in
  let floorHeight := floorHeightOf (g_height geometry) totalFloors in
  let drawn := nmul floorHeight (Some (8 # 10)) in
  exists e,
    r < nextRef s
    /\ heap s !! r = Some e
    /\ contains s r = true
    /\ e_id e = floorEntityId buildingId floorNum
    /\ e_position e
       = fromRadians (longitude cartographic) (latitude cartographic)
           (floorZ (height cartographic) (g_height geometry) totalFloors
              floorNum)
    /\ fp_floorHeight <$> e_properties e = Some floorHeight
    /\ if String.eqb buildingId "0599100000035588"
       then e_box e = None
            /\ exists main extension,
                 main <> extension
                 /\ isPart s r drawn main /\ isPart s r drawn extension
       else boxHeight <$> e_box e = Some drawn.

(** *** Visibility bookkeeping *)

(** Everything but the heap. *)
Definition besidesHeap (s : State) :=
  (nextRef s, collection s, floorEntities s, activeBuilding s,
   buildingPositions s).

(** Where [showEntity] writes. *)
Definition showTargets (s : State) (r : nat) : list nat :=
  match heap s !! r with
  | Some e =>
      if contains s r then
        r :: match e_children e with Some children => children | None => [] end
      else []
  | None => []
  end.

(** Same state up to the [show] flags of the entities. *)
Definition sameButShow (s s' : State) : Prop :=
  besidesHeap s' = besidesHeap s
  /\ forall x, setShow true <$> heap s' !! x = setShow true <$> heap s !! x.

(** Every target of [showEntity] at [r] already has the flag [v]. *)
Definition shownAt (v : bool) (s : State) (r : nat) : Prop :=
  forall x e, x ∈ showTargets s r -> heap s !! x = Some e -> e_show e = v.

(** *** Frame conditions *)

(** A computation respects [R] when every run, thrown or not, ends in a
    state related to the one it started from. *)
Definition respects (R : relation State) {A} (m : G A) : Prop :=
  forall s, R s (m s).2.

(** Objects already constructed are not written to, and references are
    not reused. *)
Definition keepsObjects : relation State := fun s s' =>
  nextRef s <= nextRef s'
  /\ forall r, r < nextRef s -> heap s' !! r = heap s !! r.

(** The position cache is not written to. *)
Definition keepsPositions : relation State := fun s s' =>
  buildingPositions s' = buildingPositions s.

(** What a relation must satisfy for every generator computation to
    respect it: it is a preorder, and the primitive writes respect it. *)
Class Frame (R : relation State) : Prop := {
  frame_preorder :: PreOrder R;
  frame_newEntity : forall mk, respects R (newEntity mk);
  frame_collection : forall c s, R s (withCollection c s);
  frame_floorEntities : forall m s, R s (withFloorEntities m s);
  frame_activeBuilding : forall b s, R s (withActiveBuilding b s)
}.

(** The first object a computation constructs is [mk]'s. *)
Definition allocatesFirst (mk : nat -> Entity) {A} (m : G A) : Prop :=
  forall s,
    nextRef s < nextRef (m s).2
    /\ heap (m s).2 !! nextRef s = Some (mk (nextRef s)).

End FloorGenerator.
End FloorGenerator.

(** ** BuildingDataLoader *)

Module BuildingDataLoader.

Record Loader := {
  buildingIds : gset string;
  loaded : bool
}.

(** The constructor. *)
Definition new : Loader := {| buildingIds := ∅; loaded := false |}.

(** What the request for the identifier file came back with: the request
    failed, the status was not ok, the body was not of the expected shape,
    or it carried the identifier array. *)
Inductive LoadResponse :=
| LoadNetworkError
| LoadHttpError (status : nat)
| LoadInvalid
| LoadOk (ids : list string).

Definition loadBuildingIdsFromFile (resp : LoadResponse) (l : Loader)
  : bool * Loader :=
  match resp with
  | LoadOk ids => (true, {| buildingIds := list_to_set ids; loaded := true |})
  | _ => (false, l)
  end.

(** The white space of ASCII: tab to carriage return, and the space.
    The Unicode spaces [trim] also strips (U+00A0, U+FEFF and the like)
    are outside the model. *)
Definition isSpace (c : ascii) : bool :=
  let n := nat_of_ascii c in
  ((9 <=? n)%nat && (n <=? 13)%nat) || (n =? 32)%nat.

Fixpoint trimStart (s : string) : string :=
  match s with
  | String c s' => if isSpace c then trimStart s' else s
  | EmptyString => EmptyString
  end.

Fixpoint rev (s : string) : string :=
  match s with
  | EmptyString => EmptyString
  | String c s' => rev s' +:+ String c EmptyString
  end.

(** [s.trim()] on ASCII white space *)
Definition trim (s : string) : string := rev (trimStart (rev (trimStart s))).

Definition hasBuildingId (l : Loader) (buildingId : value) : bool :=
  if negb (loaded l) then true
  else if negb (truthy buildingId) then false
  else bool_decide (trim (toString buildingId) ∈ buildingIds l).

Definition getAllBuildingIds (l : Loader) : gset string := buildingIds l.

End BuildingDataLoader.

(** ** TileStyleManager *)

Module TileStyleManager.
Section TileStyleManager.
Context `{CesiumMath}.

Record StyleManager := {
  buildingDataLoader : option BuildingDataLoader.Loader;
  buildingsWithInfo : gset string;
  databaseBuildingIds : gset string
}.

(** [this.buildingsWithInfo = new Set()] *)
Definition resetBuildingsWithInfo (sm : StyleManager) : StyleManager :=
  {| buildingDataLoader := buildingDataLoader sm;
     buildingsWithInfo := ∅;
     databaseBuildingIds := databaseBuildingIds sm |}.

Definition markBuildingHasInfo (buildingId : string) (sm : StyleManager)
  : StyleManager :=
  if String.eqb buildingId "" then sm
  else {| buildingDataLoader := buildingDataLoader sm;
          buildingsWithInfo := buildingsWithInfo sm ∪ {[ buildingId ]};
          databaseBuildingIds := databaseBuildingIds sm |}.

Definition hasBuildingInfo (sm : StyleManager) (buildingId : string) : bool :=
  bool_decide (buildingId ∈ buildingsWithInfo sm).

Definition hasBuildingData (sm : StyleManager) (buildingId : string) : bool :=
  match buildingDataLoader sm with
  | Some l =>
      if negb (BuildingDataLoader.loaded l) then false
      else if String.eqb buildingId "" then false
      else BuildingDataLoader.hasBuildingId l (JStr buildingId)
  | None => false
  end.

(** The styling twin of the selector's identification: the canonical
    names only. *)
Definition getFeatureBuildingId (feature : option Feature) : option string :=
  match feature with
  | None => None
  | Some f => FeatureIdentifier.checkNames f FeatureIdentifier.canonicalNames
  end.

(** The property scan of [applyBuildingFilter]'s colour callback: any
    value that is neither [undefined] nor [null], through [String]. *)
Fixpoint scanValues (f : Feature) (props : list string) : option string :=
  match props with
  | [] => None
  | name :: rest =>
      match getProperty f name with
      | JUndefined | JNull => scanValues f rest
      | v =>
          let valueStr := toString v in
          if exact16 valueStr then Some valueStr
          else match search16 valueStr with
               | Some m => Some m
               | None => scanValues f rest
               end
      end
  end.

Definition scanAllValues (f : Feature) : option string :=
  scanValues f (getPropertyNames f).

Definition inDatasetColor := WHITE (9 # 10).
Definition notInDatasetColor := GRAY (6 # 10).

(** [evaluateColor] of the style installed by [applyBuildingFilter]. *)
Definition evaluateColor (l : BuildingDataLoader.Loader) (feature : Feature)
  : Color :=
  match scanAllValues feature with
  | Some buildingId =>
      if negb (String.eqb buildingId "")
         && BuildingDataLoader.hasBuildingId l (JStr buildingId)
      then inDatasetColor else notInDatasetColor
  | None => notInDatasetColor
  end.

(** The colour callback [applyBuildingFilter] installs on the tilesets;
    [None] when it returns without touching any style. [tilesets] counts
    the non-null tilesets of the manager. *)
Definition applyBuildingFilter (sm : StyleManager) (tilesets : nat)
  : option (Feature -> Color) :=
  match buildingDataLoader sm with
  | Some l =>
      if negb (BuildingDataLoader.loaded l) then None
      else if (tilesets =? 0)%nat then None
      else Some (evaluateColor l)
  | None => None
  end.

(** [setBuildingDataLoader] *)
Definition setBuildingDataLoader (l : BuildingDataLoader.Loader)
  (sm : StyleManager) : StyleManager :=
  {| buildingDataLoader := Some l;
     buildingsWithInfo := buildingsWithInfo sm;
     databaseBuildingIds := databaseBuildingIds sm |}.

(** [setDatabaseBuildingIds] *)
Definition setDatabaseBuildingIds (buildingIds : list string)
  (sm : StyleManager) : StyleManager :=
  {| buildingDataLoader := buildingDataLoader sm;
     buildingsWithInfo := buildingsWithInfo sm;
     databaseBuildingIds := list_to_set buildingIds |}.

Definition hasBuildingInDatabase (sm : StyleManager) (buildingId : string)
  : bool :=
  bool_decide (buildingId ∈ databaseBuildingIds sm).

(** A style as a tileset holds it: the colour it gives a feature, read
    against the manager as it is when the feature is drawn ([that] in the
    callbacks is the manager itself, not a copy). *)
Definition Style : Type := StyleManager -> Feature -> Color.

(** The one-condition style [["true", "color('white', 0.7)"]]. *)
Definition whiteStyle : Style := fun _ _ => WHITE (7 # 10).

(** The style [applyDatabaseFilterStyle] installs on the CityGML
    tileset. *)
Definition applyDatabaseFilterStyle (sm : StyleManager) : Style :=
  if (size (databaseBuildingIds sm) =? 0)%nat then whiteStyle
  else fun that feature =>
    match FeatureIdentifier.scanAllProperties feature with
    | Some buildingId =>
        if String.eqb buildingId "" then WHITE (7 # 10)
        else if bool_decide (buildingId ∈ databaseBuildingIds that)
        then WHITE (7 # 10) else GRAY (5 # 10)
    | None => WHITE (7 # 10)
    end.

(** The style [applyNoInfoBuildingStyle] installs on the CityGML
    tileset. *)
Definition applyNoInfoBuildingStyle (sm : StyleManager) : Style :=
  fun that feature =>
    match FeatureIdentifier.scanAllProperties feature with
    | Some buildingId =>
        if String.eqb buildingId "" then GRAY (5 # 10)
        else if bool_decide (buildingId ∈ buildingsWithInfo that)
        then WHITE (7 # 10) else GRAY (5 # 10)
    | None => GRAY (5 # 10)
    end.

End TileStyleManager.
End TileStyleManager.

(** ** PropertyDataService *)

Module PropertyDataService.

(** How a [fetch] followed by [response.json()] ends: the request fails,
    the status is not ok, the body does not parse, or the data arrives. *)
Inductive Response (A : Type) :=
| NetworkError
| HttpError (status : nat)
| BadJson
| Ok (data : A).
Arguments NetworkError {A}.
Arguments HttpError {A} status.
Arguments BadJson {A}.
Arguments Ok {A} data.

(** How a promise settles. *)
Inductive Settled (A : Type) :=
| Resolved (a : A)
| Rejected (reason : string).
Arguments Resolved {A} a.
Arguments Rejected {A} reason.

Record Service := {
  cache : gmap string (list PropertyRecord);
  databaseBuildingIds : option (list string)
}.

Definition new : Service := {| cache := ∅; databaseBuildingIds := None |}.

(** A transport failure: anything but data. *)
Definition isFailure {A} (resp : Response A) : bool :=
  match resp with Ok _ => false | _ => true end.

Definition failure {A} (resp : Response A) : string :=
  match resp with
  | NetworkError => "fetch failed"
  | HttpError status => "HTTP error " +:+ showZ (Z.of_nat status)
  | BadJson => "invalid JSON"
  | Ok _ => ""
  end.

(** The part of [getPropertiesByPandId] before the request: [Some] when
    the promise settles without one. *)
Definition lookupProperties (svc : Service) (pandId : option string)
  : option (Settled (list PropertyRecord)) :=
  match pandId with
  | None => Some (Rejected "PANDID is required")
  | Some id =>
      if String.eqb id "" then Some (Rejected "PANDID is required")
      else Resolved <$> cache svc !! id
  end.

(** The part after the request came back. *)
Definition receiveProperties (svc : Service) (pandId : string)
  (resp : Response (list PropertyRecord))
  : Settled (list PropertyRecord) * Service :=
  match resp with
  | Ok data =>
      (Resolved data,
       {| cache := <[pandId := data]> (cache svc);
          databaseBuildingIds := databaseBuildingIds svc |})
  | _ => (Rejected (failure resp), svc)
  end.

(** [getPropertiesByPandId] against a request that ends with [resp]. *)
Definition getPropertiesByPandId (svc : Service) (pandId : option string)
  (resp : Response (list PropertyRecord))
  : Settled (list PropertyRecord) * Service :=
  match lookupProperties svc pandId with
  | Some settled => (settled, svc)
  | None =>
      match pandId with
      | Some id => receiveProperties svc id resp
      | None => (Rejected "PANDID is required", svc)
      end
  end.

(** [getAllPandIds] against a request that ends with [resp]. *)
Definition getAllPandIds (svc : Service) (resp : Response (list string))
  : Settled (list string) * Service :=
  match databaseBuildingIds svc with
  | Some ids => (Resolved ids, svc)
  | None =>
      match resp with
      | Ok data =>
          (Resolved data,
           {| cache := cache svc; databaseBuildingIds := Some data |})
      | _ => (Resolved [], svc)
      end
  end.

(** [buildingExistsInDatabase] against a request that ends with [resp]:
    the boolean its promise resolves with. When the identifiers could not
    be loaded, [this.databaseBuildingIds] is still [null], [includes]
    throws and the [catch] answers [false]. *)
Definition buildingExistsInDatabase (svc : Service) (pandId : option string)
  (resp : Response (list string)) : bool * Service :=
  match pandId with
  | None => (false, svc)
  | Some id =>
      if String.eqb id "" then (false, svc)
      else
        let svc' :=
          match databaseBuildingIds svc with
          | Some _ => svc
          | None => (getAllPandIds svc resp).2
          end in
        match databaseBuildingIds svc' with
        | Some ids => (bool_decide (id ∈ ids), svc')
        | None => (false, svc')
        end
  end.

End PropertyDataService.

(** ** InfoPanel *)

Module InfoPanel.

Inductive Content :=
| Placeholder
| Properties (allProperties : list PropertyRecord)
| Error (message : string).

(** [toggleButton] is the floor toggle of [buildingControls] with its
    active flag, when the button exists. *)
Record Panel := {
  visible : bool;
  content : Content;
  toggleButton : option bool
}.

Definition new : Panel :=
  {| visible := false; content := Placeholder; toggleButton := None |}.

Definition hide (p : Panel) : Panel :=
  {| visible := false; content := content p; toggleButton := toggleButton p |}.

Definition showError (message : string) (p : Panel) : Panel :=
  {| visible := true; content := Error message; toggleButton := None |}.

Definition displayProperties (properties : list PropertyRecord) (p : Panel)
  : Panel :=
  match properties with
  | [] => showError "No information available for this building" p
  | _ => {| visible := true; content := Properties properties;
            toggleButton := toggleButton p |}
  end.

Definition addFloorToggleButton (initialState : bool) (p : Panel) : Panel :=
  {| visible := visible p; content := content p;
     toggleButton := Some initialState |}.

Definition updateFloorToggleButton (active : bool) (p : Panel) : Panel :=
  match toggleButton p with
  | Some _ => {| visible := visible p; content := content p;
                 toggleButton := Some active |}
  | None => p
  end.

(** *** The pages of the unit list *)

(** [allProperties] and [currentPage] of the panel. *)
Record Pager := {
  allProperties : list PropertyRecord;
  currentPage : Z
}.

Definition itemsPerPage : Z := 10.

(** What [displayProperties] stores before it renders the first page. *)
Definition openPager (properties : list PropertyRecord) : Pager :=
  {| allProperties := properties; currentPage := 1 |}.

Definition startIndex (p : Pager) : Z := ((currentPage p - 1) * itemsPerPage)%Z.

Definition endIndex (p : Pager) : Z :=
  Z.min (startIndex p + itemsPerPage) (Z.of_nat (length (allProperties p))).

(** [Math.ceil(this.allProperties.length / this.itemsPerPage)] *)
Definition totalPages (p : Pager) : Z :=
  Qceiling (inject_Z (Z.of_nat (length (allProperties p)))
            / inject_Z itemsPerPage).

(** [properties[i]]; [None] is [undefined]. *)
Definition at_index (properties : list PropertyRecord) (i : Z)
  : option PropertyRecord :=
  if (i <? 0)%Z then None else properties !! Z.to_nat i.

(** The units [displayPropertiesPage] lists, in order. *)
Definition pageRows (p : Pager) : list (option PropertyRecord) :=
  at_index (allProperties p)
    <$> seqZ (startIndex p) (endIndex p - startIndex p).

Definition startPage (p : Pager) : Z := Z.max 1 (currentPage p - 2).

Definition endPage (p : Pager) : Z := Z.min (totalPages p) (startPage p + 4).

(** The numbered page buttons that are rendered. *)
Definition pageNumbers (p : Pager) : list Z :=
  seqZ (startPage p) (endPage p - startPage p + 1).

Inductive PageButton :=
| PrevPage
| NextPage
| PageNumber (i : Z).

(** The click handler of a page button. Only a rendered button can be
    clicked, so a number that is not among [pageNumbers] changes
    nothing. *)
Definition clickPageButton (b : PageButton) (p : Pager) : Pager :=
  let page :=
    match b with
    | PrevPage =>
        if (1 <? currentPage p)%Z then (currentPage p - 1)%Z
        else currentPage p
    | NextPage =>
        if (currentPage p <? totalPages p)%Z then (currentPage p + 1)%Z
        else currentPage p
    | PageNumber i =>
        if bool_decide (i ∈ pageNumbers p) then i else currentPage p
    end in
  {| allProperties := allProperties p; currentPage := page |}.

End InfoPanel.

(** ** BuildingSelector *)

Module BuildingSelector.
Section BuildingSelector.
Context `{CesiumMath}.

#[local] Existing Instances
  FloorGenerator.G_ret FloorGenerator.G_bind FloorGenerator.G_fmap.

(** A continuation waiting for the network or for a timer. *)
Inductive Pending :=
(** [loadFeatureMapping]: the request for all building ids, launched by
    the constructor *)
| MappingFetch
(** [onLeftClick]: the property fetch for the picked building *)
| PickFetch (pandId : string)
(** [toggleFloorModels]: the property fetch, with the positions captured
    when the toggle was clicked *)
| ToggleFetch (pandId : string) (earthPosition : option Cartesian3)
    (screenPosition : option (Q * Q))
(** [toggleFloorModels]: the 200 ms delay before generation *)
| ToggleTimer (properties : list PropertyRecord)
(** [retryFloorGeneration]: the property fetch *)
| RetryFetch (pandId : string) (position : Cartesian3)
(** [retryFloorGeneration]: the 200 ms delay before generation *)
| RetryTimer (properties : list PropertyRecord) (position : Cartesian3)
(** already run *)
| Settled.

Record World := {
  floorGenerator : FloorGenerator.State;
  selectedFeature : option Feature;
  currentBuildingId : option string;
  buildingsWithInfo : gset string;
  showFloorsForSelectedBuilding : bool;
  styleManager : option TileStyleManager.StyleManager;
  dataService : PropertyDataService.Service;
  infoPanel : InfoPanel.Panel;
  (** the [color] member of the feature objects written so far *)
  featureColor : gmap nat Color;
  (** the message of the floor-generation error box, when it is shown *)
  floorGenerationError : option string;
  pending : list Pending
}.

Definition new (styleManager : option TileStyleManager.StyleManager) : World :=
  {| floorGenerator := FloorGenerator.initial;
     selectedFeature := None; currentBuildingId := None;
     buildingsWithInfo := ∅; showFloorsForSelectedBuilding := false;
     styleManager := styleManager;
     dataService := PropertyDataService.new;
     infoPanel := InfoPanel.new; featureColor := ∅;
     floorGenerationError := None; pending := [MappingFetch] |}.

Definition withFloorGenerator (x : FloorGenerator.State) (w : World) : World :=
  {| floorGenerator := x; selectedFeature := selectedFeature w;
     currentBuildingId := currentBuildingId w;
     buildingsWithInfo := buildingsWithInfo w;
     showFloorsForSelectedBuilding := showFloorsForSelectedBuilding w;
     styleManager := styleManager w; dataService := dataService w;
     infoPanel := infoPanel w; featureColor := featureColor w;
     floorGenerationError := floorGenerationError w; pending := pending w |}.

Definition withSelectedFeature (x : option Feature) (w : World) : World :=
  {| floorGenerator := floorGenerator w; selectedFeature := x;
     currentBuildingId := currentBuildingId w;
     buildingsWithInfo := buildingsWithInfo w;
     showFloorsForSelectedBuilding := showFloorsForSelectedBuilding w;
     styleManager := styleManager w; dataService := dataService w;
     infoPanel := infoPanel w; featureColor := featureColor w;
     floorGenerationError := floorGenerationError w; pending := pending w |}.

Definition withCurrentBuildingId (x : option string) (w : World) : World :=
  {| floorGenerator := floorGenerator w; selectedFeature := selectedFeature w;
     currentBuildingId := x;
     buildingsWithInfo := buildingsWithInfo w;
     showFloorsForSelectedBuilding := showFloorsForSelectedBuilding w;
     styleManager := styleManager w; dataService := dataService w;
     infoPanel := infoPanel w; featureColor := featureColor w;
     floorGenerationError := floorGenerationError w; pending := pending w |}.

Definition withInfo (x : gset string)
  (sm : option TileStyleManager.StyleManager) (w : World) : World :=
  {| floorGenerator := floorGenerator w; selectedFeature := selectedFeature w;
     currentBuildingId := currentBuildingId w;
     buildingsWithInfo := x;
     showFloorsForSelectedBuilding := showFloorsForSelectedBuilding w;
     styleManager := sm; dataService := dataService w;
     infoPanel := infoPanel w; featureColor := featureColor w;
     floorGenerationError := floorGenerationError w; pending := pending w |}.

Definition withShowFloors (x : bool) (w : World) : World :=
  {| floorGenerator := floorGenerator w; selectedFeature := selectedFeature w;
     currentBuildingId := currentBuildingId w;
     buildingsWithInfo := buildingsWithInfo w;
     showFloorsForSelectedBuilding := x;
     styleManager := styleManager w; dataService := dataService w;
     infoPanel := infoPanel w; featureColor := featureColor w;
     floorGenerationError := floorGenerationError w; pending := pending w |}.

Definition withDataService (x : PropertyDataService.Service) (w : World)
  : World :=
  {| floorGenerator := floorGenerator w; selectedFeature := selectedFeature w;
     currentBuildingId := currentBuildingId w;
     buildingsWithInfo := buildingsWithInfo w;
     showFloorsForSelectedBuilding := showFloorsForSelectedBuilding w;
     styleManager := styleManager w; dataService := x;
     infoPanel := infoPanel w; featureColor := featureColor w;
     floorGenerationError := floorGenerationError w; pending := pending w |}.

Definition withInfoPanel (x : InfoPanel.Panel) (w : World) : World :=
  {| floorGenerator := floorGenerator w; selectedFeature := selectedFeature w;
     currentBuildingId := currentBuildingId w;
     buildingsWithInfo := buildingsWithInfo w;
     showFloorsForSelectedBuilding := showFloorsForSelectedBuilding w;
     styleManager := styleManager w; dataService := dataService w;
     infoPanel := x; featureColor := featureColor w;
     floorGenerationError := floorGenerationError w; pending := pending w |}.

Definition withFeatureColor (x : gmap nat Color) (w : World) : World :=
  {| floorGenerator := floorGenerator w; selectedFeature := selectedFeature w;
     currentBuildingId := currentBuildingId w;
     buildingsWithInfo := buildingsWithInfo w;
     showFloorsForSelectedBuilding := showFloorsForSelectedBuilding w;
     styleManager := styleManager w; dataService := dataService w;
     infoPanel := infoPanel w; featureColor := x;
     floorGenerationError := floorGenerationError w; pending := pending w |}.

Definition withFloorGenerationError (x : option string) (w : World) : World :=
  {| floorGenerator := floorGenerator w; selectedFeature := selectedFeature w;
     currentBuildingId := currentBuildingId w;
     buildingsWithInfo := buildingsWithInfo w;
     showFloorsForSelectedBuilding := showFloorsForSelectedBuilding w;
     styleManager := styleManager w; dataService := dataService w;
     infoPanel := infoPanel w; featureColor := featureColor w;
     floorGenerationError := x; pending := pending w |}.

Definition withPending (x : list Pending) (w : World) : World :=
  {| floorGenerator := floorGenerator w; selectedFeature := selectedFeature w;
     currentBuildingId := currentBuildingId w;
     buildingsWithInfo := buildingsWithInfo w;
     showFloorsForSelectedBuilding := showFloorsForSelectedBuilding w;
     styleManager := styleManager w; dataService := dataService w;
     infoPanel := infoPanel w; featureColor := featureColor w;
     floorGenerationError := floorGenerationError w; pending := x |}.

(** What the scene answers when the handlers query it: the window
    position of the selected feature, the globe and ellipsoid picks under
    it, and the position [getSelectedFeaturePosition] comes back with. *)
Record SceneQueries := {
  screenPosition : option (Q * Q);
  globePick : option Cartesian3;
  ellipsoidPick : option Cartesian3;
  selectedFeaturePosition : option Cartesian3
}.

(** *** Small handlers *)

Definition paint (feature : option Feature) (c : Color) (w : World) : World :=
  match feature with
  | Some f => withFeatureColor (<[fid f := c]> (featureColor w)) w
  | None => w
  end.

Definition markBuildingHasInfo (buildingId : string) (w : World) : World :=
  if String.eqb buildingId "" then w
  else withInfo (buildingsWithInfo w ∪ {[ buildingId ]})
         (TileStyleManager.markBuildingHasInfo buildingId <$> styleManager w) w.

Definition hasBuildingInfo (w : World) (buildingId : string) : bool :=
  bool_decide (buildingId ∈ buildingsWithInfo w).

Definition showFloorGenerationError (message : string) (w : World) : World :=
  withFloorGenerationError (Some message) w.

Definition hideFloorGenerationError (w : World) : World :=
  withFloorGenerationError None w.

Definition selectFeature (feature : Feature) (w : World) : World :=
  paint (Some feature) (YELLOW (8 # 10)) (withSelectedFeature (Some feature) w).

Definition clearSelection (w : World) : World :=
  match selectedFeature w with
  | Some f =>
      let buildingId := FeatureIdentifier.scanAllProperties f in
      let color :=
        match styleManager w, buildingId with
        | Some sm, Some id =>
            if negb (String.eqb id "") then
              if TileStyleManager.hasBuildingData sm id
              then WHITE (7 # 10) else GRAY (5 # 10)
            else WHITE (7 # 10)
        | _, _ => WHITE (7 # 10)
        end in
      withSelectedFeature None (paint (Some f) color w)
  | None => w
  end.

Definition knownBuildings : list (string * (Q * Q * Q)) :=
  [("0599100000035588", (4.4727, 51.92237, 60));
   ("0599100000305732", (4.47305, 51.92235, 50));
   ("0599100000603742", (4.47423, 51.92156, 45));
   ("0599100000679233", (4.47387, 51.92348, 55));
   ("0599100000603801", (4.47302, 51.92119, 40))]%Q.

Fixpoint lookupKnown (table : list (string * (Q * Q * Q))) (id : string)
  : option (Q * Q * Q) :=
  match table with
  | [] => None
  | (k, v) :: rest => if String.eqb k id then Some v else lookupKnown rest id
  end.

(** The default Rotterdam position. *)
Definition defaultPosition : Cartesian3 := fromDegrees 4.47917 51.9225 40.

Definition getKnownBuildingPosition (buildingId : option string) : Cartesian3 :=
  match buildingId ≫= lookupKnown knownBuildings with
  | Some pos => fromDegrees pos.1.1 pos.1.2 pos.2
  | None => defaultPosition
  end.

(** [getEarthPositionFromScreen(getSelectedFeatureScreenPosition())] *)
Definition getEarthPosition (env : SceneQueries) (w : World)
  : option Cartesian3 :=
  match selectedFeature w, screenPosition env with
  | Some _, Some _ =>
      FloorGenerator.orElse (globePick env)
        (FloorGenerator.orElse (ellipsoidPick env)
           (Some (getKnownBuildingPosition (currentBuildingId w))))
  | _, _ => None
  end.

(** Runs a generator computation on the world's floor generator. *)
Definition inGenerator {A} (m : FloorGenerator.G A) (w : World)
  : option A * World :=
  let '(r, g) := m (floorGenerator w) in (r, withFloorGenerator g w).

(** *** The two generators of the selector *)

(** The floor count both of them use. *)
Definition fallbackTotalFloors (firstProp : PropertyRecord) : Z :=
  match positiveField (aant_bwlg_pnd firstProp) with
  | Some n => n
  | None =>
      if defined (hoogste_bwlg_pnd firstProp)
         && defined (laagste_bwlg_pnd firstProp)
      then (fieldToZ (hoogste_bwlg_pnd firstProp)
            - fieldToZ (laagste_bwlg_pnd firstProp) + 1)%Z
      else 15%Z
  end.

(** The colour both of them use. *)
Definition simpleFloorColor (floorNum totalFloors : Z) : Color :=
  if (floorNum =? 0)%Z then RED (7 # 10)
  else if (floorNum =? totalFloors - 1)%Z then BLUE (7 # 10)
  else
    fromHsl ((6 # 10) - (inject_Z floorNum / inject_Z totalFloors) * (6 # 10))%Q
            (8 # 10) (5 # 10) (7 # 10).

Definition plainEntity (id : string) (name : option string)
  (position : Cartesian3) (orientation : option Quaternion)
  (box : FloorGenerator.Box) (label : option string) : nat -> FloorGenerator.Entity :=
  fun _ =>
  {| FloorGenerator.e_id := inl id;
     FloorGenerator.e_name := name;
     FloorGenerator.e_position := position;
     FloorGenerator.e_orientation := orientation;
     FloorGenerator.e_box := Some box;
     FloorGenerator.e_label := label;
     FloorGenerator.e_properties := None;
     FloorGenerator.e_parent := None;
     FloorGenerator.e_children := None;
     FloorGenerator.e_show := true |}.

(** [createSimpleFloors]. The debug marker it adds last is not part of
    the model; it only bears on the returned flag, which no caller reads
    beyond logging. *)
Definition createSimpleFloors (properties : list PropertyRecord)
  (position : Cartesian3) : FloorGenerator.G bool :=
  FloorGenerator.tryCatch
    (match properties with
     | [] => FloorGenerator.throw
     | firstProp :: _ =>
         let cartographic := fromCartesian position in
         let totalFloors := fallbackTotalFloors firstProp in
         let buildingHeight := Some (inject_Z totalFloors * 3)%Q in
         let floorHeight := ndiv buildingHeight (ofZ totalFloors) in
         FloorGenerator.modify FloorGenerator.removeAllFloorModels;;
         let buildingId :=
           match pandid firstProp with
           | Some id => id
           | None => "unknown_building"
           end in
         created ← FloorGenerator.forEachM
           (fun floorEntities floorNum =>
              let baseHeight :=
                nsub (Some (height cartographic))
                     (ndiv buildingHeight (Some 2%Q)) in
              let floorBaseHeight :=
                nadd baseHeight (nmul (ofZ floorNum) floorHeight) in
              let floorCenterHeight :=
                nadd floorBaseHeight (ndiv floorHeight (Some 2%Q)) in
              entity ← FloorGenerator.newEntity
                (plainEntity
                   ("floor_" +:+ buildingId +:+ "_" +:+ showZ floorNum)
                   (Some (FloorGenerator.floorName floorNum))
                   (fromRadians (longitude cartographic)
                      (latitude cartographic) floorCenterHeight)
                   None
                   {| FloorGenerator.box_dimensions :=
                        (Some 50%Q, Some 80%Q,
                         nmul floorHeight (Some (9 # 10)));
                      FloorGenerator.box_material :=
                        Some (simpleFloorColor floorNum totalFloors);
                      FloorGenerator.box_fill := true |}
                   (Some (FloorGenerator.floorName floorNum)));
              FloorGenerator.entities_add entity;;
              mret (floorEntities ++ [entity]))
           (seqZ 0 totalFloors) [];
         FloorGenerator.modify (fun s =>
           FloorGenerator.withFloorEntities
             (<[Some buildingId := created]> (FloorGenerator.floorEntities s)) s);;
         mret (0 <? length created)%nat
     end)
    (mret false).

(** [generateFallbackFloors] after its guard; [None] when it threw. *)
Definition fallbackFloors (buildingId : option string)
  (properties : list PropertyRecord) (position : Cartesian3)
  : FloorGenerator.G unit :=
  match properties with
  | [] => mret tt
  | firstProp :: _ =>
      let idText := match buildingId with Some id => id | None => "null" end in
      let totalFloors := fallbackTotalFloors firstProp in
      let floorHeight := 3%Q in
      let buildingHeight := (inject_Z totalFloors * floorHeight)%Q in
      let cartographic := fromCartesian position in
      let buildingBottom := (height cartographic - buildingHeight / 2)%Q in
      let quaternion := eastNorthUpQuaternion position in
      created ← FloorGenerator.forEachM
        (fun floorEntities floorNum =>
           let floorZ :=
             (buildingBottom + inject_Z floorNum * floorHeight
              + floorHeight / 2)%Q in
           let floorProperties :=
             FloorGenerator.getPropertiesOnFloor properties floorNum in
           entity ← FloorGenerator.newEntity
             (plainEntity
                ("floor_" +:+ idText +:+ "_" +:+ showZ floorNum)
                (Some (FloorGenerator.floorName floorNum))
                (fromRadians (longitude cartographic) (latitude cartographic)
                   (Some floorZ))
                (Some quaternion)
                {| FloorGenerator.box_dimensions :=
                     (Some 30%Q, Some 30%Q, Some (floorHeight * (8 # 10))%Q);
                   FloorGenerator.box_material :=
                     Some (simpleFloorColor floorNum totalFloors);
                   FloorGenerator.box_fill := true |}
                (Some (FloorGenerator.floorLabel floorNum
                         (length floorProperties))));
           FloorGenerator.entities_add entity;;
           mret (floorEntities ++ [entity]))
        (seqZ 0 totalFloors) [];
      FloorGenerator.modify (fun s =>
        FloorGenerator.withFloorEntities
          (<[buildingId := created]> (FloorGenerator.floorEntities s)) s);;
      outline ← FloorGenerator.newEntity
        (plainEntity ("building_outline_" +:+ idText)
           (Some ("Building " +:+ idText +:+ " Outline"))
           position (Some quaternion)
           {| FloorGenerator.box_dimensions :=
                (Some 35%Q, Some 35%Q, Some buildingHeight);
              FloorGenerator.box_material := None;
              FloorGenerator.box_fill := false |}
           None);
      FloorGenerator.entities_add outline
  end.

Definition generateFallbackFloors (properties : list PropertyRecord)
  (position : Cartesian3) (w : World) : World :=
  match inGenerator (fallbackFloors (currentBuildingId w) properties position) w with
  | (Some _, w') => w'
  | (None, w') => showFloorGenerationError "Failed to generate fallback floors" w'
  end.

(** [generateFloors] *)
Definition generateFloors (env : SceneQueries)
  (properties : list PropertyRecord) (w : World) : bool * World :=
  match selectedFeature w, properties with
  | Some f, _ :: _ =>
      match inGenerator
              (FloorGenerator.generateFloorModels (Some f) properties) w with
      | (Some true, w') => (true, w')
      | (_, w') =>
          match selectedFeaturePosition env with
          | Some position =>
              match inGenerator (createSimpleFloors properties position) w' with
              | (Some success, w'') => (success, w'')
              | (None, w'') => (false, w'')
              end
          | None => (false, w')
          end
      end
  | _, _ => (false, w)
  end.

(** *** Promise callbacks *)

(** Chains [onSettled] on [getPropertiesByPandId(pandId)]: it runs at
    once when the promise settles without a request, and is parked as
    [waiting] otherwise. *)
Definition fetchThen (pandId : string)
  (onSettled : PropertyDataService.Settled (list PropertyRecord) -> World -> World)
  (waiting : Pending) (w : World) : World :=
  match PropertyDataService.lookupProperties (dataService w) (Some pandId) with
  | Some settled => onSettled settled w
  | None => withPending (pending w ++ [waiting]) w
  end.

Definition idText (buildingId : option string) : string :=
  match buildingId with Some id => id | None => "null" end.

(** The [.then(properties => ...)] of [onLeftClick]. *)
Definition pickThen (env : SceneQueries) (properties : list PropertyRecord)
  (w : World) : World :=
  match properties with
  | _ :: _ =>
      let w1 :=
        match currentBuildingId w with
        | Some id => markBuildingHasInfo id w
        | None => w
        end in
      let w2 :=
        withInfoPanel (InfoPanel.displayProperties properties (infoPanel w1)) w1 in
      let w3 :=
        if showFloorsForSelectedBuilding w2
        then (generateFloors env properties w2).2 else w2 in
      withInfoPanel
        (InfoPanel.addFloorToggleButton (showFloorsForSelectedBuilding w3)
           (infoPanel w3)) w3
  | [] =>
      withInfoPanel
        (InfoPanel.showError
           ("No property data available for Building ID: "
            +:+ idText (currentBuildingId w)) (infoPanel w)) w
  end.

(** The [.catch] of [onLeftClick]. *)
Definition pickCatch (w : World) : World :=
  withInfoPanel
    (InfoPanel.showError "Error retrieving building data" (infoPanel w)) w.

Definition pickSettled (env : SceneQueries)
  (settled : PropertyDataService.Settled (list PropertyRecord)) (w : World)
  : World :=
  match settled with
  | PropertyDataService.Resolved properties => pickThen env properties w
  | PropertyDataService.Rejected _ => pickCatch w
  end.

(** The callbacks of [toggleFloorModels]. *)
Definition toggleSettled (earthPosition : option Cartesian3)
  (buildingScreenPosition : option (Q * Q))
  (settled : PropertyDataService.Settled (list PropertyRecord)) (w : World)
  : World :=
  match settled with
  | PropertyDataService.Resolved (p :: ps) =>
      let w1 := paint (selectedFeature w) (YELLOW (9 # 10)) w in
      let w2 :=
        match earthPosition with
        | Some position =>
            withFloorGenerator
              (FloorGenerator.setBuildingPosition (currentBuildingId w1)
                 {| FloorGenerator.pi_position := position;
                    FloorGenerator.pi_screenPosition := buildingScreenPosition;
                    FloorGenerator.pi_isManual := false |}
                 (floorGenerator w1)) w1
        | None => w1
        end in
      withPending (pending w2 ++ [ToggleTimer (p :: ps)]) w2
  | PropertyDataService.Resolved [] =>
      showFloorGenerationError "No properties found for this building" w
  | PropertyDataService.Rejected _ =>
      showFloorGenerationError "Error fetching building data" w
  end.

Definition toggleTimer (properties : list PropertyRecord) (w : World) : World :=
  match inGenerator
          (FloorGenerator.generateFloorModels (selectedFeature w) properties) w with
  | (Some true, w') => w'
  | (_, w') => showFloorGenerationError "Failed to generate floor models" w'
  end.

(** The callbacks of [retryFloorGeneration]. *)
Definition retrySettled (position : Cartesian3)
  (settled : PropertyDataService.Settled (list PropertyRecord)) (w : World)
  : World :=
  match settled with
  | PropertyDataService.Resolved (p :: ps) =>
      withPending (pending w ++ [RetryTimer (p :: ps) position]) w
  | PropertyDataService.Resolved [] =>
      showFloorGenerationError "No properties found for this building" w
  | PropertyDataService.Rejected _ =>
      showFloorGenerationError "Error fetching building data" w
  end.

Definition retryTimer (properties : list PropertyRecord)
  (position : Cartesian3) (w : World) : World :=
  match inGenerator
          (FloorGenerator.generateFloorModels (selectedFeature w) properties) w with
  | (Some true, w') => w'
  | (_, w') => generateFallbackFloors properties position w'
  end.

(** The rest of [loadFeatureMapping], once [getAllPandIds] has settled. *)
Definition mappingSettled
  (settled : PropertyDataService.Settled (list string)) (w : World) : World :=
  match settled, styleManager w with
  | PropertyDataService.Resolved (p :: ps), Some sm =>
      withInfo (buildingsWithInfo w)
        (Some (foldl (fun sm pandId =>
                        TileStyleManager.markBuildingHasInfo pandId sm)
                 (TileStyleManager.resetBuildingsWithInfo sm) (p :: ps))) w
  | _, _ => w
  end.

(** *** Event handlers *)

(** What [viewer.scene.pick] returned. *)
Inductive Picked :=
| PickedFeature (feature : Feature)
| PickedEntity (entityId : string + nat)
| PickedNothing.

Definition deselect (w : World) : World :=
  withCurrentBuildingId None
    (withFloorGenerator
       (FloorGenerator.removeAllFloorModels (floorGenerator w))
       (withInfoPanel (InfoPanel.hide (infoPanel w)) w)).

Definition onLeftClick (env : SceneQueries) (pickedFeature : Picked)
  (w : World) : World :=
  let w := clearSelection w in
  match pickedFeature with
  | PickedFeature feature =>
      let w := selectFeature feature w in
      match FeatureIdentifier.getFeatureBuildingId feature with
      | Some pandId =>
          if String.eqb pandId "" then pickCatch w
          else
            let w := withCurrentBuildingId (Some pandId) w in
            fetchThen pandId (pickSettled env) (PickFetch pandId) w
      | None => pickCatch w
      end
  | PickedEntity (inl entityId) =>
      if startsWith entityId "floor_" then w else deselect w
  | PickedEntity (inr _) => deselect w
  | PickedNothing => deselect w
  end.

Definition toggleFloorModels (env : SceneQueries) (show : bool) (w : World)
  : World :=
  let w := hideFloorGenerationError (withShowFloors show w) in
  match currentBuildingId w with
  | Some buildingId =>
      if String.eqb buildingId "" then w
      else if show then
        match selectedFeature w with
        | Some _ =>
            let w :=
              withFloorGenerator
                (FloorGenerator.removeAllFloorModels (floorGenerator w)) w in
            let buildingScreenPosition := screenPosition env in
            let earthPosition := getEarthPosition env w in
            let w :=
              withInfoPanel
                (InfoPanel.updateFloorToggleButton show (infoPanel w)) w in
            fetchThen buildingId
              (toggleSettled earthPosition buildingScreenPosition)
              (ToggleFetch buildingId earthPosition buildingScreenPosition) w
        | None =>
            withInfoPanel
              (InfoPanel.updateFloorToggleButton show (infoPanel w))
              (showFloorGenerationError "No building selected" w)
        end
      else
        let w :=
          withFloorGenerator
            (FloorGenerator.setFloorsVisible (Some buildingId) false
               (floorGenerator w)).2 w in
        let w := paint (selectedFeature w) (YELLOW (7 # 10)) w in
        withInfoPanel (InfoPanel.updateFloorToggleButton show (infoPanel w)) w
  | None => w
  end.

Definition retryFloorGeneration (w : World) : World :=
  match currentBuildingId w with
  | Some buildingId =>
      if String.eqb buildingId "" then w
      else
        let w :=
          withFloorGenerator
            (FloorGenerator.removeAllFloorModels (floorGenerator w)) w in
        let position := getKnownBuildingPosition (Some buildingId) in
        let w :=
          withFloorGenerator
            (FloorGenerator.setBuildingPosition (Some buildingId)
               {| FloorGenerator.pi_position := position;
                  FloorGenerator.pi_screenPosition := None;
                  FloorGenerator.pi_isManual := true |}
               (floorGenerator w)) w in
        fetchThen buildingId (retrySettled position)
          (RetryFetch buildingId position) w
  | None => w
  end.

(** *** The event loop *)

Inductive Event :=
(** the request of [loadFeatureMapping], the [k]-th continuation, came
    back *)
| MappingSettled (k : nat) (resp : PropertyDataService.Response (list string))
(** a left click on the canvas *)
| LeftClick (pickedFeature : Picked)
(** a click on the close button of the info panel *)
| CloseClick
(** a click on the floor toggle of the info panel *)
| ToggleClick
(** the request of the [k]-th continuation came back *)
| FetchSettled (k : nat) (resp : PropertyDataService.Response (list PropertyRecord))
(** the timer of the [k]-th continuation fired *)
| TimerFired (k : nat)
(** the buttons of the floor-generation error box *)
| RetryClick
| DismissClick.

Definition settle (k : nat) (w : World) : World :=
  withPending (<[k := Settled]> (pending w)) w.

Definition received (pandId : string) (k : nat)
  (resp : PropertyDataService.Response (list PropertyRecord)) (w : World)
  : PropertyDataService.Settled (list PropertyRecord) * World :=
  let '(settled, svc) :=
    PropertyDataService.receiveProperties (dataService w) pandId resp in
  (settled, withDataService svc (settle k w)).

Definition step (w : World) (input : SceneQueries * Event) : World :=
  let '(env, ev) := input in
  match ev with
  | MappingSettled k resp =>
      match pending w !! k with
      | Some MappingFetch =>
          let '(settled, svc) :=
            PropertyDataService.getAllPandIds (dataService w) resp in
          mappingSettled settled (withDataService svc (settle k w))
      | _ => w
      end
  | LeftClick pickedFeature => onLeftClick env pickedFeature w
  | CloseClick => withInfoPanel (InfoPanel.hide (infoPanel w)) w
  | ToggleClick =>
      match InfoPanel.visible (infoPanel w), InfoPanel.toggleButton (infoPanel w) with
      | true, Some isCurrentlyActive =>
          toggleFloorModels env (negb isCurrentlyActive) w
      | _, _ => w
      end
  | FetchSettled k resp =>
      match pending w !! k with
      | Some (PickFetch pandId) =>
          let '(settled, w') := received pandId k resp w in
          pickSettled env settled w'
      | Some (ToggleFetch pandId earthPosition buildingScreenPosition) =>
          let '(settled, w') := received pandId k resp w in
          toggleSettled earthPosition buildingScreenPosition settled w'
      | Some (RetryFetch pandId position) =>
          let '(settled, w') := received pandId k resp w in
          retrySettled position settled w'
      | _ => w
      end
  | TimerFired k =>
      match pending w !! k with
      | Some (ToggleTimer properties) => toggleTimer properties (settle k w)
      | Some (RetryTimer properties position) =>
          retryTimer properties position (settle k w)
      | _ => w
      end
  | RetryClick =>
      match floorGenerationError w with
      | Some _ => retryFloorGeneration (hideFloorGenerationError w)
      | None => w
      end
  | DismissClick => hideFloorGenerationError w
  end.

Definition run (w : World) (trace : list (SceneQueries * Event)) : World :=
  foldl step w trace.

(** The worlds the application can be in. *)
Definition reachable (w : World) : Prop :=
  exists styleManager trace, w = run (new styleManager) trace.

(** The building ids whose tracked floor entities include one that is in
    the viewer and shown. *)
Definition showsFloorsOf (w : World) (buildingId : option string) : bool :=
  match FloorGenerator.floorEntities (floorGenerator w) !! buildingId with
  | Some tracked =>
      existsb (fun r =>
        FloorGenerator.contains (floorGenerator w) r
        && match FloorGenerator.heap (floorGenerator w) !! r with
           | Some e => FloorGenerator.e_show e
           | None => false
           end) tracked
  | None => false
  end.

(** *** Other public methods *)

(** [setStyleManager]. The loop runs over a set; marking is a union, so
    the order of the elements does not show in the result. *)
Definition setStyleManager
  (styleManager : option TileStyleManager.StyleManager) (w : World) : World :=
  withInfo (buildingsWithInfo w)
    ((fun sm =>
        if (0 <? size (buildingsWithInfo w))%nat then
          foldl (fun sm buildingId =>
                   TileStyleManager.markBuildingHasInfo buildingId sm)
                sm (elements (buildingsWithInfo w))
        else sm) <$> styleManager) w.

(** [updateBuildingsWithInfo] *)
Definition updateBuildingsWithInfo (pandIds : list string) (w : World)
  : World :=
  withInfo (list_to_set pandIds)
    ((fun sm =>
        foldl (fun sm pandId => TileStyleManager.markBuildingHasInfo pandId sm)
              (TileStyleManager.resetBuildingsWithInfo sm) pandIds)
       <$> styleManager w) w.

(** [destroy], as far as the viewer's entities go. *)
Definition destroy (w : World) : World :=
  withFloorGenerator (FloorGenerator.destroy (floorGenerator w)) w.

(** The building a pending request asks the service for. *)
Definition requestedId (p : Pending) : option string :=
  match p with
  | PickFetch pandId => Some pandId
  | ToggleFetch pandId _ _ => Some pandId
  | RetryFetch pandId _ => Some pandId
  | _ => None
  end.

(** Every building id the selector holds, has asked the service for, has
    cached properties of or has marked as having info is a numeral of
    sixteen digits. *)
Definition idsWellFormed (w : World) : Prop :=
  (forall id, currentBuildingId w = Some id -> exact16 id = true)
  /\ (forall k p id,
        pending w !! k = Some p -> requestedId p = Some id ->
        exact16 id = true)
  /\ (forall id,
        is_Some (PropertyDataService.cache (dataService w) !! id) ->
        exact16 id = true)
  /\ (forall id, id ∈ buildingsWithInfo w -> exact16 id = true).

End BuildingSelector.
End BuildingSelector.

(** ** The server's reading of the dataset file

    The file arrives as the lines [readline] yields; the first one is the
    header. *)

Module Server.

(** [line.split(sep)] *)
Fixpoint split (sep : ascii) (s : string) : list string :=
  match s with
  | EmptyString => [EmptyString]
  | String c s' =>
      if Ascii.eqb c sep then EmptyString :: split sep s'
      else
        match split sep s' with
        | w :: ws => String c w :: ws
        | [] => [String c EmptyString]
        end
  end.

(** A [Set] of strings in insertion order, as [Array.from] lists it. *)
Definition add (x : string) (set : list string) : list string :=
  if bool_decide (x ∈ set) then set else set ++ [x].

(** One turn of the loop of [/api/buildingIds]. *)
Definition collectBuildingId (unique : list string) (line : string)
  : list string :=
  let values := split ";" line in
  if (6 <=? length values)%nat then
    match values !! 5%nat with
    | Some pandid =>
        if negb (String.eqb pandid "")
           && negb (String.eqb (BuildingDataLoader.trim pandid) "")
        then add (BuildingDataLoader.trim pandid) unique
        else unique
    | None => unique
    end
  else unique.

(** The [buildingIds] array [/api/buildingIds] answers with. *)
Definition buildingIds (lines : list string) : list string :=
  foldl collectBuildingId [] (tail lines).

(** One turn of the loop of [/api/pandids] over the file. *)
Definition collectPandId (unique : list string) (line : string)
  : list string :=
  let values := split ";" line in
  if (6 <=? length values)%nat then
    match values !! 5%nat with
    | Some pandid =>
        if negb (String.eqb pandid "") then add pandid unique else unique
    | None => unique
    end
  else unique.

(** What [/api/pandids] answers with when the database is empty. *)
Definition pandIds (lines : list string) : list string :=
  foldl collectPandId [] (tail lines).

(** [values.length >= 6 && values[5] === pandid] *)
Definition mentions (pandid : string) (line : string) : bool :=
  let values := split ";" line in
  (6 <=? length values)%nat
  && match values !! 5%nat with
     | Some v => String.eqb v pandid
     | None => false
     end.

(** [checkedBuildingIds] and [buildingsWithData] *)
Record ExistenceCache := {
  checkedBuildingIds : gset string;
  buildingsWithData : gset string
}.

Definition noneChecked : ExistenceCache :=
  {| checkedBuildingIds := ∅; buildingsWithData := ∅ |}.

(** [buildingExistsInDataset]; [file] is [None] when the file does not
    exist. *)
Definition buildingExistsInDataset (file : option (list string))
  (pandid : string) (c : ExistenceCache) : bool * ExistenceCache :=
  if bool_decide (pandid ∈ checkedBuildingIds c)
  then (bool_decide (pandid ∈ buildingsWithData c), c)
  else
    match file with
    | None => (false, c)
    | Some lines =>
        let found := existsb (mentions pandid) (tail lines) in
        (found,
         {| checkedBuildingIds := checkedBuildingIds c ∪ {[ pandid ]};
            buildingsWithData :=
              if found then buildingsWithData c ∪ {[ pandid ]}
              else buildingsWithData c |})
    end.

End Server.

(** ** The height control of the page *)

Module HeightControl.

Definition displayOffset : Z := 35.
Definition southOffset : Z := 3.
Definition eastOffset : Z := 28.
Definition initialHeightOffset : Z := 35.

(** The translation [updateBuildingHeight] gives every tileset. *)
Definition updateBuildingHeight (displayValue : Z) : Z * Z * Z :=
  (eastOffset, southOffset, (displayValue + displayOffset)%Z).

(** The translation the tilesets start with. *)
Definition initialTranslation : Z * Z * Z :=
  (eastOffset, southOffset, initialHeightOffset).

(** The [input] handler of the number field; [parsed] is what [parseInt]
    made of the text, [None] being [NaN]. *)
Definition onNumberInput (parsed : option Z) : Z * Z * Z :=
  let value := match parsed with Some v => v | None => 0%Z end in
  let value := Z.max (-100) (Z.min 100 value) in
  updateBuildingHeight value.

(** The [input] handler of the slider. *)
Definition onSliderInput (parsed : Z) : Z * Z * Z :=
  updateBuildingHeight parsed.

End HeightControl.

(** ** Scenarios

    Concrete features, records and event traces, on the flat engine. *)

Module Scenarios.

#[local] Existing Instance flatEngine.

Definition X : string := "0599100000668111".
Definition Y : string := "0599100000035589".
Definition Z0 : string := "0599100000679000".

Definition row (id : string) (floorIndex lowest highest total : field)
  : PropertyRecord :=
  {| pandid := Some id; wozobjectnr := "WOZ-" +:+ id; bwjr := FNum 1973;
     bwlg_vb0 := floorIndex; laagste_bwlg_pnd := lowest;
     hoogste_bwlg_pnd := highest; aant_bwlg_pnd := total |}.

(** A unit row that carries no floor range. *)
Definition unit_ (id : string) (floorIndex : field) (total : field)
  : PropertyRecord :=
  row id floorIndex FUndefined FUndefined total.

Definition recordsX : list PropertyRecord :=
  [unit_ X (FNum 0) (FNum 2); unit_ X (FNum 0) (FNum 2);
   unit_ X (FNum 1) (FNum 2)].

Definition recordsY : list PropertyRecord := [unit_ Y (FNum 0) (FNum 3)].

Definition recordsZ : list PropertyRecord := [unit_ Z0 (FNum 0) (FNum 4)].

(** Two units on floors 0 and 1 of a building whose rows carry neither a
    floor total nor a floor range. *)
Definition recordsBare : list PropertyRecord :=
  [unit_ X (FNum 0) FUndefined; unit_ X (FNum 1) FUndefined].

(** One unit of which no floor is known. *)
Definition recordsNoIndex : list PropertyRecord :=
  [unit_ X FNull FUndefined].

(** Two units on floors 1 and 2 as the repository's server sends them
    when total and range are unknown: the fields are there and [null]. *)
Definition recordsNullRange : list PropertyRecord :=
  [row X (FNum 1) FNull FNull FNull; row X (FNum 2) FNull FNull FNull].

Definition sphere : BoundingSphere :=
  {| center := (4.5, 51.9, Some 30)%Q; radius := 10 |}.

Definition tileContent : Content :=
  {| tile := Some {| computedTransform := None; transform := None;
                     tile_boundingSphere := Some sphere |};
     modelMatrix := None; content_boundingSphere := None; url := None;
     batchTable := None |}.

(** A building whose tile attributes carry its id under [id]. *)
Definition building (n : nat) (id : string) : Feature :=
  {| fid := n; properties := [("id", JStr id)]; primitive := None;
     _content := Some tileContent |}.

(** A building identified by [PANDID] only. *)
Definition pandidOnly (n : nat) (id : string) : Feature :=
  {| fid := n; properties := [("PANDID", JStr id)]; primitive := None;
     _content := Some tileContent |}.

(** A building whose id is embedded in a free-text attribute. *)
Definition embeddedOnly : Feature :=
  {| fid := 7; properties := [("naam", JStr "pand 0599100000668111 (flat)")];
     primitive := None; _content := Some tileContent |}.

Definition picked : Cartesian3 := (4.5012, 51.9034, Some 12)%Q.

(** The geometry the resolver falls back to at a stored anchor. *)
Definition geometryAtPicked : FloorGenerator.Geometry :=
  FloorGenerator.defaultGeometry picked.

Definition quiet : BuildingSelector.SceneQueries :=
  {| BuildingSelector.screenPosition := None;
     BuildingSelector.globePick := None;
     BuildingSelector.ellipsoidPick := None;
     BuildingSelector.selectedFeaturePosition := None |}.

(** The scene answers the toggle with a globe pick under the building. *)
Definition globe : BuildingSelector.SceneQueries :=
  {| BuildingSelector.screenPosition := Some (640, 360)%Q;
     BuildingSelector.globePick := Some picked;
     BuildingSelector.ellipsoidPick := None;
     BuildingSelector.selectedFeaturePosition := None |}.

(** The generator after the floors of X have been generated. *)
Definition floorsOfX : FloorGenerator.State :=
  (FloorGenerator.generateFloorModels (Some (building 1 X)) recordsX
     FloorGenerator.initial).2.

(** Floor number and unit count of the tracked floor entities of a
    building. *)
Definition unitsPerFloor (s : FloorGenerator.State) (buildingId : string)
  : list (Z * nat) :=
  match FloorGenerator.floorEntities s !! Some buildingId with
  | Some tracked =>
      omap (fun r : nat =>
              match FloorGenerator.heap s !! r with
              | Some e =>
                  match FloorGenerator.e_properties e with
                  | Some p => Some (FloorGenerator.fp_floorNumber p,
                                    FloorGenerator.fp_unitsCount p)
                  | None => None
                  end
              | None => None
              end) tracked
  | None => []
  end.

(** The application at start-up: the identifier set is loaded and holds
    X and Y, and the selector has just been constructed. *)
Definition loader : BuildingDataLoader.Loader :=
  (BuildingDataLoader.loadBuildingIdsFromFile
     (BuildingDataLoader.LoadOk [X; Y]) BuildingDataLoader.new).2.

Definition styleManager : TileStyleManager.StyleManager :=
  {| TileStyleManager.buildingDataLoader := Some loader;
     TileStyleManager.buildingsWithInfo := ∅;
     TileStyleManager.databaseBuildingIds := ∅ |}.

Definition start : BuildingSelector.World :=
  BuildingSelector.new (Some styleManager).

Definition Trace : Type :=
  list (BuildingSelector.SceneQueries * BuildingSelector.Event).

Definition click (feature : Feature)
  : BuildingSelector.SceneQueries * BuildingSelector.Event :=
  (quiet, BuildingSelector.LeftClick (BuildingSelector.PickedFeature feature)).

Definition fetched (k : nat) (records : list PropertyRecord)
  : BuildingSelector.SceneQueries * BuildingSelector.Event :=
  (quiet, BuildingSelector.FetchSettled k (PropertyDataService.Ok records)).

Definition timer (k : nat)
  : BuildingSelector.SceneQueries * BuildingSelector.Event :=
  (quiet, BuildingSelector.TimerFired k).

(** X is picked; its fetch, continuation 1, is pending (continuation 0 is
    the request of [loadFeatureMapping]). *)
Definition pickX : Trace := [click (building 1 X)].

(** Scenario E: Y is picked while the fetch for X is pending; the fetch
    for Y comes back first, the one for X after it. *)
Definition scenarioE : Trace :=
  [click (building 1 X); click (building 2 Y);
   fetched 2 recordsY; fetched 1 recordsX].

(** X is picked and its floors are switched on; then Y is picked. *)
Definition pickToggleThenPick : Trace :=
  [click (building 1 X); fetched 1 recordsX;
   (quiet, BuildingSelector.ToggleClick); timer 2;
   click (building 2 Y); fetched 3 recordsY].

(** A building outside the surveyed table is picked, its floors are
    switched on with a globe pick for anchor, and generation fails. *)
Definition toggleWithGlobePick : Trace :=
  [click (pandidOnly 3 Z0); fetched 1 recordsZ;
   (globe, BuildingSelector.ToggleClick); timer 2].

(** ... and the user clicks Retry. *)
Definition thenRetry : Trace :=
  toggleWithGlobePick ++ [(quiet, BuildingSelector.RetryClick)].

(** A style manager whose identifier set has not been loaded. *)
Definition unloadedManager : TileStyleManager.StyleManager :=
  {| TileStyleManager.buildingDataLoader := Some BuildingDataLoader.new;
     TileStyleManager.buildingsWithInfo := ∅;
     TileStyleManager.databaseBuildingIds := ∅ |}.

(** X has been picked, its floors have been switched on and the timer has
    generated them. *)
Definition floorsOnX : BuildingSelector.World :=
  BuildingSelector.run start
    [click (building 1 X); fetched 1 recordsX;
     (quiet, BuildingSelector.ToggleClick); timer 2].

(** A building that carries its id twice: bare under [PANDID], which
    the selector reads, and prefixed under [identificatie], which the
    generator reads. *)
Definition prefixedX : string := "NL.IMBAG.Pand.0599100000668111".

Definition twiceNamed : Feature :=
  {| fid := 4;
     properties := [("identificatie", JStr prefixedX); ("PANDID", JStr X)];
     primitive := None; _content := Some tileContent |}.

(** ... picked, with its floors switched on and generated. *)
Definition floorsOnTwiceNamed : BuildingSelector.World :=
  BuildingSelector.run start
    [click twiceNamed; fetched 1 recordsX;
     (quiet, BuildingSelector.ToggleClick); timer 2].

(** The building of the L-shaped special case, with three units on two
    floors. *)
Definition L : string := "0599100000035588".

Definition recordsL : list PropertyRecord :=
  [unit_ L (FNum 0) (FNum 2); unit_ L (FNum 1) (FNum 2);
   unit_ L (FNum 1) (FNum 2)].

(** X has been picked and its properties have arrived. *)
Definition pickedX : BuildingSelector.World :=
  BuildingSelector.run start [click (building 1 X); fetched 1 recordsX].

(** A dataset file of the server: the header and two rows, the first of
    them for X. *)
Definition datasetLines : list string :=
  ["wozobjectnr;straat;hnr;hltr;pstc;pandid;bwjr";
   "1001;Kerkstraat;12;;3011AB;0599100000668111;1973";
   "1002;Kerkstraat;14;;3011AB; 0599100000035589 ;1973"].

End Scenarios.

(** * Properties *)

(** ** Floor colour *)

Lemma max_one_pred (totalFloors : Z) :
  (2 <= totalFloors)%Z -> Z.max 1 (totalFloors - 1) = (totalFloors - 1)%Z.
Proof. lia. Qed.

(** C7, amended. For every floor count of at least one, floor 0 gets the
    ground colour (red, alpha 0.8); when there are at least two floors the
    top floor gets the top colour (blue, alpha 0.8), and when there is one
    the only floor gets the ground colour; every floor strictly between
    the two gets an HSL colour of saturation 0.8, lightness 0.6 and alpha
    0.8 whose hue is the linear interpolation, at index/(floorCount-1),
    between two fixed and distinct hues, the same for every floor count.
    Which of the two hues lies at the ground end is not part of the
    statement. *)
Theorem getFloorColor_gradient :
  exists hueA hueB : Q,
    ~ (hueA == hueB)%Q
    /\ forall totalFloors : Z,
         (1 <= totalFloors)%Z ->
         FloorGenerator.getFloorColor 0 totalFloors = RED (8 # 10)
         /\ ((2 <= totalFloors)%Z ->
             FloorGenerator.getFloorColor (totalFloors - 1) totalFloors
             = BLUE (8 # 10))
         /\ (totalFloors = 1%Z ->
             FloorGenerator.getFloorColor (totalFloors - 1) totalFloors
             = RED (8 # 10))
         /\ (forall floorNum : Z,
               (0 < floorNum < totalFloors - 1)%Z ->
               exists hue : Q,
                 FloorGenerator.getFloorColor floorNum totalFloors
                 = fromHsl hue (8 # 10) (6 # 10) (8 # 10)
                 /\ (let t := inject_Z floorNum / inject_Z (totalFloors - 1) in
                     hue == hueA + (hueB - hueA) * t)%Q).
Proof.
  exists (6 # 10), 0%Q. split; [discriminate |].
  intros totalFloors Hn. split; [reflexivity | split; [| split]].
  - intros H2. unfold FloorGenerator.getFloorColor.
    destruct (Z.eqb_spec (totalFloors - 1) 0) as [E | _]; [lia |].
    rewrite Z.eqb_refl. reflexivity.
  - intros ->. reflexivity.
  - intros floorNum [Hlo Hhi]. unfold FloorGenerator.getFloorColor.
    destruct (Z.eqb_spec floorNum 0) as [E | _]; [lia |].
    destruct (Z.eqb_spec floorNum (totalFloors - 1)) as [E | _]; [lia |].
    rewrite max_one_pred by lia.
    eexists. split; [reflexivity |]. cbv zeta. ring.
Qed.

Lemma getFloorColor_gradient_witness :
  (1 <= 5)%Z
  /\ FloorGenerator.getFloorColor 0 5 = RED (8 # 10)
  /\ FloorGenerator.getFloorColor (5 - 1) 5 = BLUE (8 # 10).
Proof.
  assert (H5 : (1 <= 5)%Z) by lia.
  destruct getFloorColor_gradient as (hueA & hueB & _ & Hgradient).
  destruct (Hgradient 5%Z H5) as (Hground & Htop & _).
  split; [exact H5 | split; [exact Hground | apply Htop; lia]].
Defined.

(** C7, as stated, fails for a building of one floor: its top floor is
    floor 0 and is painted with the ground colour, not the top colour. *)
Lemma single_floor_top_is_ground_color :
  FloorGenerator.getFloorColor (1 - 1) 1 = RED (8 # 10)
  /\ FloorGenerator.getFloorColor (1 - 1) 1 <> BLUE (8 # 10).
Proof. split; [reflexivity | discriminate]. Qed.

(** ** Floor count *)

Lemma uniqueFloors_fold (properties : list PropertyRecord) (acc : gset Z) :
  foldl (fun acc prop =>
           match bwlg_vb0 prop with
           | FNum n => acc ∪ {[ n ]}
           | _ => acc
           end) acc properties
  = acc ∪ list_to_set (FloorGenerator.floorIndices properties).
Proof.
  revert acc. induction properties as [| p ps IH]; intros acc; simpl.
  - symmetry. apply (right_id_L ∅ (∪)).
  - rewrite IH. unfold FloorGenerator.floorIndices. simpl.
    destruct (bwlg_vb0 p); simpl; try reflexivity.
    symmetry. apply (assoc_L (∪)).
Qed.

Lemma uniqueFloors_distinct (properties : list PropertyRecord) :
  size (FloorGenerator.uniqueFloors properties)
  = length (remove_dups (FloorGenerator.floorIndices properties)).
Proof.
  unfold FloorGenerator.uniqueFloors. rewrite uniqueFloors_fold.
  rewrite <- (size_list_to_set (C := gset Z)) by apply NoDup_remove_dups.
  f_equal. rewrite (left_id_L ∅ (∪)). apply set_eq. intros x.
  rewrite !elem_of_list_to_set, elem_of_remove_dups. reflexivity.
Qed.

(** [getTotalFloors] follows the specified priority on every list whose
    first record has no [null] in its floor range. *)
Lemma getTotalFloors_as_specified (firstProp : PropertyRecord)
  (rest : list PropertyRecord) :
  hoogste_bwlg_pnd firstProp <> FNull ->
  laagste_bwlg_pnd firstProp <> FNull ->
  FloorGenerator.getTotalFloors (firstProp :: rest)
  = FloorGenerator.floorCountAsSpecified (firstProp :: rest).
Proof.
  intros Hhi Hlo.
  unfold FloorGenerator.getTotalFloors, FloorGenerator.floorCountAsSpecified.
  destruct (positiveField (aant_bwlg_pnd firstProp)); [reflexivity |].
  rewrite uniqueFloors_distinct.
  destruct (hoogste_bwlg_pnd firstProp), (laagste_bwlg_pnd firstProp);
    try contradiction; reflexivity.
Qed.

(** What [getDetailedFloorInfo], the count [generateFloorModels] uses,
    computes on a non-empty list. *)
Lemma getDetailedFloorInfo_totalFloors (firstProp : PropertyRecord)
  (rest : list PropertyRecord) :
  FloorGenerator.totalFloors
    <$> FloorGenerator.getDetailedFloorInfo (firstProp :: rest)
  = Some
      match positiveField (aant_bwlg_pnd firstProp) with
      | Some total => total
      | None =>
          if defined (hoogste_bwlg_pnd firstProp)
             && defined (laagste_bwlg_pnd firstProp)
          then (fieldToZ (hoogste_bwlg_pnd firstProp)
                - fieldToZ (laagste_bwlg_pnd firstProp) + 1)%Z
          else 9%Z
      end.
Proof. reflexivity. Qed.

(** C2 at failing inputs. On two rows that carry neither a floor total
    nor a floor range and show two distinct floor indices the specified
    count is 2, and [getTotalFloors] answers 2, but the count
    [generateFloorModels] takes from [getDetailedFloorInfo] is 9, and nine
    floor entities are generated. With no floor index either, the
    specified count is 15 and the generator's is 9. When the range
    fields are there and null, the generator's count is 1 where the
    specified count is 2. *)
Theorem generateFloorModels_ignores_floor_indices :
  (FloorGenerator.floorCountAsSpecified Scenarios.recordsBare = 2%Z
   /\ FloorGenerator.getTotalFloors Scenarios.recordsBare = 2%Z
   /\ FloorGenerator.totalFloors
        <$> FloorGenerator.getDetailedFloorInfo Scenarios.recordsBare
      = Some 9%Z
   /\ (let '(result, s) :=
         FloorGenerator.generateFloorModels (H := flatEngine)
           (Some (Scenarios.building 1 Scenarios.X)) Scenarios.recordsBare
           FloorGenerator.initial in
       result = Some true
       /\ length <$> (FloorGenerator.floorEntities s !! Some Scenarios.X)
          = Some 9%nat))
  /\ (FloorGenerator.floorCountAsSpecified Scenarios.recordsNoIndex = 15%Z
      /\ FloorGenerator.getTotalFloors Scenarios.recordsNoIndex = 15%Z
      /\ FloorGenerator.totalFloors
           <$> FloorGenerator.getDetailedFloorInfo Scenarios.recordsNoIndex
         = Some 9%Z)
  /\ (FloorGenerator.floorCountAsSpecified Scenarios.recordsNullRange = 2%Z
      /\ FloorGenerator.totalFloors
           <$> FloorGenerator.getDetailedFloorInfo Scenarios.recordsNullRange
         = Some 1%Z
      /\ (let '(result, s) :=
            FloorGenerator.generateFloorModels (H := flatEngine)
              (Some (Scenarios.building 1 Scenarios.X))
              Scenarios.recordsNullRange FloorGenerator.initial in
          result = Some true
          /\ length <$> (FloorGenerator.floorEntities s !! Some Scenarios.X)
             = Some 1%nat)).
Proof. vm_compute. repeat split; reflexivity. Qed.

(** ** Dataset membership *)

(** C8, amended. While the identifier set has not been loaded, the
    classifier's membership test answers "member" for every identifier it
    is asked about, whatever its value, and [applyBuildingFilter] installs
    no colour callback, so no feature is tinted as a non-member by it.
    The style manager's own query [hasBuildingData] has a guard of its
    own and answers "no" until the set is loaded. *)
Theorem unloaded_classifier_is_optimistic `{CesiumMath}
  (l : BuildingDataLoader.Loader) :
  BuildingDataLoader.loaded l = false ->
  (forall buildingId : value,
      BuildingDataLoader.hasBuildingId l buildingId = true)
  /\ (forall (sm : TileStyleManager.StyleManager) (tilesets : nat),
         TileStyleManager.buildingDataLoader sm = Some l ->
         TileStyleManager.applyBuildingFilter sm tilesets = None)
  /\ (forall (sm : TileStyleManager.StyleManager) (buildingId : string),
         TileStyleManager.buildingDataLoader sm = Some l ->
         TileStyleManager.hasBuildingData sm buildingId = false).
Proof.
  intros Hl. split; [| split].
  - intros buildingId. unfold BuildingDataLoader.hasBuildingId.
    rewrite Hl. reflexivity.
  - intros sm tilesets Hsm. unfold TileStyleManager.applyBuildingFilter.
    rewrite Hsm, Hl. reflexivity.
  - intros sm buildingId Hsm. unfold TileStyleManager.hasBuildingData.
    rewrite Hsm, Hl. reflexivity.
Qed.

Lemma unloaded_classifier_is_optimistic_witness :
  BuildingDataLoader.loaded BuildingDataLoader.new = false
  /\ BuildingDataLoader.hasBuildingId BuildingDataLoader.new
       (JStr "0599100000668111") = true
  /\ BuildingDataLoader.hasBuildingId BuildingDataLoader.new JNull = true.
Proof.
  assert (Hl : BuildingDataLoader.loaded BuildingDataLoader.new = false)
    by reflexivity.
  destruct (unloaded_classifier_is_optimistic (H := flatEngine)
              BuildingDataLoader.new Hl) as [Hmember _].
  split; [exact Hl | split; apply Hmember].
Defined.

(** C8, as stated, fails for the membership query of the style manager:
    while the set is not loaded, [hasBuildingData] answers "no" for the
    building X, and a click beside the buildings resets the colour of the
    selected feature X to the gray of a non-member. *)
Lemma deselected_feature_is_classified_non_member :
  BuildingDataLoader.loaded BuildingDataLoader.new = false
  /\ TileStyleManager.hasBuildingData Scenarios.unloadedManager Scenarios.X
     = false
  /\ BuildingSelector.featureColor
       (BuildingSelector.run
          (BuildingSelector.new (Some Scenarios.unloadedManager))
          [Scenarios.click (Scenarios.building 1 Scenarios.X);
           (Scenarios.quiet,
            BuildingSelector.LeftClick BuildingSelector.PickedNothing)])
     !! 1%nat
     = Some (GRAY (5 # 10)).
Proof. vm_compute. repeat split; reflexivity. Qed.

(** The style manager's own query, which [clearSelection] uses to reset
    a colour, is not optimistic: it answers "no" until the set is loaded. *)
Lemma hasBuildingData_unloaded `{CesiumMath}
  (sm : TileStyleManager.StyleManager) (l : BuildingDataLoader.Loader)
  (buildingId : string) :
  TileStyleManager.buildingDataLoader sm = Some l ->
  BuildingDataLoader.loaded l = false ->
  TileStyleManager.hasBuildingData sm buildingId = false.
Proof.
  intros Hsm Hl. unfold TileStyleManager.hasBuildingData.
  rewrite Hsm, Hl. reflexivity.
Qed.

(** A load that fails leaves the classifier unloaded, hence optimistic. *)
Lemma failed_load_stays_unloaded (resp : BuildingDataLoader.LoadResponse)
  (l : BuildingDataLoader.Loader) :
  (forall ids, resp <> BuildingDataLoader.LoadOk ids) ->
  BuildingDataLoader.loadBuildingIdsFromFile resp l = (false, l).
Proof. intros Hresp. destruct resp; try reflexivity. congruence. Qed.

(** ** The property service *)

(** C10. [getAllPandIds] never rejects. When nothing is cached and the
    request fails in any way, it resolves with the empty array and leaves
    the service as it was, so its result is the one an empty dataset
    gives. [getPropertiesByPandId], on the same failures, rejects. *)
Theorem getAllPandIds_never_rejects (svc : PropertyDataService.Service) :
  (forall resp, exists ids svc',
      PropertyDataService.getAllPandIds svc resp
      = (PropertyDataService.Resolved ids, svc'))
  /\ (forall resp,
        PropertyDataService.databaseBuildingIds svc = None ->
        PropertyDataService.isFailure resp = true ->
        PropertyDataService.getAllPandIds svc resp
        = (PropertyDataService.Resolved [], svc)
        /\ (PropertyDataService.getAllPandIds svc resp).1
           = (PropertyDataService.getAllPandIds svc (PropertyDataService.Ok [])).1)
  /\ (forall pandId resp,
        pandId <> "" ->
        PropertyDataService.cache svc !! pandId = None ->
        PropertyDataService.isFailure resp = true ->
        exists reason,
          PropertyDataService.getPropertiesByPandId svc (Some pandId) resp
          = (PropertyDataService.Rejected reason, svc)).
Proof.
  split; [| split].
  - intros resp. unfold PropertyDataService.getAllPandIds.
    destruct (PropertyDataService.databaseBuildingIds svc); [eauto |].
    destruct resp; eauto.
  - intros resp Hnone Hfail. unfold PropertyDataService.getAllPandIds.
    rewrite Hnone. destruct resp; try discriminate; split; reflexivity.
  - intros pandId resp Hid Hmiss Hfail.
    unfold PropertyDataService.getPropertiesByPandId,
      PropertyDataService.lookupProperties.
    destruct (String.eqb_spec pandId "") as [E | _]; [contradiction |].
    rewrite Hmiss. simpl.
    destruct resp; try discriminate; eexists; reflexivity.
Qed.

Lemma getAllPandIds_never_rejects_witness :
  PropertyDataService.databaseBuildingIds PropertyDataService.new = None
  /\ PropertyDataService.isFailure (A := list string)
       (PropertyDataService.HttpError 500) = true
  /\ PropertyDataService.getAllPandIds PropertyDataService.new
       (PropertyDataService.HttpError 500)
     = (PropertyDataService.Resolved [], PropertyDataService.new).
Proof.
  assert (Hnone : PropertyDataService.databaseBuildingIds
                    PropertyDataService.new = None) by reflexivity.
  assert (Hfail : PropertyDataService.isFailure (A := list string)
                    (PropertyDataService.HttpError 500) = true) by reflexivity.
  destruct (getAllPandIds_never_rejects PropertyDataService.new)
    as (_ & Hempty & _).
  split; [exact Hnone | split; [exact Hfail |]].
  exact (proj1 (Hempty _ Hnone Hfail)).
Defined.

(** ** Feature identification *)

Lemma search16_exact (s w : string) :
  search16 s = Some w -> exact16 w = true.
Proof.
  induction s as [| c s IH]; simpl; [discriminate |].
  match goal with
  | |- (if ?b then _ else _) = _ -> _ => destruct b eqn:E
  end.
  - intros [= <-]. exact E.
  - exact IH.
Qed.

Lemma isPandIdString_exact (v : value) (w : string) :
  isPandIdString v = Some w -> exact16 w = true.
Proof.
  destruct v; simpl; try discriminate.
  destruct (exact16 s) eqn:E; [intros [= <-]; exact E | discriminate].
Qed.

Lemma exact16_nonempty (w : string) :
  exact16 w = true -> String.eqb w "" = false.
Proof. destruct w; [discriminate | reflexivity]. Qed.

Lemma firstSuccess_elem {A} (attempts : list (option A)) (a : A) :
  FeatureIdentifier.firstSuccess attempts = Some a -> Some a ∈ attempts.
Proof.
  induction attempts as [| [x |] rest IH]; simpl; [discriminate | |].
  - intros [= ->]. apply list_elem_of_here.
  - intros Hrest. apply list_elem_of_further, IH, Hrest.
Qed.

Lemma checkNames_firstSuccess `{CesiumMath} (f : Feature)
  (names : list string) :
  FeatureIdentifier.checkNames f names
  = FeatureIdentifier.firstSuccess
      (map (fun name => assoc (properties f) name ≫= isPandIdString) names).
Proof.
  induction names as [| name rest IH]; [reflexivity |].
  simpl. unfold hasProperty, getProperty.
  destruct (assoc (properties f) name) as [v |]; simpl; [| exact IH].
  destruct (isPandIdString v); [reflexivity | exact IH].
Qed.

Lemma checkBatchNames_firstSuccess (rows : list (string * value))
  (names : list string) :
  FeatureIdentifier.checkBatchNames rows names
  = FeatureIdentifier.firstSuccess
      (map (fun name =>
              if includes (toLowerCase name) "id"
              then assoc rows name ≫= isPandIdString
              else None) names).
Proof.
  induction names as [| name rest IH]; [reflexivity |].
  simpl. destruct (includes (toLowerCase name) "id"); [| exact IH].
  destruct (assoc rows name) as [v |]; simpl; [| exact IH].
  destruct (isPandIdString v); [reflexivity | exact IH].
Qed.

Lemma canonicalNameStrategy_exact `{CesiumMath} (f : Feature) (id : string) :
  FeatureIdentifier.canonicalNameStrategy f = Some id -> exact16 id = true.
Proof.
  intros Hs. apply firstSuccess_elem, list_elem_of_fmap in Hs.
  destruct Hs as (name & Hname & _). symmetry in Hname.
  destruct (assoc (properties f) name) as [v |]; [| discriminate].
  exact (isPandIdString_exact _ _ Hname).
Qed.

Lemma gmlIdStrategy_exact `{CesiumMath} (f : Feature) (id : string) :
  FeatureIdentifier.gmlIdStrategy f = Some id -> exact16 id = true.
Proof.
  unfold FeatureIdentifier.gmlIdStrategy.
  destruct (assoc (properties f) "gml:id") as [v |]; [| discriminate].
  apply search16_exact.
Qed.

Lemma batchTableStrategy_exact `{CesiumMath} (f : Feature) (id : string) :
  FeatureIdentifier.batchTableStrategy f = Some id -> exact16 id = true.
Proof.
  unfold FeatureIdentifier.batchTableStrategy.
  destruct (_content f ≫= batchTable) as [bt |]; [| discriminate]. simpl.
  destruct (bt_hasGetPropertyNames bt); [| discriminate].
  intros Hs. apply firstSuccess_elem, list_elem_of_fmap in Hs.
  destruct Hs as (name & Hname & _). symmetry in Hname.
  destruct (includes (toLowerCase name) "id"); [| discriminate].
  destruct (assoc (bt_properties bt) name) as [v |]; [| discriminate].
  exact (isPandIdString_exact _ _ Hname).
Qed.

Lemma extractBuildingIdFromFeature_strategy `{CesiumMath} (f : Feature) :
  FeatureIdentifier.extractBuildingIdFromFeature f
  = FeatureIdentifier.batchTableStrategy f.
Proof.
  unfold FeatureIdentifier.extractBuildingIdFromFeature,
    FeatureIdentifier.batchTableStrategy.
  destruct (_content f) as [c |]; [| reflexivity]. simpl.
  destruct (batchTable c) as [bt |]; [| reflexivity]. simpl.
  destruct (bt_hasGetPropertyNames bt); [| reflexivity].
  apply checkBatchNames_firstSuccess.
Qed.

Lemma checkGmlId_strategy `{CesiumMath} (f : Feature) :
  FeatureIdentifier.checkGmlId f = FeatureIdentifier.gmlIdStrategy f.
Proof.
  unfold FeatureIdentifier.checkGmlId, FeatureIdentifier.gmlIdStrategy,
    hasProperty, getProperty.
  destruct (assoc (properties f) "gml:id"); reflexivity.
Qed.

(** C3, as the code has it. [getFeatureBuildingId] is the first success of
    three strategies tried in order: the canonical names in their fixed
    order with the exact sixteen-digit test, then a sixteen-digit run
    embedded in the gml-style identifier, then the batch-table names
    containing "id" with the exact test. Every identifier it returns is a
    numeral of sixteen digits, and it returns null exactly when these
    three strategies are exhausted. *)
Theorem getFeatureBuildingId_three_strategies `{CesiumMath} (f : Feature) :
  FeatureIdentifier.getFeatureBuildingId f
  = FeatureIdentifier.identifyByThreeStrategies f
  /\ (forall id,
        FeatureIdentifier.getFeatureBuildingId f = Some id ->
        exact16 id = true)
  /\ (FeatureIdentifier.getFeatureBuildingId f = None <->
      FeatureIdentifier.canonicalNameStrategy f = None
      /\ FeatureIdentifier.gmlIdStrategy f = None
      /\ FeatureIdentifier.batchTableStrategy f = None).
Proof.
  assert (Heq : FeatureIdentifier.getFeatureBuildingId f
                = FeatureIdentifier.identifyByThreeStrategies f).
  { unfold FeatureIdentifier.getFeatureBuildingId,
      FeatureIdentifier.identifyByThreeStrategies.
    rewrite checkNames_firstSuccess, checkGmlId_strategy,
      extractBuildingIdFromFeature_strategy.
    fold (FeatureIdentifier.canonicalNameStrategy f). simpl.
    destruct (FeatureIdentifier.canonicalNameStrategy f); [reflexivity |].
    destruct (FeatureIdentifier.gmlIdStrategy f); [reflexivity |].
    destruct (FeatureIdentifier.batchTableStrategy f) as [id |] eqn:E;
      [| reflexivity].
    rewrite (exact16_nonempty id (batchTableStrategy_exact f id E)).
    reflexivity. }
  split; [exact Heq | split].
  - intros id. rewrite Heq.
    unfold FeatureIdentifier.identifyByThreeStrategies. simpl.
    destruct (FeatureIdentifier.canonicalNameStrategy f) as [a |] eqn:E1.
    { intros [= <-]. exact (canonicalNameStrategy_exact f a E1). }
    destruct (FeatureIdentifier.gmlIdStrategy f) as [b |] eqn:E2.
    { intros [= <-]. exact (gmlIdStrategy_exact f b E2). }
    destruct (FeatureIdentifier.batchTableStrategy f) as [c |] eqn:E3.
    { intros [= <-]. exact (batchTableStrategy_exact f c E3). }
    discriminate.
  - rewrite Heq. unfold FeatureIdentifier.identifyByThreeStrategies. simpl.
    destruct (FeatureIdentifier.canonicalNameStrategy f);
      [split; [discriminate | intros (? & _); discriminate] |].
    destruct (FeatureIdentifier.gmlIdStrategy f);
      [split; [discriminate | intros (_ & ? & _); discriminate] |].
    destruct (FeatureIdentifier.batchTableStrategy f);
      [split; [discriminate | intros (_ & _ & ?); discriminate] |].
    split; auto.
Qed.

Lemma getFeatureBuildingId_three_strategies_witness :
  FeatureIdentifier.getFeatureBuildingId (H := flatEngine)
    (Scenarios.pandidOnly 3 Scenarios.X) = Some Scenarios.X
  /\ exact16 Scenarios.X = true.
Proof.
  assert (Hid : FeatureIdentifier.getFeatureBuildingId (H := flatEngine)
                  (Scenarios.pandidOnly 3 Scenarios.X) = Some Scenarios.X)
    by reflexivity.
  destruct (getFeatureBuildingId_three_strategies (H := flatEngine)
              (Scenarios.pandidOnly 3 Scenarios.X)) as (_ & Hexact & _).
  split; [exact Hid | exact (Hexact _ Hid)].
Defined.

(** C3, as stated, fails on a feature whose identifier is only embedded in
    a free-text attribute: the fourth strategy of the specification finds
    it, the code returns null. *)
Lemma embedded_identifier_is_not_found :
  FeatureIdentifier.fallbackScanStrategy (H := flatEngine)
    Scenarios.embeddedOnly = Some "0599100000668111"
  /\ FeatureIdentifier.identifyByFourStrategies (H := flatEngine)
       Scenarios.embeddedOnly = Some "0599100000668111"
  /\ FeatureIdentifier.getFeatureBuildingId (H := flatEngine)
       Scenarios.embeddedOnly = None.
Proof. vm_compute. repeat split; reflexivity. Qed.

(** Scenario A: [PANDID = "0599100000668111"] is returned as it is. *)
Lemma scenario_A :
  FeatureIdentifier.getFeatureBuildingId (H := flatEngine)
    (Scenarios.pandidOnly 3 "0599100000668111") = Some "0599100000668111".
Proof. reflexivity. Qed.

(** ** The floor stack *)

Lemma inject_Z_nonzero (n : Z) : n <> 0%Z -> ~ (inject_Z n == 0)%Q.
Proof. intros Hn E. apply Hn. unfold Qeq in E. simpl in E. lia. Qed.

Lemma ndiv_ofZ (x : Q) (n : Z) :
  n <> 0%Z -> ndiv (Some x) (ofZ n) = Some (x / inject_Z n)%Q.
Proof.
  intros Hn. unfold ndiv, ofZ.
  destruct (Qeq_bool (inject_Z n) 0) eqn:E; [| reflexivity].
  apply Qeq_bool_eq in E. destruct (inject_Z_nonzero n Hn E).
Qed.

Lemma floorZ_value (anchorHeight buildingHeight : Q) (totalFloors floorNum : Z) :
  totalFloors <> 0%Z ->
  FloorGenerator.floorZ anchorHeight (Some buildingHeight) totalFloors floorNum
  = Some (anchorHeight - buildingHeight / 2
          + inject_Z floorNum * (buildingHeight / inject_Z totalFloors)
          + buildingHeight / inject_Z totalFloors / 2)%Q.
Proof.
  intros Hn. unfold FloorGenerator.floorZ, FloorGenerator.floorHeightOf,
    FloorGenerator.buildingBottom.
  rewrite (ndiv_ofZ _ _ Hn). reflexivity.
Qed.

(** ** Frame conditions of the generator

    Every generator computation respects a relation that its primitive
    writes respect. *)

Section Frames.
Context `{CesiumMath}.
Import FloorGenerator.
#[local] Existing Instances G_ret G_bind G_fmap.

Lemma respects_ret (R : relation State) `{!Reflexive R} {A} (a : A) :
  respects R (mret a).
Proof. intros s. simpl. reflexivity. Qed.

Lemma respects_throw (R : relation State) `{!Reflexive R} {A} :
  respects R (throw (A := A)).
Proof. intros s. simpl. reflexivity. Qed.

Lemma respects_bind (R : relation State) `{!Transitive R} {A B}
  (m : G A) (k : A -> G B) :
  respects R m -> (forall a, respects R (k a)) -> respects R (m ≫= k).
Proof.
  intros Hm Hk s. unfold mbind, G_bind. specialize (Hm s).
  destruct (m s) as [[a |] s1]; simpl in *; [| exact Hm].
  etransitivity; [exact Hm | apply Hk].
Qed.

Lemma respects_tryCatch (R : relation State) `{!Transitive R} {A}
  (body handler : G A) :
  respects R body -> respects R handler -> respects R (tryCatch body handler).
Proof.
  intros Hb Hh s. unfold tryCatch. specialize (Hb s).
  destruct (body s) as [[a |] s1]; simpl in *; [exact Hb |].
  etransitivity; [exact Hb | apply Hh].
Qed.

Lemma respects_fmap (R : relation State) {A B} (f : A -> B) (m : G A) :
  respects R m -> respects R (f <$> m).
Proof.
  intros Hm s. unfold fmap, G_fmap. specialize (Hm s).
  destruct (m s) as [[a |] s1]; exact Hm.
Qed.

Lemma respects_modify (R : relation State) (f : State -> State) :
  (forall s, R s (f s)) -> respects R (modify f).
Proof. intros Hf s. apply Hf. Qed.

Lemma respects_forEachM (R : relation State) `{!PreOrder R} {A B}
  (f : B -> A -> G B) (l : list A) (acc : B) :
  (forall b a, respects R (f b a)) -> respects R (forEachM f l acc).
Proof.
  intros Hf. revert acc. induction l as [| x l IH]; intros acc; simpl.
  - apply respects_ret; apply _.
  - apply respects_bind; [apply _ | apply Hf | intros b; apply IH].
Qed.

Lemma respects_entities_add (R : relation State) `{!Frame R} (r : nat) :
  respects R (entities_add r).
Proof.
  intros s. unfold entities_add.
  destruct (heap s !! r) as [e |]; simpl; [| reflexivity].
  destruct (collection s !! e_id e); simpl; [reflexivity |].
  apply frame_collection.
Qed.

Lemma removeIfContained_frame (R : relation State) `{!Frame R} (s : State) (r : nat) :
  R s (removeIfContained s r).
Proof.
  unfold removeIfContained. destruct (heap s !! r); [| reflexivity].
  destruct (contains s r); [apply frame_collection | reflexivity].
Qed.

Lemma foldl_frame (R : relation State) `{!PreOrder R} {A} (f : State -> A -> State)
  (l : list A) (s : State) :
  (forall s a, R s (f s a)) -> R s (foldl f s l).
Proof.
  intros Hf. revert s. induction l as [| a l IH]; intros s; simpl.
  - reflexivity.
  - etransitivity; [apply Hf | apply IH].
Qed.

Lemma removeFloorModels_frame (R : relation State) `{!Frame R}
  (buildingId : option string) (s : State) :
  R s (removeFloorModels buildingId s).2.
Proof.
  unfold removeFloorModels.
  destruct (floorEntities s !! buildingId) as [[| r rest] |]; simpl;
    try reflexivity.
  etransitivity; [| apply frame_floorEntities].
  etransitivity; [apply (removeIfContained_frame R) |].
  apply foldl_frame; [apply _ | apply (removeIfContained_frame R)].
Qed.

Lemma removeAllFloorModels_frame (R : relation State) `{!Frame R} (s : State) :
  R s (removeAllFloorModels s).
Proof.
  unfold removeAllFloorModels.
  etransitivity; [| apply frame_floorEntities].
  apply foldl_frame; [apply _ | apply (removeIfContained_frame R)].
Qed.

Lemma respects_createFloorEntityFromGeometry (R : relation State) `{!Frame R}
  buildingId floorNum position geometry floorHeight color floorProperties :
  respects R (createFloorEntityFromGeometry buildingId floorNum position
                geometry floorHeight color floorProperties).
Proof. apply frame_newEntity. Qed.

End Frames.

(** One structural step of a frame proof. *)
Ltac frame_step R :=
  first
    [ apply (respects_bind R); [| intros ?]
    | apply (respects_tryCatch R)
    | apply (respects_fmap R)
    | apply (respects_ret R)
    | apply (respects_throw R)
    | apply (respects_entities_add R)
    | apply (FloorGenerator.frame_newEntity (R := R))
    | apply (respects_createFloorEntityFromGeometry R) ].

Section GeneratorFrames.
Context `{CesiumMath}.
Import FloorGenerator.
#[local] Existing Instances G_ret G_bind G_fmap.

Lemma respects_createComplexShapeFloorEntity (R : relation State) `{!Frame R}
  buildingId floorNum position geometry floorHeight color floorProperties
  orientation :
  respects R (createComplexShapeFloorEntity buildingId floorNum position
                geometry floorHeight color floorProperties orientation).
Proof.
  unfold createComplexShapeFloorEntity.
  destruct (String.eqb buildingId "0599100000035588");
    repeat frame_step R.
Qed.

Lemma respects_generateFloor (R : relation State) `{!Frame R}
  buildingId geometry properties totalFloors isLShaped created floorNum :
  respects R (generateFloor buildingId geometry properties totalFloors
                isLShaped created floorNum).
Proof.
  unfold generateFloor. apply (respects_bind R).
  - destruct isLShaped;
      [apply (respects_createComplexShapeFloorEntity R) | repeat frame_step R].
  - intros [r |]; repeat frame_step R.
Qed.

Lemma respects_addBuildingOutline (R : relation State) `{!Frame R}
  buildingId geometry buildingHeight :
  respects R (addBuildingOutline buildingId geometry buildingHeight).
Proof. unfold addBuildingOutline. repeat frame_step R. Qed.

Lemma respects_generateFloorModels (R : relation State) `{!Frame R}
  (buildingFeature : option Feature) (properties : list PropertyRecord) :
  respects R (generateFloorModels buildingFeature properties).
Proof.
  unfold generateFloorModels. apply (respects_tryCatch R); [| frame_step R].
  destruct (extractBuildingId buildingFeature) as [buildingId |];
    [| frame_step R].
  destruct (String.eqb buildingId ""); [frame_step R |].
  intros s.
  destruct (extractDetailedGeometry buildingFeature
              (getBuildingPosition s (Some buildingId))) as [geometry |];
    [| reflexivity].
  destruct (getDetailedFloorInfo properties) as [floorInfo |]; [| reflexivity].
  destruct (totalFloors floorInfo <=? 0)%Z; [reflexivity |].
  revert s.
  change (respects R
    (modify (fun s => (removeFloorModels (Some buildingId) s).2);;
     created ← forEachM
       (generateFloor buildingId geometry properties (totalFloors floorInfo)
          (g_isLShaped geometry || String.eqb buildingId "0599100000035588"))
       (seqZ 0 (totalFloors floorInfo)) [];
     modify (fun s =>
       withFloorEntities (<[Some buildingId := created]> (floorEntities s)) s);;
     modify (withActiveBuilding (Some buildingId));;
     addBuildingOutline buildingId geometry (g_height geometry);;
     mret true)).
  apply (respects_bind R);
    [apply respects_modify; intros s; apply (removeFloorModels_frame R) |].
  intros _. apply (respects_bind R);
    [apply respects_forEachM; [apply _ |];
     intros b a; apply (respects_generateFloor R) |].
  intros created. apply (respects_bind R);
    [apply respects_modify; intros s; apply frame_floorEntities |].
  intros _. apply (respects_bind R);
    [apply respects_modify; intros s; apply frame_activeBuilding |].
  intros _. apply (respects_bind R);
    [apply (respects_addBuildingOutline R) | intros _; frame_step R].
Qed.

End GeneratorFrames.

#[local] Instance keepsObjects_preorder `{CesiumMath} :
  PreOrder FloorGenerator.keepsObjects.
Proof.
  split.
  - intros s. split; [lia | reflexivity].
  - intros s1 s2 s3 [Hle12 H12] [Hle23 H23]. split; [lia |].
    intros r Hr. rewrite H23 by lia. apply H12, Hr.
Qed.

#[local] Instance keepsObjects_frame `{CesiumMath} :
  FloorGenerator.Frame FloorGenerator.keepsObjects.
Proof.
  split; try (intros; split; [simpl; lia | reflexivity]).
  - apply _.
  - intros mk s. split; simpl; [lia |].
    intros r Hr. apply lookup_insert_ne. lia.
Qed.

#[local] Instance keepsPositions_frame `{CesiumMath} :
  FloorGenerator.Frame FloorGenerator.keepsPositions.
Proof.
  split.
  - split.
    + intros s. reflexivity.
    + intros s1 s2 s3 H12 H23. unfold FloorGenerator.keepsPositions in *.
      congruence.
  - intros mk s. reflexivity.
  - intros c s. reflexivity.
  - intros m s. reflexivity.
  - intros b s. reflexivity.
Qed.

Section FirstAllocation.
Context `{CesiumMath}.
Import FloorGenerator.
#[local] Existing Instances G_ret G_bind G_fmap.

Lemma allocatesFirst_newEntity (mk : nat -> Entity) :
  allocatesFirst mk (newEntity mk).
Proof. intros s. simpl. split; [lia | apply lookup_insert_eq]. Qed.

Lemma allocatesFirst_bind (mk : nat -> Entity) {A B} (m : G A)
  (k : A -> G B) :
  allocatesFirst mk m -> (forall a, respects keepsObjects (k a)) ->
  allocatesFirst mk (m ≫= k).
Proof.
  intros Hm Hk s. unfold mbind, G_bind. destruct (Hm s) as [Hlt Hheap].
  destruct (m s) as [[a |] s1]; simpl in *; [| split; assumption].
  destruct (Hk a s1) as [Hle Hkeep]. split; [lia |].
  rewrite Hkeep by lia. exact Hheap.
Qed.

Lemma allocatesFirst_tryCatch (mk : nat -> Entity) {A} (body handler : G A) :
  allocatesFirst mk body -> respects keepsObjects handler ->
  allocatesFirst mk (tryCatch body handler).
Proof.
  intros Hb Hh s. unfold tryCatch. destruct (Hb s) as [Hlt Hheap].
  destruct (body s) as [[a |] s1]; simpl in *; [split; assumption |].
  destruct (Hh s1) as [Hle Hkeep]. split; [lia |].
  rewrite Hkeep by lia. exact Hheap.
Qed.

Lemma allocatesFirst_fmap (mk : nat -> Entity) {A B} (f : A -> B) (m : G A) :
  allocatesFirst mk m -> allocatesFirst mk (f <$> m).
Proof.
  intros Hm s. unfold fmap, G_fmap. specialize (Hm s).
  destruct (m s) as [[a |] s1]; exact Hm.
Qed.

(** The floor entity a turn of the loop constructs is the first object it
    allocates, whatever the footprint and whether or not the viewer then
    accepts it: it sits at the anchor's longitude and latitude, at the
    height [floorZ], and a plain floor carries a box of 0.8 floor heights. *)
Lemma generateFloor_entity (buildingId : string) (geometry : Geometry)
  (properties : list PropertyRecord) (totalFloors : Z) (isLShaped : bool)
  (created : list nat) (floorNum : Z) :
  exists mk : nat -> Entity,
    allocatesFirst mk
      (generateFloor buildingId geometry properties totalFloors isLShaped
         created floorNum)
    /\ forall r,
        e_id (mk r) = floorEntityId buildingId floorNum
        /\ e_position (mk r)
           = fromRadians
               (longitude (fromCartesian (g_position geometry)))
               (latitude (fromCartesian (g_position geometry)))
               (floorZ (height (fromCartesian (g_position geometry)))
                  (g_height geometry) totalFloors floorNum)
        /\ (isLShaped = false ->
            box_dimensions <$> e_box (mk r)
            = Some (Some (g_width geometry * (95 # 100))%Q,
                    Some (g_length geometry * (95 # 100))%Q,
                    nmul (floorHeightOf (g_height geometry) totalFloors)
                         (Some (8 # 10)))).
Proof.
  assert (Hrest : forall (entity : option nat),
             respects keepsObjects
               (match entity with
                | Some r => entities_add r;; mret (created ++ [r])
                | None => mret created
                end)).
  { intros [r |]; repeat frame_step keepsObjects. }
  unfold generateFloor. destruct isLShaped.
  - unfold createComplexShapeFloorEntity.
    destruct (String.eqb buildingId "0599100000035588").
    + eexists. split.
      * apply allocatesFirst_bind; [| exact Hrest].
        apply allocatesFirst_tryCatch; [| frame_step keepsObjects].
        apply allocatesFirst_bind; [apply allocatesFirst_newEntity |].
        intros parentEntity. repeat frame_step keepsObjects.
      * intros r. simpl. repeat split; discriminate.
    + eexists. split.
      * apply allocatesFirst_bind; [| exact Hrest].
        apply allocatesFirst_tryCatch; [| frame_step keepsObjects].
        apply allocatesFirst_fmap, allocatesFirst_newEntity.
      * intros r. simpl. repeat split.
  - eexists. split.
    + apply allocatesFirst_bind; [| exact Hrest].
      apply allocatesFirst_fmap, allocatesFirst_newEntity.
    + intros r. simpl. repeat split.
Qed.

End FirstAllocation.

(** The arithmetic of the floor stack. For a geometry of positive height
    and a floor count of at least one: the floor height is
    buildingHeight / floorCount; the centre of floor [floorNum] is at
    anchor.height - buildingHeight/2 + (floorNum + 1/2) * floorHeight; the
    z-ranges of consecutive floors meet exactly, the first starts at
    anchor.height - buildingHeight/2 and the last ends at anchor.height +
    buildingHeight/2; and a box of 0.8 floor heights around the centre
    sits inside the z-range with a margin of a tenth of the floor height
    on either side. *)
Lemma floor_stack_arithmetic `{CesiumMath}
  (geometry : FloorGenerator.Geometry) (buildingHeight : Q) (totalFloors : Z) :
  FloorGenerator.g_height geometry = Some buildingHeight ->
  (0 < buildingHeight)%Q ->
  (1 <= totalFloors)%Z ->
  let anchor := fromCartesian (FloorGenerator.g_position geometry) in
  let floorHeight := (buildingHeight / inject_Z totalFloors)%Q in
  let bottom := (height anchor - buildingHeight / 2)%Q in
  FloorGenerator.floorHeightOf (FloorGenerator.g_height geometry) totalFloors
  = Some floorHeight
  /\ (0 < floorHeight)%Q
  /\ (forall floorNum : Z,
        floorNum ∈ seqZ 0 totalFloors <-> (0 <= floorNum < totalFloors)%Z)
  /\ (forall floorNum : Z, exists z : Q,
        FloorGenerator.floorZ (height anchor)
          (FloorGenerator.g_height geometry) totalFloors floorNum = Some z
        /\ (z == bottom + (inject_Z floorNum + (1 # 2)) * floorHeight)%Q)
  /\ (exists lo hi boxLo boxHi : Z -> Q,
        (forall floorNum : Z,
            FloorGenerator.zRange (height anchor)
              (FloorGenerator.g_height geometry) totalFloors floorNum
            = (Some (lo floorNum), Some (hi floorNum))
            /\ FloorGenerator.boxRange (height anchor)
                 (FloorGenerator.g_height geometry) totalFloors floorNum
               = (Some (boxLo floorNum), Some (boxHi floorNum)))
        /\ (lo 0%Z == bottom)%Q
        /\ (hi (totalFloors - 1)%Z == height anchor + buildingHeight / 2)%Q
        /\ (forall floorNum : Z, hi floorNum == lo (floorNum + 1)%Z)%Q
        /\ (forall floorNum : Z,
              boxLo floorNum - lo floorNum == (1 # 10) * floorHeight
              /\ hi floorNum - boxHi floorNum == (1 # 10) * floorHeight)%Q)
  /\ (forall buildingId properties isLShaped created floorNum,
        exists mk : nat -> FloorGenerator.Entity,
          FloorGenerator.allocatesFirst mk
            (FloorGenerator.generateFloor buildingId geometry properties
               totalFloors isLShaped created floorNum)
          /\ forall r,
              FloorGenerator.e_position (mk r)
              = fromRadians (longitude anchor) (latitude anchor)
                  (FloorGenerator.floorZ (height anchor)
                     (FloorGenerator.g_height geometry) totalFloors floorNum)
              /\ (isLShaped = false ->
                  FloorGenerator.box_dimensions
                    <$> FloorGenerator.e_box (mk r)
                  = Some (Some (FloorGenerator.g_width geometry * (95 # 100))%Q,
                          Some (FloorGenerator.g_length geometry * (95 # 100))%Q,
                          Some (floorHeight * (8 # 10))%Q))).
Proof.
  intros Hh Hpos Hn anchor floorHeight bottom.
  assert (Hnz : totalFloors <> 0%Z) by lia.
  assert (Hq : ~ (inject_Z totalFloors == 0)%Q) by (apply inject_Z_nonzero, Hnz).
  assert (Hfh : FloorGenerator.floorHeightOf (Some buildingHeight) totalFloors
                = Some floorHeight).
  { unfold FloorGenerator.floorHeightOf. apply ndiv_ofZ, Hnz. }
  rewrite Hh. split; [exact Hfh |]. split; [| split; [| split; [| split]]].
  - unfold floorHeight, Qdiv. apply Qmult_lt_0_compat; [exact Hpos |].
    apply Qinv_lt_0_compat. change 0%Q with (inject_Z 0).
    rewrite <- Zlt_Qlt. lia.
  - intros floorNum. rewrite elem_of_seqZ. lia.
  - intros floorNum. rewrite (floorZ_value _ _ _ _ Hnz). eexists.
    split; [reflexivity |]. unfold bottom, floorHeight. field. exact Hq.
  - pose (zc := fun floorNum : Z =>
        (height anchor - buildingHeight / 2
         + inject_Z floorNum * (buildingHeight / inject_Z totalFloors)
         + buildingHeight / inject_Z totalFloors / 2)%Q).
    exists (fun i => (zc i - floorHeight / 2)%Q),
           (fun i => (zc i + floorHeight / 2)%Q),
           (fun i => (zc i - floorHeight * (8 # 10) / 2)%Q),
           (fun i => (zc i + floorHeight * (8 # 10) / 2)%Q).
    split; [| split; [| split; [| split]]].
    + intros floorNum. split.
      * unfold FloorGenerator.zRange.
        rewrite Hfh, (floorZ_value _ _ _ _ Hnz). reflexivity.
      * unfold FloorGenerator.boxRange.
        rewrite Hfh, (floorZ_value _ _ _ _ Hnz). reflexivity.
    + unfold zc, bottom, floorHeight. simpl. field. exact Hq.
    + unfold zc, floorHeight. unfold Z.sub.
      rewrite inject_Z_plus, inject_Z_opp. field. exact Hq.
    + intros floorNum. unfold zc, floorHeight.
      rewrite inject_Z_plus. field. exact Hq.
    + intros floorNum. unfold zc, floorHeight. split; field; exact Hq.
  - intros buildingId properties isLShaped created floorNum.
    destruct (generateFloor_entity buildingId geometry properties totalFloors
                isLShaped created floorNum) as (mk & Halloc & Hmk).
    exists mk. split; [exact Halloc |]. intros r.
    destruct (Hmk r) as (_ & Hposition & Hbox).
    rewrite Hh in Hposition, Hbox. split; [exact Hposition |].
    intros Hplain. rewrite (Hbox Hplain), Hfh. reflexivity.
Qed.

(** ** Visibility *)

Section Visibility.
Context `{CesiumMath}.
Import FloorGenerator.

Lemma setShow_setShow (v w : bool) (e : Entity) :
  setShow v (setShow w e) = setShow v e.
Proof. reflexivity. Qed.

Lemma setShow_same (e : Entity) : setShow (e_show e) e = e.
Proof. destruct e; reflexivity. Qed.

Lemma withHeap_same (s : State) : withHeap (heap s) s = s.
Proof. destruct s; reflexivity. Qed.

Lemma foldl_showChild_heap (v : bool) (children : list nat) (s : State)
  (x : nat) :
  heap (foldl (showChild v) s children) !! x
  = if decide (x ∈ children) then setShow v <$> heap s !! x else heap s !! x.
Proof.
  revert s. induction children as [| c cs IH]; intros s; simpl.
  - destruct (decide (x ∈ [])) as [Hin | _]; [| reflexivity].
    inversion Hin.
  - rewrite IH. unfold showChild at 1 2. simpl.
    destruct (decide (x = c)) as [-> | Hne].
    + rewrite lookup_alter_eq.
      destruct (decide (c ∈ c :: cs)) as [_ | Hn];
        [| destruct Hn; apply list_elem_of_here].
      destruct (decide (c ∈ cs)); [| reflexivity].
      destruct (heap s !! c); reflexivity.
    + rewrite lookup_alter_ne by congruence.
      destruct (decide (x ∈ cs)) as [Hin | Hnin];
        destruct (decide (x ∈ c :: cs)) as [Hin' | Hnin']; try reflexivity.
      * destruct Hnin'. apply list_elem_of_further, Hin.
      * apply elem_of_cons in Hin'. destruct Hin'; congruence.
Qed.

Lemma state_eq (s s' : State) :
  heap s = heap s' -> besidesHeap s = besidesHeap s' -> s = s'.
Proof.
  destruct s, s'. unfold besidesHeap. simpl. intros -> [= -> -> -> -> ->].
  reflexivity.
Qed.

Lemma foldl_showChild_besides (v : bool) (children : list nat) (s : State) :
  besidesHeap (foldl (showChild v) s children) = besidesHeap s.
Proof.
  revert s. induction children as [| c cs IH]; intros s; simpl;
    [reflexivity |].
  rewrite IH. reflexivity.
Qed.

Lemma showEntity_besides (v : bool) (s : State) (r : nat) :
  besidesHeap (showEntity v s r) = besidesHeap s.
Proof.
  unfold showEntity. destruct (heap s !! r) as [e |]; [| reflexivity].
  destruct (contains s r); [| reflexivity].
  destruct (e_children e) as [children |]; [| reflexivity].
  rewrite foldl_showChild_besides. reflexivity.
Qed.

Lemma showEntity_heap (v : bool) (s : State) (r x : nat) :
  heap (showEntity v s r) !! x
  = if decide (x ∈ showTargets s r) then setShow v <$> heap s !! x
    else heap s !! x.
Proof.
  unfold showEntity, showTargets.
  destruct (heap s !! r) as [e |] eqn:Hr;
    [| destruct (decide (x ∈ [])) as [Hin | _];
       [inversion Hin | reflexivity]].
  destruct (contains s r);
    [| destruct (decide (x ∈ [])) as [Hin | _];
       [inversion Hin | reflexivity]].
  assert (Hins : forall y,
             <[r := setShow v e]> (heap s) !! y
             = if decide (y = r) then setShow v <$> heap s !! y
               else heap s !! y).
  { intros y. destruct (decide (y = r)) as [-> | Hne].
    - rewrite lookup_insert_eq, Hr. reflexivity.
    - rewrite lookup_insert_ne by congruence. reflexivity. }
  destruct (e_children e) as [children |].
  - rewrite foldl_showChild_heap. simpl. rewrite Hins.
    destruct (decide (x = r)) as [-> | Hne].
    + destruct (decide (r ∈ r :: children)) as [_ | Hn];
        [| destruct Hn; apply list_elem_of_here].
      destruct (decide (r ∈ children)); [| reflexivity].
      destruct (heap s !! r); reflexivity.
    + destruct (decide (x ∈ children)) as [Hin | Hnin];
        destruct (decide (x ∈ r :: children)) as [Hin' | Hnin'];
        try reflexivity.
      * destruct Hnin'. apply list_elem_of_further, Hin.
      * apply elem_of_cons in Hin'. destruct Hin'; congruence.
  - simpl. rewrite Hins.
    destruct (decide (x ∈ [r])) as [Hin' | Hnin'].
    + apply list_elem_of_singleton in Hin'. subst x.
      destruct (decide (r = r)); [reflexivity | congruence].
    + destruct (decide (x = r)) as [-> | _]; [| reflexivity].
      destruct Hnin'. apply list_elem_of_here.
Qed.

Lemma sameButShow_refl (s : State) : sameButShow s s.
Proof. split; reflexivity. Qed.

Lemma sameButShow_trans (s1 s2 s3 : State) :
  sameButShow s1 s2 -> sameButShow s2 s3 -> sameButShow s1 s3.
Proof.
  intros [Hb12 Hh12] [Hb23 Hh23]. split; [congruence |].
  intros x. rewrite Hh23. apply Hh12.
Qed.

Lemma showEntity_sameButShow (v : bool) (s : State) (r : nat) :
  sameButShow s (showEntity v s r).
Proof.
  split; [apply showEntity_besides |].
  intros x. rewrite showEntity_heap.
  destruct (decide (x ∈ showTargets s r)); [| reflexivity].
  destruct (heap s !! x); reflexivity.
Qed.

Lemma sameButShow_contains (s s' : State) (r : nat) :
  sameButShow s s' -> contains s' r = contains s r.
Proof.
  intros [Hb Hh]. unfold contains. specialize (Hh r).
  assert (Hc : collection s' = collection s).
  { unfold besidesHeap in Hb. congruence. }
  rewrite Hc.
  destruct (heap s' !! r) as [e' |], (heap s !! r) as [e |];
    simpl in Hh; try discriminate; [| reflexivity].
  assert (He : e_id e' = e_id e).
  { assert (Hs : setShow true e' = setShow true e) by congruence.
    apply (f_equal e_id) in Hs. exact Hs. }
  simpl. rewrite He. reflexivity.
Qed.

Lemma sameButShow_targets (s s' : State) (r : nat) :
  sameButShow s s' -> showTargets s' r = showTargets s r.
Proof.
  intros Hs. unfold showTargets.
  rewrite (sameButShow_contains s s' r Hs). destruct Hs as [_ Hh].
  specialize (Hh r).
  destruct (heap s' !! r) as [e' |], (heap s !! r) as [e |];
    simpl in Hh; try discriminate; [| reflexivity].
  assert (He : e_children e' = e_children e).
  { assert (Hs : setShow true e' = setShow true e) by congruence.
    apply (f_equal e_children) in Hs. exact Hs. }
  simpl. rewrite He. reflexivity.
Qed.

Lemma shownAt_noop (v : bool) (s : State) (r : nat) :
  shownAt v s r -> showEntity v s r = s.
Proof.
  intros Hshown. apply state_eq; [| apply showEntity_besides].
  apply map_eq. intros x. rewrite showEntity_heap.
  destruct (decide (x ∈ showTargets s r)) as [Hin |]; [| reflexivity].
  destruct (heap s !! x) as [e |] eqn:Hx; [| reflexivity]. simpl.
  rewrite <- (Hshown x e Hin Hx). rewrite setShow_same. reflexivity.
Qed.

Lemma showEntity_shownAt (v : bool) (s : State) (r : nat) :
  shownAt v (showEntity v s r) r.
Proof.
  intros x e Hin Hx.
  rewrite (sameButShow_targets _ _ r (showEntity_sameButShow v s r)) in Hin.
  rewrite showEntity_heap in Hx.
  destruct (decide (x ∈ showTargets s r)); [| contradiction].
  destruct (heap s !! x); simpl in Hx; [| discriminate].
  injection Hx as <-. reflexivity.
Qed.

Lemma shownAt_showEntity (v : bool) (s : State) (r r' : nat) :
  shownAt v s r -> shownAt v (showEntity v s r') r.
Proof.
  intros Hshown x e Hin Hx.
  rewrite (sameButShow_targets _ _ r (showEntity_sameButShow v s r')) in Hin.
  rewrite showEntity_heap in Hx.
  destruct (decide (x ∈ showTargets s r')).
  - destruct (heap s !! x); simpl in Hx; [| discriminate].
    injection Hx as <-. reflexivity.
  - exact (Hshown x e Hin Hx).
Qed.

Lemma shownAt_foldl (v : bool) (l : list nat) (s : State) (r : nat) :
  shownAt v s r -> shownAt v (foldl (showEntity v) s l) r.
Proof.
  revert s. induction l as [| a l IH]; intros s Hs; simpl; [exact Hs |].
  apply IH, shownAt_showEntity, Hs.
Qed.

Lemma foldl_showEntity_shownAt (v : bool) (l : list nat) (s : State) (r : nat) :
  r ∈ l -> shownAt v (foldl (showEntity v) s l) r.
Proof.
  revert s. induction l as [| a l IH]; intros s Hin; simpl.
  - inversion Hin.
  - apply elem_of_cons in Hin. destruct Hin as [-> | Hin].
    + apply shownAt_foldl, showEntity_shownAt.
    + apply IH, Hin.
Qed.

Lemma foldl_showEntity_noop (v : bool) (l : list nat) (s : State) :
  (forall r, r ∈ l -> shownAt v s r) -> foldl (showEntity v) s l = s.
Proof.
  induction l as [| a l IH]; intros Hall; simpl; [reflexivity |].
  rewrite (shownAt_noop v s a) by (apply Hall, list_elem_of_here).
  apply IH. intros r Hr. apply Hall, list_elem_of_further, Hr.
Qed.

Lemma foldl_showEntity_sameButShow (v : bool) (l : list nat) (s : State) :
  sameButShow s (foldl (showEntity v) s l).
Proof.
  revert s. induction l as [| a l IH]; intros s; simpl.
  - apply sameButShow_refl.
  - eapply sameButShow_trans; [apply showEntity_sameButShow | apply IH].
Qed.

Lemma foldl_showEntity_lookup (v : bool) (l : list nat) (s : State) (r : nat)
  (e : Entity) :
  heap s !! r = Some e ->
  heap (foldl (showEntity v) s l) !! r = Some e
  \/ heap (foldl (showEntity v) s l) !! r = Some (setShow v e).
Proof.
  revert s e. induction l as [| b l IH]; intros s e Hr; simpl;
    [left; exact Hr |].
  pose proof (showEntity_heap v s b r) as Hstep. rewrite Hr in Hstep.
  destruct (decide (r ∈ showTargets s b)); simpl in Hstep.
  - destruct (IH _ _ Hstep) as [Hk | Hk]; right; rewrite Hk; reflexivity.
  - exact (IH _ _ Hstep).
Qed.

End Visibility.

(** C9. [setFloorsVisible] is idempotent: a second call with the same
    arguments leaves the state exactly as the first one did. It never
    touches the map of floor entities, the viewer's collection or the
    allocation counter, creates and destroys no entity, and changes an
    entity at most in its [show] flag; so no descriptor is recomputed,
    recreated or duplicated. *)
Theorem setFloorsVisible_idempotent `{CesiumMath} (buildingId : option string)
  (visible : bool) (s : FloorGenerator.State) :
  let once := (FloorGenerator.setFloorsVisible buildingId visible s).2 in
  let twice := (FloorGenerator.setFloorsVisible buildingId visible once).2 in
  twice = once
  /\ FloorGenerator.floorEntities once = FloorGenerator.floorEntities s
  /\ FloorGenerator.collection once = FloorGenerator.collection s
  /\ FloorGenerator.nextRef once = FloorGenerator.nextRef s
  /\ (forall r,
        is_Some (FloorGenerator.heap once !! r)
        <-> is_Some (FloorGenerator.heap s !! r))
  /\ (forall r e,
        FloorGenerator.heap s !! r = Some e ->
        FloorGenerator.heap once !! r = Some e
        \/ FloorGenerator.heap once !! r
           = Some (FloorGenerator.setShow visible e)).
Proof.
  intros once twice.
  assert (Hsame : FloorGenerator.sameButShow s once).
  { unfold once, FloorGenerator.setFloorsVisible.
    destruct (FloorGenerator.floorEntities s !! buildingId)
      as [[| r rest] |]; try apply sameButShow_refl.
    apply (foldl_showEntity_sameButShow visible (r :: rest)). }
  assert (Hbesides : FloorGenerator.besidesHeap once
                     = FloorGenerator.besidesHeap s) by apply Hsame.
  unfold FloorGenerator.besidesHeap in Hbesides.
  assert (Hfloors : FloorGenerator.floorEntities once
                    = FloorGenerator.floorEntities s) by congruence.
  split; [| split; [exact Hfloors | split; [| split; [| split]]]].
  - unfold twice, FloorGenerator.setFloorsVisible at 1. rewrite Hfloors.
    unfold once, FloorGenerator.setFloorsVisible.
    destruct (FloorGenerator.floorEntities s !! buildingId)
      as [[| r rest] |] eqn:Hl; simpl; rewrite ?Hl; try reflexivity.
    apply (foldl_showEntity_noop visible (r :: rest)).
    intros x Hx. apply (foldl_showEntity_shownAt visible (r :: rest)), Hx.
  - congruence.
  - congruence.
  - intros r. destruct Hsame as [_ Hh]. specialize (Hh r).
    destruct (FloorGenerator.heap once !! r), (FloorGenerator.heap s !! r);
      simpl in Hh; try discriminate; split; intros [? ?];
      try discriminate; eauto.
  - intros r e Hr. unfold once, FloorGenerator.setFloorsVisible.
    destruct (FloorGenerator.floorEntities s !! buildingId)
      as [[| a rest] |]; simpl; try (left; exact Hr).
    apply (foldl_showEntity_lookup visible (a :: rest)), Hr.
Qed.


Lemma setFloorsVisible_idempotent_witness :
  let once :=
    (FloorGenerator.setFloorsVisible (H := flatEngine) (Some Scenarios.X)
       false Scenarios.floorsOfX).2 in
  exists e,
    FloorGenerator.heap Scenarios.floorsOfX !! 0%nat = Some e
    /\ (FloorGenerator.heap once !! 0%nat = Some e
        \/ FloorGenerator.heap once !! 0%nat
           = Some (FloorGenerator.setShow false e)).
Proof.
  intros once.
  destruct (FloorGenerator.heap Scenarios.floorsOfX !! 0%nat) as [e |] eqn:E;
    [| vm_compute in E; discriminate].
  exists e. split; [reflexivity |].
  destruct (setFloorsVisible_idempotent (H := flatEngine) (Some Scenarios.X)
              false Scenarios.floorsOfX) as (_ & _ & _ & _ & _ & Hshow).
  exact (Hshow 0%nat e E).
Defined.

(** ** The position cache *)

(** C6, as the code has it. The per-building cache holds anchor
    positions; [setBuildingPosition] overwrites the entry of its building
    unconditionally and leaves the other entries alone; and floor
    generation, geometry resolution with its 40 x 40 x 45 default
    included, never writes to the cache. *)
Theorem position_cache_is_last_writer_wins `{CesiumMath} :
  (forall s buildingId positionInfo,
      FloorGenerator.getBuildingPosition
        (FloorGenerator.setBuildingPosition buildingId positionInfo s)
        buildingId = Some positionInfo)
  /\ (forall s buildingId other positionInfo,
        buildingId <> other ->
        FloorGenerator.getBuildingPosition
          (FloorGenerator.setBuildingPosition buildingId positionInfo s) other
        = FloorGenerator.getBuildingPosition s other)
  /\ (forall buildingFeature properties s,
        FloorGenerator.buildingPositions
          (FloorGenerator.generateFloorModels buildingFeature properties s).2
        = FloorGenerator.buildingPositions s).
Proof.
  split; [| split].
  - intros s buildingId positionInfo.
    unfold FloorGenerator.getBuildingPosition,
      FloorGenerator.setBuildingPosition. simpl. apply lookup_insert_eq.
  - intros s buildingId other positionInfo Hne.
    unfold FloorGenerator.getBuildingPosition,
      FloorGenerator.setBuildingPosition. simpl.
    apply lookup_insert_ne, Hne.
  - intros buildingFeature properties s.
    exact (respects_generateFloorModels FloorGenerator.keepsPositions
             buildingFeature properties s).
Qed.

Lemma position_cache_is_last_writer_wins_witness :
  Some Scenarios.X <> Some Scenarios.Y
  /\ FloorGenerator.getBuildingPosition (H := flatEngine)
       (FloorGenerator.setBuildingPosition (Some Scenarios.X)
          {| FloorGenerator.pi_position := Scenarios.picked;
             FloorGenerator.pi_screenPosition := None;
             FloorGenerator.pi_isManual := false |}
          FloorGenerator.initial) (Some Scenarios.Y)
     = FloorGenerator.getBuildingPosition (H := flatEngine)
         FloorGenerator.initial (Some Scenarios.Y).
Proof.
  assert (Hne : Some Scenarios.X <> Some Scenarios.Y) by discriminate.
  destruct (position_cache_is_last_writer_wins (H := flatEngine))
    as (_ & Hother & _).
  split; [exact Hne | apply Hother, Hne].
Defined.

(** C6, as stated, fails: a building outside the surveyed table has the
    anchor picked on the globe in its cache entry; generation fails and
    the user retries; the retry overwrites the entry with the default
    Rotterdam anchor. *)
Lemma retry_overwrites_picked_anchor_with_default :
  let before :=
    BuildingSelector.run Scenarios.start Scenarios.toggleWithGlobePick in
  let after := BuildingSelector.run Scenarios.start Scenarios.thenRetry in
  FloorGenerator.pi_position
    <$> FloorGenerator.getBuildingPosition
          (BuildingSelector.floorGenerator before) (Some Scenarios.Z0)
  = Some Scenarios.picked
  /\ FloorGenerator.pi_position
       <$> FloorGenerator.getBuildingPosition
             (BuildingSelector.floorGenerator after) (Some Scenarios.Z0)
     = Some (BuildingSelector.defaultPosition (H := flatEngine))
  /\ Scenarios.picked <> BuildingSelector.defaultPosition (H := flatEngine).
Proof. vm_compute. repeat split; try reflexivity. discriminate. Qed.

(** ** Selection *)

Section SelectorFrames.
Context `{CesiumMath}.
Import BuildingSelector.

(** What [generateFloors] leaves alone: everything but the generator. *)
Lemma inGenerator_besides {A} (m : FloorGenerator.G A) (w : World) :
  withFloorGenerator (floorGenerator w) (inGenerator m w).2 = w.
Proof.
  unfold inGenerator. destruct (m (floorGenerator w)) as [r g].
  destruct w; reflexivity.
Qed.

Lemma generateFloors_besides (env : SceneQueries)
  (properties : list PropertyRecord) (w : World) :
  withFloorGenerator (floorGenerator w) (generateFloors env properties w).2 = w.
Proof.
  unfold generateFloors.
  destruct (selectedFeature w) as [f |]; [| destruct w; reflexivity].
  destruct properties as [| p ps]; [destruct w; reflexivity |].
  pose proof (inGenerator_besides
                (FloorGenerator.generateFloorModels (Some f) (p :: ps)) w) as H1.
  destruct (inGenerator
              (FloorGenerator.generateFloorModels (Some f) (p :: ps)) w)
    as [r w1]. simpl in H1.
  assert (Hstep : forall w2 : World,
             withFloorGenerator (floorGenerator w1) w2 = w1 ->
             withFloorGenerator (floorGenerator w) w2 = w).
  { intros w2 H2. rewrite <- H1, <- H2. destruct w2; reflexivity. }
  assert (Hfallback :
            withFloorGenerator (floorGenerator w)
              (match selectedFeaturePosition env with
               | Some position =>
                   match inGenerator
                           (createSimpleFloors (p :: ps) position) w1 with
                   | (Some success, w'') => (success, w'')
                   | (None, w'') => (false, w'')
                   end
               | None => (false, w1)
               end).2 = w).
  { destruct (selectedFeaturePosition env) as [position |]; [| exact H1].
    pose proof (inGenerator_besides
                  (createSimpleFloors (p :: ps) position) w1) as H2.
    destruct (inGenerator (createSimpleFloors (p :: ps) position) w1)
      as [[success |] w2]; apply Hstep, H2. }
  destruct r as [[|] |]; [exact H1 | exact Hfallback | exact Hfallback].
Qed.

End SelectorFrames.

(** C1, as the code has it. The code keeps no selection token: when the
    property fetch launched by a pick comes back with records, they are
    applied whatever has been selected since. The info panel shows them,
    the building that is current at that moment (not the one the fetch was
    launched for) is marked as having info, and the records are cached
    under the building they were fetched for. *)
Theorem pick_fetch_result_is_applied_unconditionally `{CesiumMath}
  (w : BuildingSelector.World) (env : BuildingSelector.SceneQueries)
  (k : nat) (pandId : string) (first : PropertyRecord)
  (rest : list PropertyRecord) :
  BuildingSelector.pending w !! k = Some (BuildingSelector.PickFetch pandId) ->
  let w' :=
    BuildingSelector.step w
      (env, BuildingSelector.FetchSettled k
              (PropertyDataService.Ok (first :: rest))) in
  InfoPanel.content (BuildingSelector.infoPanel w')
  = InfoPanel.Properties (first :: rest)
  /\ InfoPanel.visible (BuildingSelector.infoPanel w') = true
  /\ BuildingSelector.currentBuildingId w' = BuildingSelector.currentBuildingId w
  /\ (forall current,
        BuildingSelector.currentBuildingId w = Some current ->
        current <> "" ->
        current ∈ BuildingSelector.buildingsWithInfo w')
  /\ PropertyDataService.cache (BuildingSelector.dataService w') !! pandId
     = Some (first :: rest).
Proof.
  intros Hk w'. unfold w', BuildingSelector.step. rewrite Hk.
  unfold BuildingSelector.received, PropertyDataService.receiveProperties,
    BuildingSelector.pickSettled, BuildingSelector.pickThen.
  cbv zeta.
  set (w0 := BuildingSelector.withDataService _ (BuildingSelector.settle k w)).
  set (w1 := match BuildingSelector.currentBuildingId w0 with
             | Some id => BuildingSelector.markBuildingHasInfo id w0
             | None => w0
             end).
  set (w2 := BuildingSelector.withInfoPanel _ w1).
  set (w3 := if BuildingSelector.showFloorsForSelectedBuilding w2
             then (BuildingSelector.generateFloors env (first :: rest) w2).2
             else w2).
  assert (H3 : BuildingSelector.withFloorGenerator
                 (BuildingSelector.floorGenerator w2) w3 = w2).
  { unfold w3. destruct (BuildingSelector.showFloorsForSelectedBuilding w2).
    - apply generateFloors_besides.
    - destruct w2; reflexivity. }
  assert (Hpanel : BuildingSelector.infoPanel w3 = BuildingSelector.infoPanel w2)
    by exact (f_equal BuildingSelector.infoPanel H3).
  assert (Hw1 : forall {A} (proj : BuildingSelector.World -> A),
             (forall id x, proj (BuildingSelector.withInfo id x w0) = proj w0) ->
             proj w1 = proj w0).
  { intros A proj Hproj. unfold w1.
    destruct (BuildingSelector.currentBuildingId w0); [| reflexivity].
    unfold BuildingSelector.markBuildingHasInfo.
    destruct (String.eqb s ""); [reflexivity | apply Hproj]. }
  assert (Hcur : BuildingSelector.currentBuildingId w3
                 = BuildingSelector.currentBuildingId w).
  { transitivity (BuildingSelector.currentBuildingId w2);
      [exact (f_equal BuildingSelector.currentBuildingId H3) |].
    exact (Hw1 _ BuildingSelector.currentBuildingId (fun _ _ => eq_refl)). }
  assert (Hinfo : BuildingSelector.buildingsWithInfo w3
                  = BuildingSelector.buildingsWithInfo w1)
    by exact (f_equal BuildingSelector.buildingsWithInfo H3).
  assert (Hsvc : BuildingSelector.dataService w3
                 = BuildingSelector.dataService w0).
  { transitivity (BuildingSelector.dataService w2);
      [exact (f_equal BuildingSelector.dataService H3) |].
    exact (Hw1 _ BuildingSelector.dataService (fun _ _ => eq_refl)). }
  simpl. rewrite Hpanel. split; [reflexivity |]. split; [reflexivity |].
  split; [exact Hcur |]. split.
  - intros current Hcurrent Hne. rewrite Hinfo. unfold w1.
    change (BuildingSelector.currentBuildingId w0)
      with (BuildingSelector.currentBuildingId w).
    rewrite Hcurrent. unfold BuildingSelector.markBuildingHasInfo.
    destruct (String.eqb_spec current "") as [E | _]; [contradiction |].
    simpl. apply elem_of_union_r, elem_of_singleton. reflexivity.
  - rewrite Hsvc. unfold w0. simpl. apply lookup_insert_eq.
Qed.

Lemma pick_fetch_result_is_applied_unconditionally_witness :
  let w := BuildingSelector.run Scenarios.start Scenarios.pickX in
  BuildingSelector.pending w !! 1%nat
  = Some (BuildingSelector.PickFetch Scenarios.X)
  /\ InfoPanel.content
       (BuildingSelector.infoPanel
          (BuildingSelector.step w
             (Scenarios.quiet,
              BuildingSelector.FetchSettled 1
                (PropertyDataService.Ok Scenarios.recordsX))))
     = InfoPanel.Properties Scenarios.recordsX.
Proof.
  intros w.
  assert (Hk : BuildingSelector.pending w !! 1%nat
               = Some (BuildingSelector.PickFetch Scenarios.X))
    by reflexivity.
  split; [exact Hk |].
  exact (proj1 (pick_fetch_result_is_applied_unconditionally (H := flatEngine)
                  w Scenarios.quiet 1 Scenarios.X
                  (Scenarios.unit_ Scenarios.X (FNum 0) (FNum 2))
                  [Scenarios.unit_ Scenarios.X (FNum 0) (FNum 2);
                   Scenarios.unit_ Scenarios.X (FNum 1) (FNum 2)] Hk)).
Defined.

(** C1, as stated, fails in Scenario E: Y is picked while the fetch for X
    is pending, the fetch for Y comes back, and then the one for X. At the
    end Y is the current selection and the panel displays the records of
    X; and it is Y, not X, that the late result has marked as having
    info. *)
Lemma stale_fetch_result_is_displayed :
  let w := BuildingSelector.run Scenarios.start Scenarios.scenarioE in
  BuildingSelector.currentBuildingId w = Some Scenarios.Y
  /\ fid <$> BuildingSelector.selectedFeature w = Some 2%nat
  /\ InfoPanel.visible (BuildingSelector.infoPanel w) = true
  /\ InfoPanel.content (BuildingSelector.infoPanel w)
     = InfoPanel.Properties Scenarios.recordsX
  /\ Forall (fun p => pandid p = Some Scenarios.X) Scenarios.recordsX
  /\ Scenarios.X <> Scenarios.Y
  /\ BuildingSelector.hasBuildingInfo w Scenarios.Y = true
  /\ BuildingSelector.hasBuildingInfo w Scenarios.X = false.
Proof.
  vm_compute. repeat split; try reflexivity; try discriminate.
  repeat constructor.
Qed.

(** C5 at a failing input. X is picked and its floors are switched on;
    then Y is picked. The pick generates the floors of Y without removing
    those of X: the reachable state at the end tracks shown floor
    entities for both buildings. *)
Theorem pick_with_floors_on_shows_two_buildings :
  exists w : BuildingSelector.World (H := flatEngine),
    BuildingSelector.reachable w
    /\ w = BuildingSelector.run Scenarios.start Scenarios.pickToggleThenPick
    /\ BuildingSelector.showsFloorsOf w (Some Scenarios.X) = true
    /\ BuildingSelector.showsFloorsOf w (Some Scenarios.Y) = true
    /\ Some Scenarios.X <> Some Scenarios.Y.
Proof.
  eexists. split.
  { exists (Some Scenarios.styleManager), Scenarios.pickToggleThenPick.
    reflexivity. }
  split; [reflexivity |].
  split; [vm_compute; reflexivity |].
  split; [vm_compute; reflexivity | discriminate].
Qed.

(** ** Scenarios of the specification *)

(** Scenario B: a feature with no sixteen-digit pattern is not identified,
    no fetch is launched and the panel shows the error. *)
Lemma scenario_B :
  let unknown := Scenarios.pandidOnly 9 "gebouw" in
  let w0 := Scenarios.start in
  let w := BuildingSelector.step w0
             (Scenarios.quiet,
              BuildingSelector.LeftClick
                (BuildingSelector.PickedFeature unknown)) in
  FeatureIdentifier.getFeatureBuildingId unknown = None
  /\ BuildingSelector.pending w = BuildingSelector.pending w0
  /\ BuildingSelector.currentBuildingId w = None
  /\ InfoPanel.content (BuildingSelector.infoPanel w)
     = InfoPanel.Error "Error retrieving building data".
Proof. vm_compute. repeat split; reflexivity. Qed.

(** Scenario C: two units on floor 0 and one on floor 1 of a building of
    two floors give exactly two floor entities, with two and one units. *)
Lemma scenario_C :
  Scenarios.unitsPerFloor Scenarios.floorsOfX Scenarios.X
  = [(0%Z, 2%nat); (1%Z, 1%nat)].
Proof. vm_compute. reflexivity. Qed.

(** * Further properties of the code *)

(** ** Units per floor *)

Lemma sum_list_pointwise {A} (f g : A -> nat) (l : list A) :
  sum_list ((fun k => f k + g k) <$> l)
  = sum_list (f <$> l) + sum_list (g <$> l).
Proof.
  induction l as [| a l IH]; [reflexivity |].
  rewrite !fmap_cons. simpl. rewrite IH. lia.
Qed.

(** Case analysis on the integer comparisons of the goal. *)
Ltac Zcompare :=
  repeat match goal with
         | |- context [(?a <=? ?b)%Z] => destruct (Z.leb_spec a b)
         | |- context [(?a <? ?b)%Z] => destruct (Z.ltb_spec a b)
         | |- context [(?a =? ?b)%Z] => destruct (Z.eqb_spec a b)
         end;
  simpl; try reflexivity; try discriminate; try lia.

Lemma sum_list_indicator (n m : Z) (j : nat) :
  sum_list ((fun k => if (n =? k)%Z then 1 else 0) <$> seqZ m (Z.of_nat j))
  = if (m <=? n)%Z && (n <? m + Z.of_nat j)%Z then 1 else 0.
Proof.
  induction j as [| j IH].
  - simpl. Zcompare.
  - rewrite seqZ_S, fmap_app, sum_list_with_app, IH. simpl. Zcompare.
Qed.

Lemma onFloor_indicator (totalFloors : Z) (p : PropertyRecord) :
  (0 <= totalFloors)%Z ->
  sum_list ((fun k => if onFloor k p then 1 else 0) <$> seqZ 0 totalFloors)
  = if FloorGenerator.onSomeFloor totalFloors p then 1 else 0.
Proof.
  intros Hn. unfold onFloor, FloorGenerator.onSomeFloor.
  rewrite <- (Z2Nat.id totalFloors Hn).
  destruct (bwlg_vb0 p) as [| | n].
  - induction (seqZ 0 (Z.of_nat (Z.to_nat totalFloors))); simpl; auto.
  - induction (seqZ 0 (Z.of_nat (Z.to_nat totalFloors))); simpl; auto.
  - apply (sum_list_indicator n 0).
Qed.

(** X1. The floors share out the units without counting one twice: a
    unit listed on a floor carries that floor's index; over the floors
    [0 .. totalFloors - 1] the lists hold, in all, exactly the units whose
    floor index is a number in that range (a unit with no floor index, or
    with one outside the range, is on no floor); and the [floorUnits] of
    [getDetailedFloorInfo] are the lengths of these lists. *)
Theorem floors_share_out_the_units (properties : list PropertyRecord)
  (totalFloors : Z) :
  (forall floorNum p,
      p ∈ FloorGenerator.getPropertiesOnFloor properties floorNum ->
      p ∈ properties /\ bwlg_vb0 p = FNum floorNum)
  /\ sum_list ((fun k =>
                  length (FloorGenerator.getPropertiesOnFloor properties k))
               <$> seqZ 0 totalFloors)
     = length (filter (fun p => FloorGenerator.onSomeFloor totalFloors p = true) properties)
  /\ (forall info,
        FloorGenerator.getDetailedFloorInfo properties = Some info ->
        FloorGenerator.floorUnits info
        = (fun k => length (FloorGenerator.getPropertiesOnFloor properties k))
          <$> seqZ 0 (FloorGenerator.totalFloors info)).
Proof.
  split; [| split].
  - intros floorNum p Hin. unfold FloorGenerator.getPropertiesOnFloor in Hin.
    apply list_elem_of_filter in Hin. destruct Hin as [Hon Hin].
    split; [exact Hin |]. unfold onFloor in Hon.
    destruct (bwlg_vb0 p) as [| | n]; try discriminate.
    apply Z.eqb_eq in Hon. congruence.
  - destruct (Z.le_gt_cases 0 totalFloors) as [Hn | Hn].
    + unfold FloorGenerator.getPropertiesOnFloor.
      induction properties as [| p ps IH].
      * simpl. induction (seqZ 0 totalFloors); simpl; auto.
      * rewrite filter_cons.
        transitivity
          (sum_list ((fun k =>
                        (if onFloor k p then 1 else 0)
                        + length (filter (fun q => onFloor k q = true) ps))
                     <$> seqZ 0 totalFloors)).
        { f_equal. apply list_fmap_ext. intros _ k _.
          rewrite filter_cons.
          destruct (decide (onFloor k p = true)) as [E | E].
          - rewrite E. reflexivity.
          - destruct (onFloor k p); [congruence | reflexivity]. }
        rewrite sum_list_pointwise, IH, (onFloor_indicator _ _ Hn).
        destruct (decide (FloorGenerator.onSomeFloor totalFloors p = true)) as [E | E].
        -- rewrite E. reflexivity.
        -- destruct (FloorGenerator.onSomeFloor totalFloors p); [congruence | reflexivity].
    + rewrite seqZ_nil by lia. simpl.
      induction properties as [| p ps IH]; [reflexivity |].
      rewrite filter_cons.
      destruct (decide (FloorGenerator.onSomeFloor totalFloors p = true))
        as [E | E]; [| exact IH].
      exfalso. unfold FloorGenerator.onSomeFloor in E.
      destruct (bwlg_vb0 p) as [| | n]; try discriminate.
      revert E. Zcompare.
  - intros info Hinfo. unfold FloorGenerator.getDetailedFloorInfo in Hinfo.
    destruct properties as [| firstProp rest]; [discriminate |].
    injection Hinfo as <-. reflexivity.
Qed.

(** ** Removal *)

Section Removal.
Context `{CesiumMath}.
Import FloorGenerator.

Lemma removeIfContained_besides (s : State) (x : nat) :
  heap (removeIfContained s x) = heap s
  /\ nextRef (removeIfContained s x) = nextRef s
  /\ floorEntities (removeIfContained s x) = floorEntities s
  /\ activeBuilding (removeIfContained s x) = activeBuilding s
  /\ buildingPositions (removeIfContained s x) = buildingPositions s.
Proof.
  unfold removeIfContained. destruct (heap s !! x); [| repeat split].
  destruct (contains s x); repeat split.
Qed.

Lemma removeIfContained_sub (s : State) (x : nat) (i : string + nat)
  (r : nat) :
  collection (removeIfContained s x) !! i = Some r ->
  collection s !! i = Some r.
Proof.
  unfold removeIfContained. destruct (heap s !! x) as [e |]; [| auto].
  destruct (contains s x); [| auto]. simpl.
  intros Hd. apply lookup_delete_Some in Hd. apply Hd.
Qed.

Lemma removeIfContained_other (s : State) (x : nat) (i : string + nat)
  (r : nat) :
  collection s !! i = Some r -> r <> x ->
  collection (removeIfContained s x) !! i = Some r.
Proof.
  intros Hi Hne. unfold removeIfContained.
  destruct (heap s !! x) as [e |] eqn:Hx; [| exact Hi].
  destruct (contains s x) eqn:Hc; [| exact Hi]. simpl.
  apply lookup_delete_Some. split; [| exact Hi].
  intros <-. unfold contains in Hc. rewrite Hx in Hc.
  apply bool_decide_eq_true in Hc. congruence.
Qed.

Lemma removeIfContained_gone (s : State) (x : nat) :
  contains (removeIfContained s x) x = false.
Proof.
  unfold removeIfContained.
  destruct (heap s !! x) as [e |] eqn:Hx;
    [| unfold contains; rewrite Hx; reflexivity].
  destruct (contains s x) eqn:Hc; [| exact Hc].
  unfold contains. simpl. rewrite Hx.
  apply bool_decide_eq_false. rewrite lookup_delete_eq. discriminate.
Qed.

Lemma contains_sub (s s' : State) (r : nat) :
  heap s' = heap s ->
  (forall i, collection s' !! i = Some r -> collection s !! i = Some r) ->
  contains s r = false -> contains s' r = false.
Proof.
  intros Hh Hsub Hc. unfold contains in *. rewrite Hh.
  destruct (heap s !! r) as [e |]; [| reflexivity].
  apply bool_decide_eq_false. apply bool_decide_eq_false in Hc.
  intros Hi. apply Hc, Hsub, Hi.
Qed.

Lemma foldl_removeIfContained_besides (l : list nat) (s : State) :
  heap (foldl removeIfContained s l) = heap s
  /\ nextRef (foldl removeIfContained s l) = nextRef s
  /\ floorEntities (foldl removeIfContained s l) = floorEntities s
  /\ activeBuilding (foldl removeIfContained s l) = activeBuilding s
  /\ buildingPositions (foldl removeIfContained s l) = buildingPositions s.
Proof.
  revert s. induction l as [| x l IH]; intros s; simpl; [repeat split |].
  destruct (IH (removeIfContained s x)) as (-> & -> & -> & -> & ->).
  apply removeIfContained_besides.
Qed.

Lemma foldl_removeIfContained_sub (l : list nat) (s : State)
  (i : string + nat) (r : nat) :
  collection (foldl removeIfContained s l) !! i = Some r ->
  collection s !! i = Some r.
Proof.
  revert s. induction l as [| x l IH]; intros s; simpl; [auto |].
  intros Hi. apply (removeIfContained_sub s x), IH, Hi.
Qed.

Lemma foldl_removeIfContained_other (l : list nat) (s : State)
  (i : string + nat) (r : nat) :
  collection s !! i = Some r -> r ∉ l ->
  collection (foldl removeIfContained s l) !! i = Some r.
Proof.
  revert s. induction l as [| x l IH]; intros s Hi Hnin; simpl; [exact Hi |].
  apply IH.
  - apply removeIfContained_other; [exact Hi |].
    intros ->. apply Hnin, list_elem_of_here.
  - intros Hin. apply Hnin, list_elem_of_further, Hin.
Qed.

Lemma foldl_removeIfContained_gone (l : list nat) (s : State) (r : nat) :
  r ∈ l -> contains (foldl removeIfContained s l) r = false.
Proof.
  revert s. induction l as [| x l IH]; intros s Hin; simpl.
  - inversion Hin.
  - apply elem_of_cons in Hin. destruct Hin as [-> | Hin]; [| apply IH, Hin].
    apply (contains_sub (removeIfContained s x)).
    + apply foldl_removeIfContained_besides.
    + intros i. apply foldl_removeIfContained_sub.
    + apply removeIfContained_gone.
Qed.

Lemma withFloorEntities_contains (m : gmap (option string) (list nat))
  (s : State) (r : nat) :
  contains (withFloorEntities m s) r = contains s r.
Proof. reflexivity. Qed.

Lemma tracked_concat (s : State) (r : nat) :
  r ∈ concat (map snd (map_to_list (floorEntities s))) <-> tracked s r.
Proof.
  unfold tracked. rewrite list_elem_of_In, in_concat. split.
  - intros (l & Hl & Hr). apply in_map_iff in Hl.
    destruct Hl as ([k l'] & <- & Hkl). exists k, l'. split.
    + apply elem_of_map_to_list, list_elem_of_In, Hkl.
    + apply list_elem_of_In, Hr.
  - intros (k & l & Hkl & Hr). exists l. split.
    + apply in_map_iff. exists (k, l). split; [reflexivity |].
      apply list_elem_of_In, elem_of_map_to_list, Hkl.
    + apply list_elem_of_In, Hr.
Qed.

End Removal.

(** X2. [removeFloorModels] answers [true] exactly when the building has
    a non-empty list of floor entities, and otherwise changes nothing
    (an empty list stays in the map). When it answers [true] the building
    is no longer in the map and none of its floor entities is in the
    viewer. In every case the other buildings' lists, the entity objects,
    the position cache and [activeBuilding] stay as they were, nothing is
    added to the viewer, and an entity of the viewer that is not in the
    building's list stays in it. *)
Theorem removeFloorModels_removes_the_tracked_floors `{CesiumMath}
  (buildingId : option string) (s : FloorGenerator.State) :
  let removed := (FloorGenerator.removeFloorModels buildingId s).1 in
  let s' := (FloorGenerator.removeFloorModels buildingId s).2 in
  let entities := default [] (FloorGenerator.floorEntities s !! buildingId) in
  (removed = true <-> entities <> [])
  /\ (removed = false -> s' = s)
  /\ (removed = true ->
      FloorGenerator.floorEntities s' !! buildingId = None
      /\ forall r, r ∈ entities -> FloorGenerator.contains s' r = false)
  /\ (forall other, other <> buildingId ->
      FloorGenerator.floorEntities s' !! other
      = FloorGenerator.floorEntities s !! other)
  /\ FloorGenerator.heap s' = FloorGenerator.heap s
  /\ FloorGenerator.buildingPositions s' = FloorGenerator.buildingPositions s
  /\ FloorGenerator.activeBuilding s' = FloorGenerator.activeBuilding s
  /\ (forall i r,
      FloorGenerator.collection s' !! i = Some r ->
      FloorGenerator.collection s !! i = Some r)
  /\ (forall i r,
      FloorGenerator.collection s !! i = Some r -> r ∉ entities ->
      FloorGenerator.collection s' !! i = Some r).
Proof.
  intros removed s' entities. subst removed s' entities.
  unfold FloorGenerator.removeFloorModels.
  destruct (FloorGenerator.floorEntities s !! buildingId) as [[| r rest] |]
    eqn:Hl; simpl.
  1, 3: repeat split; intros; try discriminate; try congruence; auto.
  destruct (foldl_removeIfContained_besides (r :: rest) s)
    as (Hheap & Hnext & Hfloors & Hactive & Hpos). simpl in *.
  repeat split; intros; try discriminate; try assumption.
  - rewrite Hfloors. apply lookup_delete_eq.
  - apply (foldl_removeIfContained_gone (r :: rest)). assumption.
  - rewrite Hfloors. apply lookup_delete_ne. congruence.
  - eapply (foldl_removeIfContained_sub (r :: rest)). eassumption.
  - apply (foldl_removeIfContained_other (r :: rest)); assumption.
Qed.

(** X3. [removeAllFloorModels] empties the map of floor entities and
    takes every entity some list tracked out of the viewer. It removes
    nothing else: an entity of the viewer that no list tracks (a building
    outline, the boxes of an L-shaped floor, an entity of another
    component) stays in it; and the entity objects, the position cache
    and [activeBuilding] stay as they were. *)
Theorem removeAllFloorModels_removes_what_is_tracked `{CesiumMath}
  (s : FloorGenerator.State) :
  let s' := FloorGenerator.removeAllFloorModels s in
  FloorGenerator.floorEntities s' = ∅
  /\ (forall r, FloorGenerator.tracked s r ->
      FloorGenerator.contains s' r = false)
  /\ (forall i r,
      FloorGenerator.collection s !! i = Some r ->
      ~ FloorGenerator.tracked s r ->
      FloorGenerator.collection s' !! i = Some r)
  /\ (forall i r,
      FloorGenerator.collection s' !! i = Some r ->
      FloorGenerator.collection s !! i = Some r)
  /\ FloorGenerator.heap s' = FloorGenerator.heap s
  /\ FloorGenerator.buildingPositions s' = FloorGenerator.buildingPositions s
  /\ FloorGenerator.activeBuilding s' = FloorGenerator.activeBuilding s.
Proof.
  intros s'. subst s'. unfold FloorGenerator.removeAllFloorModels.
  set (l := concat (map snd (map_to_list (FloorGenerator.floorEntities s)))).
  destruct (foldl_removeIfContained_besides l s)
    as (Hheap & Hnext & Hfloors & Hactive & Hpos).
  repeat split; try assumption.
  - intros r Hr. rewrite withFloorEntities_contains.
    apply foldl_removeIfContained_gone, tracked_concat, Hr.
  - intros i r Hi Hn. simpl. apply foldl_removeIfContained_other; [exact Hi |].
    intros Hin. apply Hn, tracked_concat, Hin.
  - intros i r. simpl. apply foldl_removeIfContained_sub.
Qed.

(** X4. The clean-up of the Floor Mode button builds a generator of its
    own on the viewer and calls [removeAllFloorModels] on it: that
    generator tracks nothing, so the viewer keeps every entity and the
    floors the selector's generator made stay where they are. *)
Theorem fresh_generator_removes_nothing `{CesiumMath}
  (s : FloorGenerator.State) :
  FloorGenerator.viewerOf
    (FloorGenerator.removeAllFloorModels (FloorGenerator.onViewer s)) s
  = s.
Proof. destruct s; reflexivity. Qed.

(** ** Generation *)

Lemma showZ_inj (a b : Z) : showZ a = showZ b -> a = b.
Proof.
  unfold showZ. intros E. apply DecimalZ.to_int_inj.
  assert (Hnn : forall z, Z.to_int z <> Decimal.Pos Decimal.Nil
                          /\ Z.to_int z <> Decimal.Neg Decimal.Nil).
  { intros z. destruct z as [| p | p]; simpl; split; try discriminate;
      intros [= E']; apply (DecimalPos.Unsigned.to_uint_nonnil p E'). }
  apply (f_equal NilZero.int_of_string) in E.
  rewrite !NilZero.isi in E by apply Hnn. congruence.
Qed.

Lemma append_inj_r (p a b : string) : p +:+ a = p +:+ b -> a = b.
Proof. induction p as [| c p IH]; simpl; [auto | intros [= E]; auto]. Qed.

Lemma floorEntityId_inj `{CesiumMath} (buildingId : string) (a b : Z) :
  FloorGenerator.floorEntityId buildingId a
  = FloorGenerator.floorEntityId buildingId b -> a = b.
Proof.
  unfold FloorGenerator.floorEntityId. intros [= E].
  apply showZ_inj, (append_inj_r "_"), (append_inj_r buildingId), E.
Qed.

Section Generation.
Context `{CesiumMath}.
Import FloorGenerator.
#[local] Existing Instances G_ret G_bind G_fmap.

(** A turn of the loop for a plain footprint, when the viewer holds no
    entity under the floor's id. *)
Lemma generateFloor_plain (buildingId : string) (geometry : Geometry)
  (properties : list PropertyRecord) (totalFloors : Z) (created : list nat)
  (floorNum : Z) (s : State) :
  collection s !! floorEntityId buildingId floorNum = None ->
  exists e,
    generateFloor buildingId geometry properties totalFloors false created
      floorNum s
    = (Some (created ++ [nextRef s]),
       {| heap := <[nextRef s := e]> (heap s); nextRef := S (nextRef s);
          collection :=
            <[floorEntityId buildingId floorNum := nextRef s]> (collection s);
          floorEntities := floorEntities s;
          activeBuilding := activeBuilding s;
          buildingPositions := buildingPositions s |})
    /\ e_id e = floorEntityId buildingId floorNum
    /\ e_show e = true
    /\ fp_unitsCount <$> e_properties e
       = Some (length (getPropertiesOnFloor properties floorNum)).
Proof.
  intros Hfree. eexists. split.
  - unfold generateFloor, createFloorEntityFromGeometry, newEntity.
    unfold mbind, G_bind, fmap, G_fmap, entities_add. simpl.
    rewrite lookup_insert_eq. simpl. rewrite Hfree. reflexivity.
  - repeat split.
Qed.

Lemma floorsStand_step (buildingId : string)
  (properties : list PropertyRecord) (created : list nat) (s : State)
  (e : Entity) :
  floorsStand buildingId properties created s ->
  (forall k, (Z.of_nat (length created) <= k)%Z ->
             collection s !! floorEntityId buildingId k = None) ->
  e_id e = floorEntityId buildingId (Z.of_nat (length created)) ->
  e_show e = true ->
  fp_unitsCount <$> e_properties e
  = Some (length (getPropertiesOnFloor properties
                    (Z.of_nat (length created)))) ->
  floorsStand buildingId properties (created ++ [nextRef s])
    {| heap := <[nextRef s := e]> (heap s); nextRef := S (nextRef s);
       collection :=
         <[floorEntityId buildingId (Z.of_nat (length created)) := nextRef s]>
           (collection s);
       floorEntities := floorEntities s;
       activeBuilding := activeBuilding s;
       buildingPositions := buildingPositions s |}.
Proof.
  intros Hstand Hfree Hid Hshow Hunits i r Hi. simpl.
  destruct (decide (i < length created)) as [Hlt | Hge].
  - rewrite lookup_app_l in Hi by exact Hlt.
    destruct (Hstand i r Hi) as (Hr & e0 & He0 & Hid0 & Hshow0 & Hu0 & Hc0).
    split; [lia |]. exists e0.
    rewrite lookup_insert_ne by lia.
    rewrite lookup_insert_ne
      by (intros E; apply floorEntityId_inj in E; lia).
    auto.
  - assert (i = length created) as ->.
    { apply lookup_lt_Some in Hi. rewrite length_app in Hi. simpl in Hi.
      lia. }
    rewrite lookup_app_r, Nat.sub_diag in Hi by lia.
    injection Hi as <-. split; [lia |]. exists e.
    rewrite !lookup_insert_eq. auto.
Qed.

Lemma floor_loop (buildingId : string) (geometry : Geometry)
  (properties : list PropertyRecord) (totalFloors : Z) (j : nat) :
  forall (created : list nat) (s : State),
    floorsStand buildingId properties created s ->
    (forall k, (Z.of_nat (length created) <= k)%Z ->
               collection s !! floorEntityId buildingId k = None) ->
    exists created' s',
      forEachM (generateFloor buildingId geometry properties totalFloors false)
        (seqZ (Z.of_nat (length created)) (Z.of_nat j)) created s
      = (Some created', s')
      /\ length created' = length created + j
      /\ floorsStand buildingId properties created' s'
      /\ floorEntities s' = floorEntities s
      /\ activeBuilding s' = activeBuilding s
      /\ buildingPositions s' = buildingPositions s.
Proof.
  induction j as [| j IH]; intros created s Hstand Hfree.
  - exists created, s. simpl.
    split; [reflexivity | split; [lia | split; [exact Hstand |]]].
    repeat split.
  - rewrite seqZ_cons by lia.
    replace (Z.succ (Z.of_nat (length created)))
      with (Z.of_nat (length (created ++ [nextRef s])))
      by (rewrite length_app; simpl; lia).
    replace (Z.pred (Z.of_nat (S j))) with (Z.of_nat j) by lia.
    destruct (generateFloor_plain buildingId geometry properties totalFloors
                created (Z.of_nat (length created)) s)
      as (e & Hrun & Hid & Hshow & Hunits); [apply Hfree; lia |].
    simpl. unfold mbind at 1, G_bind at 1. rewrite Hrun.
    edestruct (IH (created ++ [nextRef s])) as
      (created' & s' & Hloop & Hlen & Hstand' & Hf & Ha & Hp);
      [apply (floorsStand_step _ _ _ _ e Hstand Hfree Hid Hshow Hunits) | |].
    + intros k Hk. simpl. rewrite length_app in Hk. simpl in Hk.
      rewrite lookup_insert_ne
        by (intros E; apply floorEntityId_inj in E; lia).
      apply Hfree. lia.
    + exists created', s'. rewrite Hloop. rewrite length_app in Hlen.
      simpl in *.
      split; [reflexivity | split; [lia | split; [exact Hstand' |]]].
      repeat split; assumption.
Qed.

Lemma floorsStand_transfer (buildingId : string)
  (properties : list PropertyRecord) (created : list nat) (s s' : State) :
  floorsStand buildingId properties created s ->
  nextRef s <= nextRef s' ->
  (forall r, r < nextRef s -> heap s' !! r = heap s !! r) ->
  (forall k, collection s' !! floorEntityId buildingId k
             = collection s !! floorEntityId buildingId k) ->
  floorsStand buildingId properties created s'.
Proof.
  intros Hstand Hle Hheap Hcoll i r Hi.
  destruct (Hstand i r Hi) as (Hr & e & He & Hrest).
  split; [lia |]. exists e. rewrite Hheap, Hcoll by exact Hr.
  split; [exact He | exact Hrest].
Qed.

Lemma floorsStand_contains (buildingId : string)
  (properties : list PropertyRecord) (created : list nat) (s : State)
  (r : nat) :
  floorsStand buildingId properties created s ->
  r ∈ created -> contains s r = true.
Proof.
  intros Hstand Hin. apply list_elem_of_lookup in Hin. destruct Hin as [i Hi].
  destruct (Hstand i r Hi) as (_ & e & He & Hid & _ & _ & Hc).
  unfold contains. rewrite He. apply bool_decide_eq_true. rewrite Hid.
  exact Hc.
Qed.

Lemma addBuildingOutline_run (buildingId : string) (geometry : Geometry)
  (buildingHeight : num) (s : State) :
  exists s',
    addBuildingOutline buildingId geometry buildingHeight s = (Some tt, s')
    /\ nextRef s <= nextRef s'
    /\ (forall r, r < nextRef s -> heap s' !! r = heap s !! r)
    /\ (forall k, collection s' !! floorEntityId buildingId k
                  = collection s !! floorEntityId buildingId k)
    /\ floorEntities s' = floorEntities s
    /\ activeBuilding s' = activeBuilding s
    /\ buildingPositions s' = buildingPositions s.
Proof.
  unfold addBuildingOutline, tryCatch, mbind, G_bind, newEntity, entities_add.
  simpl. rewrite lookup_insert_eq. simpl.
  destruct (collection s !! inl ("building_outline_" +:+ buildingId));
    simpl; eexists; (split; [reflexivity |]); simpl;
    (split; [lia |]);
    (split; [intros r Hr; apply lookup_insert_ne; lia |]);
    (split; [| repeat split]).
  - reflexivity.
  - intros k. apply lookup_insert_ne. unfold floorEntityId.
    intros [= E].
Qed.

Lemma extractDetailedGeometry_isLShaped (f : Feature)
  (storedPosition : option PositionInfo) (geometry : Geometry) :
  extractDetailedGeometry (Some f) storedPosition = Some geometry ->
  extractBuildingId (Some f) <> Some "0599100000035588" ->
  g_isLShaped geometry = false.
Proof.
  unfold extractDetailedGeometry. intros Hg Hne.
  destruct (Some f ≫= (fun f0 => (fun c => (f0, c)) <$> _content f0))
    as [[f' c] |] eqn:Hfc.
  - assert (f' = f) as ->.
    { simpl in Hfc. destruct (_content f); simpl in Hfc; congruence. }
    repeat match type of Hg with
           | match ?x with _ => _ end = _ => destruct x; try discriminate
           end;
      injection Hg as <-; simpl; apply bool_decide_eq_false; exact Hne.
  - destruct storedPosition; simpl in Hg; [| discriminate].
    injection Hg as <-. reflexivity.
Qed.

End Generation.

(** X5. When the generator can name the building (its id is not the one
    of the L-shaped special case), a geometry resolves, the floor count is
    positive and the viewer holds no entity under a floor id of the
    building, [generateFloorModels] answers [true]; the building becomes
    the active one; its list holds exactly [totalFloors] entities; the
    [i]-th of them carries the id of floor [i] and the number of units on
    that floor, is shown, and is in the viewer; the lists of the other
    buildings and the position cache are as before. *)
Theorem generateFloorModels_builds_the_floor_stack `{CesiumMath}
  (f : Feature) (properties : list PropertyRecord)
  (s : FloorGenerator.State) (buildingId : string)
  (geometry : FloorGenerator.Geometry) (info : FloorGenerator.FloorInfo) :
  FloorGenerator.extractBuildingId (Some f) = Some buildingId ->
  buildingId <> "" ->
  buildingId <> "0599100000035588" ->
  FloorGenerator.extractDetailedGeometry (Some f)
    (FloorGenerator.getBuildingPosition s (Some buildingId)) = Some geometry ->
  FloorGenerator.getDetailedFloorInfo properties = Some info ->
  (0 < FloorGenerator.totalFloors info)%Z ->
  (forall k,
      FloorGenerator.collection s !! FloorGenerator.floorEntityId buildingId k
      = None) ->
  let result := (FloorGenerator.generateFloorModels (Some f) properties s).1 in
  let s' := (FloorGenerator.generateFloorModels (Some f) properties s).2 in
  result = Some true
  /\ FloorGenerator.activeBuilding s' = Some buildingId
  /\ FloorGenerator.buildingPositions s' = FloorGenerator.buildingPositions s
  /\ (forall other, other <> Some buildingId ->
      FloorGenerator.floorEntities s' !! other
      = FloorGenerator.floorEntities s !! other)
  /\ exists created,
      FloorGenerator.floorEntities s' !! Some buildingId = Some created
      /\ length created = Z.to_nat (FloorGenerator.totalFloors info)
      /\ FloorGenerator.floorsStand buildingId properties created s'
      /\ forall r, r ∈ created -> FloorGenerator.contains s' r = true.
Proof.
  intros Hid Hne Hspecial Hgeo Hinfo Hpos Hfree result s'.
  assert (HL : FloorGenerator.g_isLShaped geometry
               || String.eqb buildingId "0599100000035588" = false).
  { rewrite (extractDetailedGeometry_isLShaped f _ geometry Hgeo)
      by (rewrite Hid; congruence).
    simpl. apply String.eqb_neq, Hspecial. }
  pose proof (removeFloorModels_frame FloorGenerator.keepsPositions
                (Some buildingId) s) as Hp1.
  assert (Hfree1 : forall k,
             FloorGenerator.collection
               (FloorGenerator.removeFloorModels (Some buildingId) s).2
             !! FloorGenerator.floorEntityId buildingId k = None).
  { intros k. unfold FloorGenerator.removeFloorModels.
    destruct (FloorGenerator.floorEntities s !! Some buildingId)
      as [[| r rest] |]; simpl; try apply Hfree.
    destruct (FloorGenerator.collection
                (foldl FloorGenerator.removeIfContained
                   (FloorGenerator.removeIfContained s r) rest)
              !! FloorGenerator.floorEntityId buildingId k) as [x |] eqn:E;
      [| reflexivity].
    apply (foldl_removeIfContained_sub (r :: rest) s) in E.
    rewrite Hfree in E. discriminate. }
  assert (Hothers1 : forall other, other <> Some buildingId ->
             FloorGenerator.floorEntities
               (FloorGenerator.removeFloorModels (Some buildingId) s).2
             !! other = FloorGenerator.floorEntities s !! other).
  { intros other Ho. unfold FloorGenerator.removeFloorModels.
    destruct (FloorGenerator.floorEntities s !! Some buildingId)
      as [[| r rest] |]; simpl; try reflexivity.
    destruct (foldl_removeIfContained_besides rest
                (FloorGenerator.removeIfContained s r))
      as (_ & _ & -> & _).
    destruct (removeIfContained_besides s r) as (_ & _ & -> & _).
    apply lookup_delete_ne. congruence. }
  destruct (floor_loop buildingId geometry properties
              (FloorGenerator.totalFloors info)
              (Z.to_nat (FloorGenerator.totalFloors info)) []
              (FloorGenerator.removeFloorModels (Some buildingId) s).2)
    as (created & s2 & Hloop & Hlen & Hstand & Hf2 & Ha2 & Hp2).
  { intros i r Hi. rewrite lookup_nil in Hi. discriminate. }
  { intros k _. apply Hfree1. }
  simpl in Hloop, Hlen. rewrite Z2Nat.id in Hloop by lia.
  change (Z.of_nat 0) with 0%Z in Hloop.
  destruct (addBuildingOutline_run buildingId geometry
              (FloorGenerator.g_height geometry)
              (FloorGenerator.withActiveBuilding (Some buildingId)
                 (FloorGenerator.withFloorEntities
                    (<[Some buildingId := created]>
                       (FloorGenerator.floorEntities s2)) s2)))
    as (s5 & Hout & Hle5 & Hheap5 & Hcoll5 & Hf5 & Ha5 & Hp5).
  simpl in Hle5, Hheap5, Hcoll5, Hf5, Ha5, Hp5.
  assert (Hrun : FloorGenerator.generateFloorModels (Some f) properties s
                 = (Some true, s5)).
  { unfold FloorGenerator.generateFloorModels, FloorGenerator.tryCatch.
    rewrite Hid. destruct (String.eqb_spec buildingId ""); [contradiction |].
    cbv beta zeta. rewrite Hgeo, Hinfo.
    destruct (Z.leb_spec (FloorGenerator.totalFloors info) 0); [lia |].
    rewrite HL.
    unfold mbind, FloorGenerator.G_bind, FloorGenerator.modify. simpl.
    rewrite Hloop. simpl. rewrite Hout. reflexivity. }
  subst result s'. rewrite Hrun. simpl.
  assert (Hstand5 : FloorGenerator.floorsStand buildingId properties created
                      s5).
  { apply (floorsStand_transfer _ _ _ s2); assumption. }
  split; [reflexivity |]. split; [exact Ha5 |].
  split; [rewrite Hp5, Hp2; exact Hp1 |].
  split.
  - intros other Ho. rewrite Hf5, lookup_insert_ne by congruence.
    rewrite Hf2. apply Hothers1, Ho.
  - exists created. rewrite Hf5, lookup_insert_eq.
    split; [reflexivity |]. split; [exact Hlen |].
    split; [exact Hstand5 |].
    intros r Hr. apply (floorsStand_contains _ _ _ _ _ Hstand5 Hr).
Qed.

Lemma generateFloorModels_builds_the_floor_stack_witness :
  FloorGenerator.activeBuilding Scenarios.floorsOfX = Some Scenarios.X
  /\ exists created,
       FloorGenerator.floorEntities Scenarios.floorsOfX !! Some Scenarios.X
       = Some created
       /\ length created = 2%nat
       /\ FloorGenerator.floorsStand Scenarios.X Scenarios.recordsX created
            Scenarios.floorsOfX.
Proof.
  edestruct (generateFloorModels_builds_the_floor_stack (H := flatEngine)
               (Scenarios.building 1 Scenarios.X) Scenarios.recordsX
               FloorGenerator.initial Scenarios.X)
    as (_ & Hactive & _ & _ & created & Hcreated & Hlength & Hstand & _).
  - reflexivity.
  - discriminate.
  - discriminate.
  - vm_compute. reflexivity.
  - vm_compute. reflexivity.
  - simpl. lia.
  - intros k. apply lookup_empty.
  - split; [exact Hactive |]. exists created.
    split; [exact Hcreated |]. split; [exact Hlength | exact Hstand].
Defined.

(** ** Where the generated floors stand *)

Section Placement.
Context `{CesiumMath}.
Import FloorGenerator.
#[local] Existing Instances G_ret G_bind G_fmap.

Lemma contains_transfer (s s' : State) (r : nat) :
  r < nextRef s ->
  (forall x, x < nextRef s -> heap s' !! x = heap s !! x) ->
  (forall i x, collection s !! i = Some x -> collection s' !! i = Some x) ->
  contains s r = true -> contains s' r = true.
Proof.
  intros Hr Hheap Hcoll. unfold contains. rewrite (Hheap r Hr).
  destruct (heap s !! r) as [e |]; [| discriminate].
  intros Hc. apply bool_decide_eq_true in Hc.
  apply bool_decide_eq_true, Hcoll, Hc.
Qed.

Lemma isPart_transfer (s s' : State) (r : nat) (h : num) (c : nat) :
  (forall x, x < nextRef s -> heap s' !! x = heap s !! x) ->
  nextRef s <= nextRef s' ->
  (forall i x, collection s !! i = Some x -> collection s' !! i = Some x) ->
  isPart s r h c -> isPart s' r h c.
Proof.
  intros Hheap Hle Hcoll (e & x & y & Hc & He & Hin & Hrest).
  exists e, x, y. split; [lia |]. split; [rewrite Hheap; assumption |].
  split; [apply (contains_transfer s); assumption | exact Hrest].
Qed.

Lemma floorPlaced_transfer (buildingId : string) (geometry : Geometry)
  (totalFloors floorNum : Z) (r : nat) (s s' : State) :
  (forall x, x < nextRef s -> heap s' !! x = heap s !! x) ->
  nextRef s <= nextRef s' ->
  (forall i x, collection s !! i = Some x -> collection s' !! i = Some x) ->
  floorPlaced buildingId geometry totalFloors floorNum r s ->
  floorPlaced buildingId geometry totalFloors floorNum r s'.
Proof.
  intros Hheap Hle Hcoll (e & Hr & He & Hin & Hid & Hpos & Hfh & Hdrawn).
  exists e. split; [lia |]. split; [rewrite Hheap; assumption |].
  split; [apply (contains_transfer s); assumption |].
  split; [exact Hid |]. split; [exact Hpos |]. split; [exact Hfh |].
  destruct (String.eqb buildingId "0599100000035588"); [| exact Hdrawn].
  destruct Hdrawn as (Hbox & main & extension & Hne & Hmain & Hext).
  split; [exact Hbox |]. exists main, extension. split; [exact Hne |].
  split; apply (isPart_transfer s); assumption.
Qed.

(** A turn of the loop, when the viewer holds no entity under the floor's
    id nor under an id it has yet to generate. *)
Lemma generateFloor_run (buildingId : string) (geometry : Geometry)
  (properties : list PropertyRecord) (totalFloors : Z) (created : list nat)
  (floorNum : Z) (s : State) :
  collection s !! floorEntityId buildingId floorNum = None ->
  (forall r, nextRef s <= r -> collection s !! inr r = None) ->
  exists s1,
    generateFloor buildingId geometry properties totalFloors
      (String.eqb buildingId "0599100000035588") created floorNum s
    = (Some (created ++ [nextRef s]), s1)
    /\ nextRef s < nextRef s1
    /\ (forall x, x < nextRef s -> heap s1 !! x = heap s !! x)
    /\ (forall i x, collection s !! i = Some x -> collection s1 !! i = Some x)
    /\ (forall k, k <> floorNum ->
          collection s1 !! floorEntityId buildingId k
          = collection s !! floorEntityId buildingId k)
    /\ (forall r, nextRef s1 <= r -> collection s1 !! inr r = None)
    /\ floorEntities s1 = floorEntities s
    /\ activeBuilding s1 = activeBuilding s
    /\ buildingPositions s1 = buildingPositions s
    /\ floorPlaced buildingId geometry totalFloors floorNum (nextRef s) s1.
Proof.
  intros Hfree Hfresh.
  destruct (String.eqb buildingId "0599100000035588") eqn:EL.
  - pose proof (Hfresh (S (nextRef s)) ltac:(lia)) as Hmain.
    pose proof (Hfresh (S (S (nextRef s))) ltac:(lia)) as Hext.
    eexists. split.
    { unfold generateFloor, createComplexShapeFloorEntity, tryCatch,
        newEntity, entities_add, mbind, G_bind, mret, G_ret.
      rewrite EL. simpl.
      rewrite (lookup_insert_ne _ (S (S (nextRef s))) (S (nextRef s)))
        by lia.
      rewrite !lookup_insert_eq. simpl. rewrite Hmain. simpl.
      rewrite !lookup_insert_eq. simpl.
      rewrite lookup_insert_ne by (intros [= E]; lia). rewrite Hext. simpl.
      rewrite !lookup_insert_ne by lia. rewrite lookup_insert_eq. simpl.
      rewrite !lookup_insert_ne by discriminate. rewrite Hfree.
      reflexivity. }
    simpl. split; [lia |].
    split; [intros x Hx; rewrite !lookup_insert_ne by lia; reflexivity |].
    split.
    { intros i x Hi.
      rewrite !lookup_insert_ne; [exact Hi | | |]; intros <-; congruence. }
    split.
    { intros k Hk. rewrite lookup_insert_ne
        by (intros E; apply floorEntityId_inj in E; congruence).
      rewrite !lookup_insert_ne by discriminate. reflexivity. }
    split.
    { intros r Hr. rewrite !lookup_insert_ne;
        [apply Hfresh; lia | | |]; try discriminate; intros [= E]; lia. }
    split; [reflexivity |]. split; [reflexivity |]. split; [reflexivity |].
    unfold floorPlaced. rewrite EL. eexists. simpl.
    split; [lia |]. split.
    { rewrite !lookup_insert_ne by lia. apply lookup_insert_eq. }
    split.
    { unfold contains. simpl. rewrite !lookup_insert_ne by lia.
      rewrite lookup_insert_eq. simpl. apply bool_decide_eq_true.
      apply lookup_insert_eq. }
    split; [reflexivity |]. split; [reflexivity |]. split; [reflexivity |].
    split; [reflexivity |].
    exists (S (nextRef s)), (S (S (nextRef s))). split; [lia |].
    split.
    + eexists _, _, _. simpl. split; [lia |]. split.
      { rewrite lookup_insert_ne by lia. apply lookup_insert_eq. }
      split.
      { unfold contains. simpl. rewrite lookup_insert_ne by lia.
        rewrite lookup_insert_eq. simpl. apply bool_decide_eq_true.
        rewrite lookup_insert_ne by discriminate.
        rewrite lookup_insert_ne by (intros [= E]; lia).
        apply lookup_insert_eq. }
      split; [reflexivity |]. split; reflexivity.
    + eexists _, _, _. simpl. split; [lia |]. split.
      { apply lookup_insert_eq. }
      split.
      { unfold contains. simpl. rewrite lookup_insert_eq. simpl.
        apply bool_decide_eq_true.
        rewrite lookup_insert_ne by discriminate.
        apply lookup_insert_eq. }
      split; [reflexivity |]. split; reflexivity.
  - eexists. split.
    { unfold generateFloor, createFloorEntityFromGeometry, newEntity.
      unfold mbind, G_bind, fmap, G_fmap, entities_add. simpl.
      rewrite lookup_insert_eq. simpl. rewrite Hfree. reflexivity. }
    simpl. split; [lia |].
    split; [intros x Hx; rewrite lookup_insert_ne by lia; reflexivity |].
    split.
    { intros i x Hi. rewrite lookup_insert_ne; [exact Hi |].
      intros <-. congruence. }
    split.
    { intros k Hk. rewrite lookup_insert_ne
        by (intros E; apply floorEntityId_inj in E; congruence).
      reflexivity. }
    split.
    { intros r Hr. rewrite lookup_insert_ne by discriminate.
      apply Hfresh. lia. }
    split; [reflexivity |]. split; [reflexivity |]. split; [reflexivity |].
    unfold floorPlaced. rewrite EL. eexists. simpl.
    split; [lia |]. split; [apply lookup_insert_eq |].
    split.
    { unfold contains. simpl. rewrite lookup_insert_eq. simpl.
      apply bool_decide_eq_true, lookup_insert_eq. }
    repeat split.
Qed.


Lemma placement_loop (buildingId : string) (geometry : Geometry)
  (properties : list PropertyRecord) (totalFloors : Z) (j : nat) :
  forall (created : list nat) (s : State),
    (forall i r, created !! i = Some r ->
       floorPlaced buildingId geometry totalFloors (Z.of_nat i) r s) ->
    (forall k, (Z.of_nat (length created) <= k)%Z ->
       collection s !! floorEntityId buildingId k = None) ->
    (forall r, nextRef s <= r -> collection s !! inr r = None) ->
    exists created' s',
      forEachM
        (generateFloor buildingId geometry properties totalFloors
           (String.eqb buildingId "0599100000035588"))
        (seqZ (Z.of_nat (length created)) (Z.of_nat j)) created s
      = (Some created', s')
      /\ length created' = length created + j
      /\ (forall i r, created' !! i = Some r ->
            floorPlaced buildingId geometry totalFloors (Z.of_nat i) r s')
      /\ floorEntities s' = floorEntities s
      /\ activeBuilding s' = activeBuilding s
      /\ buildingPositions s' = buildingPositions s.
Proof.
  induction j as [| j IH]; intros created s Hplaced Hfree Hfresh.
  - exists created, s. simpl.
    split; [reflexivity | split; [lia | split; [exact Hplaced |]]].
    repeat split.
  - rewrite seqZ_cons by lia.
    replace (Z.succ (Z.of_nat (length created)))
      with (Z.of_nat (length (created ++ [nextRef s])))
      by (rewrite length_app; simpl; lia).
    replace (Z.pred (Z.of_nat (S j))) with (Z.of_nat j) by lia.
    destruct (generateFloor_run buildingId geometry properties totalFloors
                created (Z.of_nat (length created)) s)
      as (s1 & Hrun & Hlt & Hheap & Hcoll & Hother & Hfresh1 & Hf1 & Ha1
          & Hp1 & Hnew);
      [apply Hfree; lia | exact Hfresh |].
    simpl. unfold mbind at 1, G_bind at 1. rewrite Hrun.
    destruct (IH (created ++ [nextRef s]) s1)
      as (created' & s' & Hloop & Hlen & Hplaced' & Hf & Ha & Hp).
    + intros i r Hi.
      destruct (decide (i < length created)) as [Hi' | Hi'].
      * rewrite lookup_app_l in Hi by exact Hi'.
        apply (floorPlaced_transfer _ _ _ _ _ s);
          [exact Hheap | lia | exact Hcoll | apply Hplaced, Hi].
      * assert (i = length created) as ->.
        { apply lookup_lt_Some in Hi. rewrite length_app in Hi.
          simpl in Hi. lia. }
        rewrite lookup_app_r, Nat.sub_diag in Hi by lia.
        injection Hi as <-. exact Hnew.
    + intros k Hk. rewrite length_app in Hk. simpl in Hk.
      rewrite Hother by lia. apply Hfree. lia.
    + exact Hfresh1.
    + exists created', s'. rewrite Hloop. rewrite length_app in Hlen.
      simpl in Hlen.
      split; [reflexivity | split; [lia | split; [exact Hplaced' |]]].
      split; [congruence |]. split; congruence.
Qed.

Lemma addBuildingOutline_keeps (buildingId : string) (geometry : Geometry)
  (buildingHeight : num) (s : State) :
  exists s',
    addBuildingOutline buildingId geometry buildingHeight s = (Some tt, s')
    /\ nextRef s <= nextRef s'
    /\ (forall x, x < nextRef s -> heap s' !! x = heap s !! x)
    /\ (forall i x, collection s !! i = Some x -> collection s' !! i = Some x)
    /\ floorEntities s' = floorEntities s.
Proof.
  unfold addBuildingOutline, tryCatch, mbind, G_bind, newEntity, entities_add.
  simpl. rewrite lookup_insert_eq. simpl.
  destruct (collection s !! inl ("building_outline_" +:+ buildingId))
    eqn:E; simpl; eexists; (split; [reflexivity |]); simpl;
    (split; [lia |]);
    (split; [intros x Hx; apply lookup_insert_ne; lia |]);
    (split; [| reflexivity]).
  - intros i x Hi. exact Hi.
  - intros i x Hi. rewrite lookup_insert_ne; [exact Hi |].
    intros <-. congruence.
Qed.

(** [removeFloorModels] clears the floor ids of the building when every
    entity the viewer holds under one of them is tracked for it. *)
Lemma removeFloorModels_clears (buildingId : string) (s : State) :
  (forall k r,
      collection s !! floorEntityId buildingId k = Some r ->
      exists entities e,
        floorEntities s !! Some buildingId = Some entities
        /\ r ∈ entities
        /\ heap s !! r = Some e
        /\ e_id e = floorEntityId buildingId k) ->
  forall k,
    collection (removeFloorModels (Some buildingId) s).2
    !! floorEntityId buildingId k = None.
Proof.
  intros Htracked k.
  destruct (collection (removeFloorModels (Some buildingId) s).2
            !! floorEntityId buildingId k) as [r |] eqn:E; [| reflexivity].
  exfalso.
  assert (Hbefore : collection s !! floorEntityId buildingId k = Some r).
  { revert E. unfold removeFloorModels.
    destruct (floorEntities s !! Some buildingId) as [[| a rest] |];
      simpl; try (intros E; exact E).
    intros E.
    apply (foldl_removeIfContained_sub (a :: rest) s) in E. exact E. }
  destruct (Htracked k r Hbefore) as (entities & e & Hl & Hin & He & Hid).
  revert E. unfold removeFloorModels. rewrite Hl.
  destruct entities as [| a rest]; [inversion Hin |]. simpl.
  intros E.
  pose proof (foldl_removeIfContained_gone (a :: rest) s r Hin) as Hgone.
  simpl in Hgone. unfold contains in Hgone.
  destruct (foldl_removeIfContained_besides rest (removeIfContained s a))
    as (Hheap & _).
  destruct (removeIfContained_besides s a) as (Hheap' & _).
  rewrite Hheap, Hheap', He, Hid, E in Hgone.
  apply bool_decide_eq_false in Hgone. apply Hgone. reflexivity.
Qed.

Lemma removeFloorModels_fresh (buildingId : option string) (s : State) :
  nextRef (removeFloorModels buildingId s).2 = nextRef s
  /\ forall i x,
       collection (removeFloorModels buildingId s).2 !! i = Some x ->
       collection s !! i = Some x.
Proof.
  unfold removeFloorModels.
  destruct (floorEntities s !! buildingId) as [[| a rest] |]; simpl;
    try (split; [reflexivity | intros i x Hi; exact Hi]).
  destruct (foldl_removeIfContained_besides rest (removeIfContained s a))
    as (_ & Hn & _).
  destruct (removeIfContained_besides s a) as (_ & Hn' & _).
  split; [congruence |].
  intros i x Hi. apply (foldl_removeIfContained_sub (a :: rest) s), Hi.
Qed.

End Placement.



(** ** Visibility *)

(** X6. [setFloorsVisible] answers [true] exactly when the building has a
    non-empty list of floor entities, and otherwise changes nothing.
    Afterwards every entity of the list that is in the viewer carries the
    requested [show] flag. *)
Theorem setFloorsVisible_sets_every_floor `{CesiumMath}
  (buildingId : option string) (visible : bool) (s : FloorGenerator.State) :
  let answer := (FloorGenerator.setFloorsVisible buildingId visible s).1 in
  let s' := (FloorGenerator.setFloorsVisible buildingId visible s).2 in
  let entities := default [] (FloorGenerator.floorEntities s !! buildingId) in
  (answer = true <-> entities <> [])
  /\ (answer = false -> s' = s)
  /\ (forall r e,
        r ∈ entities ->
        FloorGenerator.contains s r = true ->
        FloorGenerator.heap s' !! r = Some e ->
        FloorGenerator.e_show e = visible).
Proof.
  intros answer s' entities. subst answer s' entities.
  unfold FloorGenerator.setFloorsVisible.
  destruct (FloorGenerator.floorEntities s !! buildingId) as [[| a rest] |];
    simpl.
  1, 3: repeat split; intros; try discriminate; try congruence;
    match goal with Hin : _ ∈ [] |- _ => inversion Hin end.
  repeat split; intros; try discriminate.
  match goal with
  | Hin : ?r ∈ a :: rest, Hc : FloorGenerator.contains s ?r = true,
    He : _ !! ?r = Some ?e |- _ =>
      pose proof (foldl_showEntity_shownAt visible (a :: rest) s r Hin)
        as Hshown;
      pose proof (foldl_showEntity_sameButShow visible (a :: rest) s)
        as Hsame;
      apply (Hshown r e); [| exact He];
      unfold FloorGenerator.showTargets;
      rewrite (sameButShow_contains _ _ r Hsame), Hc; simpl in He |- *;
      rewrite He; apply list_elem_of_here
  end.
Qed.

(** What [toggleFloorModels] does with the floors tracked under the
    selector's current id when they are switched off, and what it
    leaves alone. *)
Lemma toggle_off_hides_the_tracked `{CesiumMath}
  (env : BuildingSelector.SceneQueries) (w : BuildingSelector.World)
  (buildingId : string) :
  BuildingSelector.currentBuildingId w = Some buildingId ->
  buildingId <> "" ->
  let w' := BuildingSelector.toggleFloorModels env false w in
  BuildingSelector.showsFloorsOf w' (Some buildingId) = false
  /\ BuildingSelector.showFloorsForSelectedBuilding w' = false
  /\ FloorGenerator.floorEntities (BuildingSelector.floorGenerator w')
     = FloorGenerator.floorEntities (BuildingSelector.floorGenerator w)
  /\ FloorGenerator.collection (BuildingSelector.floorGenerator w')
     = FloorGenerator.collection (BuildingSelector.floorGenerator w)
  /\ BuildingSelector.pending w' = BuildingSelector.pending w
  /\ BuildingSelector.currentBuildingId w' = Some buildingId
  /\ BuildingSelector.selectedFeature w' = BuildingSelector.selectedFeature w
  /\ BuildingSelector.floorGenerationError w' = None
  /\ (InfoPanel.toggleButton (BuildingSelector.infoPanel w) <> None ->
      InfoPanel.toggleButton (BuildingSelector.infoPanel w') = Some false).
Proof.
  intros Hcur Hne w'. subst w'. unfold BuildingSelector.toggleFloorModels.
  simpl. rewrite Hcur.
  destruct (String.eqb_spec buildingId ""); [contradiction |].
  set (s := BuildingSelector.floorGenerator w).
  assert (Hsame : FloorGenerator.sameButShow s
            (FloorGenerator.setFloorsVisible (Some buildingId) false s).2).
  { unfold FloorGenerator.setFloorsVisible.
    destruct (FloorGenerator.floorEntities s !! Some buildingId)
      as [[| a rest] |]; try apply sameButShow_refl.
    apply (foldl_showEntity_sameButShow false (a :: rest)). }
  assert (Hbesides := proj1 Hsame). unfold FloorGenerator.besidesHeap in Hbesides.
  assert (Hfloors :
            FloorGenerator.floorEntities
              (FloorGenerator.setFloorsVisible (Some buildingId) false s).2
            = FloorGenerator.floorEntities s) by congruence.
  assert (Hcoll :
            FloorGenerator.collection
              (FloorGenerator.setFloorsVisible (Some buildingId) false s).2
            = FloorGenerator.collection s) by congruence.
  assert (Hpaint : forall c w0,
             BuildingSelector.floorGenerator
               (BuildingSelector.paint
                  (BuildingSelector.selectedFeature w0) c w0)
             = BuildingSelector.floorGenerator w0
             /\ BuildingSelector.showFloorsForSelectedBuilding
                  (BuildingSelector.paint
                     (BuildingSelector.selectedFeature w0) c w0)
                = BuildingSelector.showFloorsForSelectedBuilding w0
             /\ BuildingSelector.pending
                  (BuildingSelector.paint
                     (BuildingSelector.selectedFeature w0) c w0)
                = BuildingSelector.pending w0
             /\ BuildingSelector.currentBuildingId
                  (BuildingSelector.paint
                     (BuildingSelector.selectedFeature w0) c w0)
                = BuildingSelector.currentBuildingId w0
             /\ BuildingSelector.selectedFeature
                  (BuildingSelector.paint
                     (BuildingSelector.selectedFeature w0) c w0)
                = BuildingSelector.selectedFeature w0
             /\ BuildingSelector.floorGenerationError
                  (BuildingSelector.paint
                     (BuildingSelector.selectedFeature w0) c w0)
                = BuildingSelector.floorGenerationError w0
             /\ BuildingSelector.infoPanel
                  (BuildingSelector.paint
                     (BuildingSelector.selectedFeature w0) c w0)
                = BuildingSelector.infoPanel w0).
  { intros c w0. unfold BuildingSelector.paint.
    destruct (BuildingSelector.selectedFeature w0) eqn:E; simpl;
      repeat split; exact E. }
  unfold BuildingSelector.showsFloorsOf. simpl.
  match goal with
  | |- context [BuildingSelector.paint ?f ?c ?w0] =>
      destruct (Hpaint c w0) as (Hg & Hs & Hp & Hc & Hsel & Herr & Hpanel)
  end.
  simpl in Hg, Hs, Hp, Hc, Hsel, Herr, Hpanel.
  rewrite Hg, Hs, Hp, Hc, Hsel, Herr, Hpanel. fold s.
  rewrite Hfloors, Hcoll.
  split; [| repeat split; try assumption].
  - destruct (FloorGenerator.floorEntities s !! Some buildingId)
      as [entities |] eqn:Hl; [| reflexivity].
    apply not_true_is_false. intros Hex. apply existsb_exists in Hex.
    destruct Hex as (r & Hin & Hr). apply andb_prop in Hr.
    destruct Hr as [Hc' Hshow]. apply list_elem_of_In in Hin.
    destruct (FloorGenerator.heap
                (FloorGenerator.setFloorsVisible (Some buildingId) false s).2
              !! r) as [e |] eqn:He; [| discriminate].
    enough (FloorGenerator.e_show e = false) by congruence.
    revert Hc' He. unfold FloorGenerator.setFloorsVisible. rewrite Hl.
    destruct entities as [| a rest]; [inversion Hin |]. simpl.
    intros Hc' He.
    apply (foldl_showEntity_shownAt false (a :: rest) s r Hin r e);
      [| exact He].
    unfold FloorGenerator.showTargets. simpl. rewrite He, Hc'.
    apply list_elem_of_here.
  - intros Hb. unfold InfoPanel.updateFloorToggleButton.
    destruct (InfoPanel.toggleButton (BuildingSelector.infoPanel w));
      [reflexivity | contradiction].
Qed.

Lemma toggle_off_generator `{CesiumMath}
  (env : BuildingSelector.SceneQueries) (w : BuildingSelector.World)
  (buildingId : string) :
  BuildingSelector.currentBuildingId w = Some buildingId ->
  buildingId <> "" ->
  BuildingSelector.floorGenerator
    (BuildingSelector.toggleFloorModels env false w)
  = (FloorGenerator.setFloorsVisible (Some buildingId) false
       (BuildingSelector.floorGenerator w)).2.
Proof.
  intros Hcur Hne. unfold BuildingSelector.toggleFloorModels. simpl.
  rewrite Hcur. destruct (String.eqb_spec buildingId ""); [contradiction |].
  unfold BuildingSelector.paint. simpl.
  destruct (BuildingSelector.selectedFeature w); reflexivity.
Qed.

(** X7. Switching the floors off addresses the floors by the selector's
    current building id and destroys nothing: no floor entity tracked
    under that id is shown any more, while the map of floor entities and
    the viewer's collection are as before; no request is launched, the
    selection is kept, the error box is closed and the toggle, when it
    exists, reads inactive. When that id is the only key of the map, no
    floor at all is shown afterwards. When the map has no entry under
    that id, as when the generator read another id off the feature than
    the selector did, the generator is left exactly as it was, with the
    floors it shows. *)
Theorem switching_floors_off_hides_and_keeps_them `{CesiumMath}
  (env : BuildingSelector.SceneQueries) (w : BuildingSelector.World)
  (buildingId : string) :
  BuildingSelector.currentBuildingId w = Some buildingId ->
  buildingId <> "" ->
  let w' := BuildingSelector.toggleFloorModels env false w in
  BuildingSelector.showsFloorsOf w' (Some buildingId) = false
  /\ ((forall key,
         is_Some (FloorGenerator.floorEntities
                    (BuildingSelector.floorGenerator w) !! key) ->
         key = Some buildingId) ->
      forall key, BuildingSelector.showsFloorsOf w' key = false)
  /\ (FloorGenerator.floorEntities (BuildingSelector.floorGenerator w)
        !! Some buildingId = None ->
      BuildingSelector.floorGenerator w' = BuildingSelector.floorGenerator w
      /\ forall key,
           BuildingSelector.showsFloorsOf w' key
           = BuildingSelector.showsFloorsOf w key)
  /\ BuildingSelector.showFloorsForSelectedBuilding w' = false
  /\ FloorGenerator.floorEntities (BuildingSelector.floorGenerator w')
     = FloorGenerator.floorEntities (BuildingSelector.floorGenerator w)
  /\ FloorGenerator.collection (BuildingSelector.floorGenerator w')
     = FloorGenerator.collection (BuildingSelector.floorGenerator w)
  /\ BuildingSelector.pending w' = BuildingSelector.pending w
  /\ BuildingSelector.currentBuildingId w' = Some buildingId
  /\ BuildingSelector.selectedFeature w' = BuildingSelector.selectedFeature w
  /\ BuildingSelector.floorGenerationError w' = None
  /\ (InfoPanel.toggleButton (BuildingSelector.infoPanel w) <> None ->
      InfoPanel.toggleButton (BuildingSelector.infoPanel w') = Some false).
Proof.
  intros Hcur Hne w'.
  destruct (toggle_off_hides_the_tracked env w buildingId Hcur Hne)
    as (Hhidden & Hmode & Hfloors & Hrest).
  fold w' in Hhidden, Hmode, Hfloors, Hrest.
  pose proof (toggle_off_generator env w buildingId Hcur Hne) as Hgen.
  fold w' in Hgen.
  split; [exact Hhidden |]. split; [| split; [| split; [exact Hmode |]]].
  - intros Honly key.
    destruct (decide (key = Some buildingId)) as [-> | Hkey];
      [exact Hhidden |].
    unfold BuildingSelector.showsFloorsOf. rewrite Hfloors.
    destruct (FloorGenerator.floorEntities
                (BuildingSelector.floorGenerator w) !! key)
      as [entities |] eqn:E; [| reflexivity].
    destruct Hkey. apply Honly. rewrite E. eexists. reflexivity.
  - intros Hnone.
    assert (Hsame : BuildingSelector.floorGenerator w'
                    = BuildingSelector.floorGenerator w).
    { rewrite Hgen. unfold FloorGenerator.setFloorsVisible.
      rewrite Hnone. reflexivity. }
    split; [exact Hsame |]. intros key.
    unfold BuildingSelector.showsFloorsOf. rewrite Hsame. reflexivity.
  - split; [exact Hfloors | exact Hrest].
Qed.

Lemma switching_floors_off_hides_and_keeps_them_witness :
  BuildingSelector.showsFloorsOf Scenarios.floorsOnX (Some Scenarios.X) = true
  /\ BuildingSelector.showsFloorsOf
       (BuildingSelector.toggleFloorModels Scenarios.quiet false
          Scenarios.floorsOnX) (Some Scenarios.X)
     = false
  /\ BuildingSelector.currentBuildingId Scenarios.floorsOnTwiceNamed
     = Some Scenarios.X
  /\ BuildingSelector.showsFloorsOf
       (BuildingSelector.toggleFloorModels Scenarios.quiet false
          Scenarios.floorsOnTwiceNamed) (Some Scenarios.prefixedX)
     = true.
Proof.
  assert (Hcur : BuildingSelector.currentBuildingId Scenarios.floorsOnX
                 = Some Scenarios.X) by (vm_compute; reflexivity).
  assert (Hcur' : BuildingSelector.currentBuildingId
                    Scenarios.floorsOnTwiceNamed
                  = Some Scenarios.X) by (vm_compute; reflexivity).
  assert (Hne : Scenarios.X <> "") by discriminate.
  assert (Hnone : FloorGenerator.floorEntities
                    (BuildingSelector.floorGenerator
                       Scenarios.floorsOnTwiceNamed)
                  !! Some Scenarios.X = None) by (vm_compute; reflexivity).
  destruct (switching_floors_off_hides_and_keeps_them (H := flatEngine)
              Scenarios.quiet Scenarios.floorsOnX Scenarios.X Hcur Hne)
    as (Hhidden & _).
  destruct (switching_floors_off_hides_and_keeps_them (H := flatEngine)
              Scenarios.quiet Scenarios.floorsOnTwiceNamed Scenarios.X
              Hcur' Hne) as (_ & _ & Hother & _).
  split; [vm_compute; reflexivity |]. split; [exact Hhidden |].
  split; [exact Hcur' |].
  rewrite (proj2 (Hother Hnone) (Some Scenarios.prefixedX)).
  vm_compute. reflexivity.
Defined.

(** ** Identifiers in the selector *)

Lemma scanNames_exact `{CesiumMath} (f : Feature) (names : list string)
  (id : string) :
  FeatureIdentifier.scanNames f names = Some id -> exact16 id = true.
Proof.
  induction names as [| name rest IH]; simpl; [discriminate |].
  destruct (getProperty f name) as [| | b | n | s]; try exact IH.
  destruct (exact16 s) eqn:E; [intros [= <-]; exact E |].
  destruct (search16 s) as [m |] eqn:Hm; [| exact IH].
  intros [= <-]. exact (search16_exact _ _ Hm).
Qed.

Lemma getFeatureBuildingId_exact `{CesiumMath} (f : Feature) (id : string) :
  FeatureIdentifier.getFeatureBuildingId f = Some id -> exact16 id = true.
Proof.
  unfold FeatureIdentifier.getFeatureBuildingId.
  rewrite checkNames_firstSuccess, checkGmlId_strategy,
    extractBuildingIdFromFeature_strategy.
  fold (FeatureIdentifier.canonicalNameStrategy f).
  destruct (FeatureIdentifier.canonicalNameStrategy f) as [a |] eqn:Ha.
  { intros [= <-]. exact (canonicalNameStrategy_exact _ _ Ha). }
  destruct (FeatureIdentifier.gmlIdStrategy f) as [b |] eqn:Hb.
  { intros [= <-]. exact (gmlIdStrategy_exact _ _ Hb). }
  destruct (FeatureIdentifier.batchTableStrategy f) as [c |] eqn:Hc;
    [| discriminate].
  destruct (negb (String.eqb c "")); [| discriminate].
  intros [= <-]. exact (batchTableStrategy_exact _ _ Hc).
Qed.

Section SelectorIds.
Context `{CesiumMath}.
Import BuildingSelector.

Lemma idsWellFormed_same (w w' : World) :
  currentBuildingId w' = currentBuildingId w ->
  pending w' = pending w ->
  PropertyDataService.cache (dataService w')
  = PropertyDataService.cache (dataService w) ->
  buildingsWithInfo w' = buildingsWithInfo w ->
  idsWellFormed w -> idsWellFormed w'.
Proof.
  unfold idsWellFormed. intros -> -> -> ->. auto.
Qed.

Lemma idsWellFormed_besides_generator (g : FloorGenerator.State)
  (w w' : World) :
  withFloorGenerator g w' = w -> idsWellFormed w -> idsWellFormed w'.
Proof.
  intros <-. apply idsWellFormed_same; reflexivity.
Qed.

Lemma idsWellFormed_paint (feature : option Feature) (c : Color) (w : World) :
  idsWellFormed w -> idsWellFormed (paint feature c w).
Proof.
  unfold paint. destruct feature; [| auto].
  apply idsWellFormed_same; reflexivity.
Qed.

Lemma idsWellFormed_pending (waiting : Pending) (w : World) :
  (forall id, requestedId waiting = Some id -> exact16 id = true) ->
  idsWellFormed w -> idsWellFormed (withPending (pending w ++ [waiting]) w).
Proof.
  intros Hw (Hc & Hp & Hcache & Hi). repeat split; try assumption.
  intros k p id Hk Hid. simpl in Hk.
  apply lookup_app_Some in Hk. destruct Hk as [Hk | [_ Hk]].
  - exact (Hp k p id Hk Hid).
  - apply list_lookup_singleton_Some in Hk. destruct Hk as [_ <-].
    exact (Hw id Hid).
Qed.

Lemma idsWellFormed_settle (k : nat) (w : World) :
  idsWellFormed w -> idsWellFormed (settle k w).
Proof.
  intros (Hc & Hp & Hcache & Hi). repeat split; try assumption.
  intros i p id Hi' Hid. unfold settle in Hi'. simpl in Hi'.
  apply list_lookup_insert_Some in Hi'.
  destruct Hi' as [(_ & <- & _) | (_ & Hi')]; [discriminate |].
  exact (Hp i p id Hi' Hid).
Qed.

Lemma idsWellFormed_error (message : option string) (w : World) :
  idsWellFormed w -> idsWellFormed (withFloorGenerationError message w).
Proof. apply idsWellFormed_same; reflexivity. Qed.

Lemma idsWellFormed_panel (p : InfoPanel.Panel) (w : World) :
  idsWellFormed w -> idsWellFormed (withInfoPanel p w).
Proof. apply idsWellFormed_same; reflexivity. Qed.

Lemma idsWellFormed_inGenerator {A} (m : FloorGenerator.G A) (w : World) :
  idsWellFormed w -> idsWellFormed (inGenerator m w).2.
Proof.
  apply (idsWellFormed_besides_generator (floorGenerator w)),
    inGenerator_besides.
Qed.

Lemma idsWellFormed_generateFloors (env : SceneQueries)
  (properties : list PropertyRecord) (w : World) :
  idsWellFormed w -> idsWellFormed (generateFloors env properties w).2.
Proof.
  apply (idsWellFormed_besides_generator (floorGenerator w)),
    generateFloors_besides.
Qed.

Lemma idsWellFormed_mark (w : World) :
  idsWellFormed w ->
  idsWellFormed
    match currentBuildingId w with
    | Some id => markBuildingHasInfo id w
    | None => w
    end.
Proof.
  intros Hw. destruct (currentBuildingId w) as [id |] eqn:Hcur; [| exact Hw].
  unfold markBuildingHasInfo. destruct (String.eqb id ""); [exact Hw |].
  destruct Hw as (Hc & Hp & Hcache & Hi). repeat split; try assumption.
  intros x Hx. simpl in Hx. apply elem_of_union in Hx.
  destruct Hx as [Hx | Hx]; [exact (Hi x Hx) |].
  apply elem_of_singleton in Hx. subst x. exact (Hc id Hcur).
Qed.

Lemma idsWellFormed_pickSettled (env : SceneQueries)
  (settled : PropertyDataService.Settled (list PropertyRecord)) (w : World) :
  idsWellFormed w -> idsWellFormed (pickSettled env settled w).
Proof.
  intros Hw. destruct settled as [[| p ps] | reason]; simpl;
    try (apply idsWellFormed_panel, Hw).
  apply idsWellFormed_panel.
  match goal with
  | |- idsWellFormed (if ?b then _ else ?w2) => destruct b
  end;
    [apply idsWellFormed_generateFloors |];
    apply idsWellFormed_panel, idsWellFormed_mark, Hw.
Qed.

Lemma idsWellFormed_toggleSettled (earthPosition : option Cartesian3)
  (buildingScreenPosition : option (Q * Q))
  (settled : PropertyDataService.Settled (list PropertyRecord)) (w : World) :
  idsWellFormed w ->
  idsWellFormed
    (toggleSettled earthPosition buildingScreenPosition settled w).
Proof.
  intros Hw. destruct settled as [[| p ps] | reason]; simpl;
    try (apply idsWellFormed_error, Hw).
  apply idsWellFormed_pending; [discriminate |].
  destruct earthPosition; [| apply idsWellFormed_paint, Hw].
  refine (idsWellFormed_same
            (paint (selectedFeature w) (YELLOW (9 # 10)) w) _ _ _ _ _
            (idsWellFormed_paint _ _ _ Hw)); reflexivity.
Qed.

Lemma idsWellFormed_generateFallbackFloors (properties : list PropertyRecord)
  (position : Cartesian3) (w : World) :
  idsWellFormed w -> idsWellFormed (generateFallbackFloors properties position w).
Proof.
  intros Hw. unfold generateFallbackFloors.
  pose proof (idsWellFormed_inGenerator
                (fallbackFloors (currentBuildingId w) properties position)
                w Hw) as Hg.
  destruct (inGenerator
              (fallbackFloors (currentBuildingId w) properties position) w)
    as [[u |] w']; simpl in Hg; [exact Hg |].
  apply idsWellFormed_error, Hg.
Qed.

Lemma idsWellFormed_timers (properties : list PropertyRecord)
  (position : Cartesian3) (w : World) :
  idsWellFormed w ->
  idsWellFormed (toggleTimer properties w)
  /\ idsWellFormed (retryTimer properties position w).
Proof.
  intros Hw. unfold toggleTimer, retryTimer.
  pose proof (idsWellFormed_inGenerator
                (FloorGenerator.generateFloorModels (selectedFeature w)
                   properties) w Hw) as Hg.
  destruct (inGenerator
              (FloorGenerator.generateFloorModels (selectedFeature w)
                 properties) w) as [[[|] |] w']; simpl in Hg;
    split; try exact Hg;
    try (apply idsWellFormed_error, Hg);
    apply idsWellFormed_generateFallbackFloors, Hg.
Qed.

Lemma idsWellFormed_retrySettled (position : Cartesian3)
  (settled : PropertyDataService.Settled (list PropertyRecord)) (w : World) :
  idsWellFormed w -> idsWellFormed (retrySettled position settled w).
Proof.
  intros Hw. destruct settled as [[| p ps] | reason]; simpl;
    try (apply idsWellFormed_error, Hw).
  apply idsWellFormed_pending; [discriminate | exact Hw].
Qed.

Lemma idsWellFormed_fetchThen (pandId : string)
  (onSettled : PropertyDataService.Settled (list PropertyRecord)
               -> World -> World)
  (waiting : Pending) (w : World) :
  (forall id, requestedId waiting = Some id -> exact16 id = true) ->
  (forall settled w0, idsWellFormed w0 -> idsWellFormed (onSettled settled w0)) ->
  idsWellFormed w -> idsWellFormed (fetchThen pandId onSettled waiting w).
Proof.
  intros Hwait Hon Hw. unfold fetchThen.
  destruct (PropertyDataService.lookupProperties (dataService w)
              (Some pandId)); [apply Hon, Hw |].
  apply idsWellFormed_pending; assumption.
Qed.

Lemma idsWellFormed_received (pandId : string) (k : nat)
  (resp : PropertyDataService.Response (list PropertyRecord)) (w : World) :
  exact16 pandId = true ->
  idsWellFormed w -> idsWellFormed (received pandId k resp w).2.
Proof.
  intros Hid Hw. unfold received, PropertyDataService.receiveProperties.
  apply (idsWellFormed_settle k) in Hw.
  destruct resp; simpl;
    try (revert Hw; apply idsWellFormed_same; destruct w; reflexivity).
  destruct Hw as (Hc & Hp & Hcache & Hi). repeat split; try assumption.
  intros id Hsome. simpl in Hsome.
  destruct (decide (id = pandId)) as [-> | Hne]; [exact Hid |].
  rewrite lookup_insert_ne in Hsome by congruence. exact (Hcache id Hsome).
Qed.

Lemma idsWellFormed_clearSelection (w : World) :
  idsWellFormed w -> idsWellFormed (clearSelection w).
Proof.
  intros Hw. unfold clearSelection.
  destruct (selectedFeature w); [| exact Hw].
  revert Hw. apply idsWellFormed_same; reflexivity.
Qed.

Lemma idsWellFormed_deselect (w : World) :
  idsWellFormed w -> idsWellFormed (deselect w).
Proof.
  intros (Hc & Hp & Hcache & Hi). repeat split; try assumption.
  discriminate.
Qed.

Lemma idsWellFormed_onLeftClick (env : SceneQueries) (pickedFeature : Picked)
  (w : World) :
  idsWellFormed w -> idsWellFormed (onLeftClick env pickedFeature w).
Proof.
  intros Hw. apply idsWellFormed_clearSelection in Hw.
  unfold onLeftClick. destruct pickedFeature as [feature | [id | n] |];
    try (apply idsWellFormed_deselect, Hw).
  - assert (Hsel : idsWellFormed (selectFeature feature (clearSelection w))).
    { revert Hw. apply idsWellFormed_same; reflexivity. }
    destruct (FeatureIdentifier.getFeatureBuildingId feature) as [pandId |]
      eqn:Hid; [| apply idsWellFormed_panel, Hsel].
    destruct (String.eqb pandId ""); [apply idsWellFormed_panel, Hsel |].
    pose proof (getFeatureBuildingId_exact _ _ Hid) as Hex.
    apply idsWellFormed_fetchThen.
    + intros id [= <-]. exact Hex.
    + intros settled w0. apply idsWellFormed_pickSettled.
    + destruct Hsel as (Hc & Hp & Hcache & Hi). repeat split; try assumption.
      intros id [= <-]. exact Hex.
  - destruct (startsWith id "floor_");
      [exact Hw | apply idsWellFormed_deselect, Hw].
Qed.

Lemma idsWellFormed_toggleFloorModels (env : SceneQueries) (show : bool)
  (w : World) :
  idsWellFormed w -> idsWellFormed (toggleFloorModels env show w).
Proof.
  intros Hw. unfold toggleFloorModels.
  assert (H0 : idsWellFormed (hideFloorGenerationError (withShowFloors show w))).
  { revert Hw. apply idsWellFormed_same; reflexivity. }
  set (w0 := hideFloorGenerationError (withShowFloors show w)) in *.
  destruct (currentBuildingId w0) as [buildingId |] eqn:Hcur; [| exact H0].
  destruct (String.eqb buildingId ""); [exact H0 |].
  pose proof (proj1 H0 buildingId Hcur) as Hex.
  destruct show.
  - destruct (selectedFeature w0);
      [| apply idsWellFormed_panel, idsWellFormed_error, H0].
    apply idsWellFormed_fetchThen.
    + intros id [= <-]. exact Hex.
    + intros settled w1. apply idsWellFormed_toggleSettled.
    + apply idsWellFormed_panel. revert H0.
      apply idsWellFormed_same; reflexivity.
  - apply idsWellFormed_panel, idsWellFormed_paint. revert H0.
    apply idsWellFormed_same; reflexivity.
Qed.

Lemma idsWellFormed_retryFloorGeneration (w : World) :
  idsWellFormed w -> idsWellFormed (retryFloorGeneration w).
Proof.
  intros Hw. unfold retryFloorGeneration.
  destruct (currentBuildingId w) as [buildingId |] eqn:Hcur; [| exact Hw].
  destruct (String.eqb buildingId ""); [exact Hw |].
  pose proof (proj1 Hw buildingId Hcur) as Hex.
  apply idsWellFormed_fetchThen.
  - intros id [= <-]. exact Hex.
  - intros settled w1. apply idsWellFormed_retrySettled.
  - revert Hw. apply idsWellFormed_same; reflexivity.
Qed.

Lemma idsWellFormed_mappingSettled
  (settled : PropertyDataService.Settled (list string)) (w : World) :
  idsWellFormed w -> idsWellFormed (mappingSettled settled w).
Proof.
  intros Hw. unfold mappingSettled.
  destruct settled as [[| p ps] | reason]; try exact Hw.
  destruct (styleManager w); [| exact Hw].
  revert Hw. apply idsWellFormed_same; reflexivity.
Qed.

Lemma idsWellFormed_step (w : World) (input : SceneQueries * Event) :
  idsWellFormed w -> idsWellFormed (step w input).
Proof.
  intros Hw. destruct input as [env ev]. unfold step.
  destruct ev as [k resp | pickedFeature | | | k resp | k | |].
  - destruct (pending w !! k) as [[] |]; try exact Hw.
    unfold PropertyDataService.getAllPandIds.
    destruct (PropertyDataService.databaseBuildingIds (dataService w));
      [| destruct resp];
      apply idsWellFormed_mappingSettled;
      (eapply idsWellFormed_same; [.. | apply (idsWellFormed_settle k w Hw)]);
      reflexivity.
  - apply idsWellFormed_onLeftClick, Hw.
  - apply idsWellFormed_panel, Hw.
  - destruct (InfoPanel.visible (infoPanel w)); [| exact Hw].
    destruct (InfoPanel.toggleButton (infoPanel w)); [| exact Hw].
    apply idsWellFormed_toggleFloorModels, Hw.
  - destruct (pending w !! k) as [p |] eqn:Hk; [| exact Hw].
    destruct p as [| pandId | pandId e sp | | pandId position | |];
      try exact Hw;
      pose proof (proj1 (proj2 Hw) k _ pandId Hk eq_refl) as Hex;
      pose proof (idsWellFormed_received pandId k resp w Hex Hw) as Hr;
      destruct (received pandId k resp w) as [settled w']; simpl in Hr.
    + apply idsWellFormed_pickSettled, Hr.
    + apply idsWellFormed_toggleSettled, Hr.
    + apply idsWellFormed_retrySettled, Hr.
  - destruct (pending w !! k) as [p |]; [| exact Hw].
    destruct p as [| | | properties | | properties position |]; try exact Hw.
    + apply (idsWellFormed_timers properties (defaultPosition)),
        idsWellFormed_settle, Hw.
    + apply (idsWellFormed_timers properties position),
        idsWellFormed_settle, Hw.
  - destruct (floorGenerationError w); [| exact Hw].
    apply idsWellFormed_retryFloorGeneration, idsWellFormed_error, Hw.
  - apply idsWellFormed_error, Hw.
Qed.

End SelectorIds.

(** X8. In every world the application can reach, the current building
    id, the id of every request that was launched, every key of the
    property cache and every building marked as having info is a numeral
    of sixteen digits: the selector never asks the service for a missing
    or malformed id. *)
Theorem reachable_ids_are_sixteen_digits `{CesiumMath}
  (w : BuildingSelector.World) :
  BuildingSelector.reachable w -> BuildingSelector.idsWellFormed w.
Proof.
  intros (sm & trace & ->). unfold BuildingSelector.run.
  induction trace as [| input trace IH] using rev_ind.
  - split; [discriminate |]. split; [| split].
    + intros [| k] p id Hk; simpl in Hk; [| discriminate].
      injection Hk as <-. discriminate.
    + intros id [x Hx]. simpl in Hx. rewrite lookup_empty in Hx.
      discriminate.
    + intros id Hin. simpl in Hin. apply not_elem_of_empty in Hin.
      destruct Hin.
  - rewrite foldl_app. simpl. apply idsWellFormed_step, IH.
Qed.

Lemma reachable_ids_are_sixteen_digits_witness :
  BuildingSelector.idsWellFormed
    (BuildingSelector.run Scenarios.start Scenarios.scenarioE).
Proof.
  apply (reachable_ids_are_sixteen_digits (H := flatEngine)).
  exists (Some Scenarios.styleManager), Scenarios.scenarioE. reflexivity.
Defined.

(** ** Picking *)

Section Picking.
Context `{CesiumMath}.
Import BuildingSelector.

(** What the success callback of a pick does with a non-empty answer. *)
Lemma pickThen_shows (env : SceneQueries) (p : PropertyRecord)
  (ps : list PropertyRecord) (w : World) :
  let w' := pickThen env (p :: ps) w in
  infoPanel w'
  = {| InfoPanel.visible := true;
       InfoPanel.content := InfoPanel.Properties (p :: ps);
       InfoPanel.toggleButton := Some (showFloorsForSelectedBuilding w) |}
  /\ currentBuildingId w' = currentBuildingId w
  /\ selectedFeature w' = selectedFeature w
  /\ pending w' = pending w
  /\ dataService w' = dataService w
  /\ showFloorsForSelectedBuilding w' = showFloorsForSelectedBuilding w
  /\ buildingsWithInfo w'
     = match currentBuildingId w with
       | Some id =>
           if String.eqb id "" then buildingsWithInfo w
           else buildingsWithInfo w ∪ {[ id ]}
       | None => buildingsWithInfo w
       end.
Proof.
  intros w'. subst w'. unfold pickThen. cbv zeta.
  set (w1 := match currentBuildingId w with
             | Some id => markBuildingHasInfo id w
             | None => w
             end).
  set (w2 := withInfoPanel _ w1).
  set (w3 := if showFloorsForSelectedBuilding w2
             then (generateFloors env (p :: ps) w2).2 else w2).
  assert (H3 : withFloorGenerator (floorGenerator w2) w3 = w2).
  { unfold w3. destruct (showFloorsForSelectedBuilding w2).
    - apply generateFloors_besides.
    - destruct w2; reflexivity. }
  assert (Hw1 : forall {A} (proj : World -> A),
             (forall id x, proj (withInfo id x w) = proj w) ->
             proj w1 = proj w).
  { intros A proj Hproj. unfold w1.
    destruct (currentBuildingId w) as [id |]; [| reflexivity].
    unfold markBuildingHasInfo.
    destruct (String.eqb id ""); [reflexivity | apply Hproj]. }
  assert (Hvia : forall {A} (proj : World -> A),
             (forall g x, proj (withFloorGenerator g x) = proj x) ->
             (forall x y, proj (withInfoPanel x y) = proj y) ->
             (forall id x, proj (withInfo id x w) = proj w) ->
             proj (withInfoPanel
                     (InfoPanel.addFloorToggleButton
                        (showFloorsForSelectedBuilding w3) (infoPanel w3)) w3)
             = proj w).
  { intros A proj Hg Hp Hi. rewrite Hp.
    rewrite <- (Hg (floorGenerator w2) w3), H3. unfold w2.
    rewrite Hp. apply Hw1, Hi. }
  assert (Hshow : showFloorsForSelectedBuilding w3
                  = showFloorsForSelectedBuilding w).
  { transitivity (showFloorsForSelectedBuilding w2);
      [exact (f_equal showFloorsForSelectedBuilding H3) |].
    exact (Hw1 _ showFloorsForSelectedBuilding (fun _ _ => eq_refl)). }
  split; [| split; [| split; [| split; [| split; [| split]]]]];
    try (apply (Hvia _ _); reflexivity).
  - assert (Hpanel : infoPanel w3 = infoPanel w2)
      by exact (f_equal infoPanel H3).
    unfold InfoPanel.addFloorToggleButton. simpl.
    rewrite Hshow, Hpanel. reflexivity.
  - assert (Hinfo : buildingsWithInfo w3 = buildingsWithInfo w1)
      by exact (f_equal buildingsWithInfo H3).
    simpl. rewrite Hinfo. unfold w1.
    destruct (currentBuildingId w) as [id |]; [| reflexivity].
    unfold markBuildingHasInfo. destruct (String.eqb id ""); reflexivity.
Qed.

Lemma clearSelection_besides {A} (proj : World -> A) (w : World) :
  (forall x y, proj (withSelectedFeature x y) = proj y) ->
  (forall x y, proj (withFeatureColor x y) = proj y) ->
  proj (clearSelection w) = proj w.
Proof.
  intros Hs Hc. unfold clearSelection, paint.
  destruct (selectedFeature w); [| reflexivity]. rewrite Hs, Hc. reflexivity.
Qed.

End Picking.

(** X9. A left click on a building whose properties are cached is served
    at once: no request is launched and the service is not written to;
    the building becomes the selected and the current one; for a
    non-empty cached answer the panel shows the cached units with a floor
    toggle in the state of the floor mode, and the building is marked as
    having info; for an empty cached answer the panel shows the
    no-data message, and no toggle. *)
Theorem picking_a_cached_building_launches_no_request `{CesiumMath}
  (env : BuildingSelector.SceneQueries) (w : BuildingSelector.World)
  (feature : Feature) (pandId : string) (cached : list PropertyRecord) :
  FeatureIdentifier.getFeatureBuildingId feature = Some pandId ->
  PropertyDataService.cache (BuildingSelector.dataService w) !! pandId
  = Some cached ->
  let w' :=
    BuildingSelector.step w
      (env, BuildingSelector.LeftClick
              (BuildingSelector.PickedFeature feature)) in
  BuildingSelector.pending w' = BuildingSelector.pending w
  /\ BuildingSelector.dataService w' = BuildingSelector.dataService w
  /\ BuildingSelector.currentBuildingId w' = Some pandId
  /\ BuildingSelector.selectedFeature w' = Some feature
  /\ BuildingSelector.infoPanel w'
     = match cached with
       | _ :: _ =>
           {| InfoPanel.visible := true;
              InfoPanel.content := InfoPanel.Properties cached;
              InfoPanel.toggleButton :=
                Some (BuildingSelector.showFloorsForSelectedBuilding w) |}
       | [] =>
           {| InfoPanel.visible := true;
              InfoPanel.content :=
                InfoPanel.Error
                  ("No property data available for Building ID: "
                   +:+ pandId);
              InfoPanel.toggleButton := None |}
       end
  /\ (cached <> [] -> pandId ∈ BuildingSelector.buildingsWithInfo w').
Proof.
  intros Hid Hcache w'. subst w'.
  unfold BuildingSelector.step, BuildingSelector.onLeftClick. cbv zeta.
  rewrite Hid.
  pose proof (exact16_nonempty _ (getFeatureBuildingId_exact _ _ Hid)) as Hne.
  rewrite Hne. unfold BuildingSelector.fetchThen.
  set (w0 := BuildingSelector.withCurrentBuildingId (Some pandId)
               (BuildingSelector.selectFeature feature
                  (BuildingSelector.clearSelection w))).
  assert (Hsvc : BuildingSelector.dataService w0
                 = BuildingSelector.dataService w).
  { unfold w0. simpl.
    apply (clearSelection_besides BuildingSelector.dataService); reflexivity. }
  assert (Hpend : BuildingSelector.pending w0 = BuildingSelector.pending w).
  { unfold w0. simpl.
    apply (clearSelection_besides BuildingSelector.pending); reflexivity. }
  assert (Hshow : BuildingSelector.showFloorsForSelectedBuilding w0
                  = BuildingSelector.showFloorsForSelectedBuilding w).
  { unfold w0. simpl.
    apply (clearSelection_besides
             BuildingSelector.showFloorsForSelectedBuilding); reflexivity. }
  assert (Hcur0 : BuildingSelector.currentBuildingId w0 = Some pandId)
    by reflexivity.
  assert (Hsel0 : BuildingSelector.selectedFeature w0 = Some feature)
    by reflexivity.
  clearbody w0.
  unfold PropertyDataService.lookupProperties. rewrite Hne, Hsvc, Hcache.
  simpl. destruct cached as [| p ps].
  - simpl. rewrite Hsvc, Hpend, Hcur0, Hsel0.
    repeat split; try reflexivity. intros Hn. destruct Hn. reflexivity.
  - destruct (pickThen_shows env p ps w0)
      as (Hpanel & Hcur & Hsel & Hp & Hs & _ & Hinfo).
    rewrite Hpanel, Hcur, Hsel, Hp, Hs, Hinfo, Hshow, Hsvc, Hpend, Hcur0,
      Hsel0.
    repeat split; try reflexivity.
    intros _. rewrite Hne.
    apply elem_of_union_r, elem_of_singleton. reflexivity.
Qed.

Lemma picking_a_cached_building_launches_no_request_witness :
  PropertyDataService.cache (BuildingSelector.dataService Scenarios.pickedX)
    !! Scenarios.X = Some Scenarios.recordsX
  /\ BuildingSelector.pending
       (BuildingSelector.step Scenarios.pickedX
          (Scenarios.click (Scenarios.building 1 Scenarios.X)))
     = BuildingSelector.pending Scenarios.pickedX.
Proof.
  assert (Hid : FeatureIdentifier.getFeatureBuildingId (H := flatEngine)
                  (Scenarios.building 1 Scenarios.X) = Some Scenarios.X)
    by reflexivity.
  assert (Hcache : PropertyDataService.cache
                     (BuildingSelector.dataService Scenarios.pickedX)
                     !! Scenarios.X = Some Scenarios.recordsX)
    by (vm_compute; reflexivity).
  split; [exact Hcache |].
  exact (proj1 (picking_a_cached_building_launches_no_request
                  (H := flatEngine) Scenarios.quiet Scenarios.pickedX
                  (Scenarios.building 1 Scenarios.X) Scenarios.X
                  Scenarios.recordsX Hid Hcache)).
Defined.

(** X10. A left click on a building whose properties are not cached
    launches exactly one request, for the id of the building, and makes
    the building the selected and the current one at once; the panel,
    the service and the floor entities stay as they were until the
    answer arrives. *)
Theorem picking_an_uncached_building_launches_one_request `{CesiumMath}
  (env : BuildingSelector.SceneQueries) (w : BuildingSelector.World)
  (feature : Feature) (pandId : string) :
  FeatureIdentifier.getFeatureBuildingId feature = Some pandId ->
  PropertyDataService.cache (BuildingSelector.dataService w) !! pandId
  = None ->
  let w' :=
    BuildingSelector.step w
      (env, BuildingSelector.LeftClick
              (BuildingSelector.PickedFeature feature)) in
  BuildingSelector.pending w'
  = BuildingSelector.pending w ++ [BuildingSelector.PickFetch pandId]
  /\ BuildingSelector.currentBuildingId w' = Some pandId
  /\ BuildingSelector.selectedFeature w' = Some feature
  /\ BuildingSelector.infoPanel w' = BuildingSelector.infoPanel w
  /\ BuildingSelector.dataService w' = BuildingSelector.dataService w
  /\ BuildingSelector.floorGenerator w' = BuildingSelector.floorGenerator w.
Proof.
  intros Hid Hcache w'. subst w'.
  unfold BuildingSelector.step, BuildingSelector.onLeftClick. cbv zeta.
  rewrite Hid.
  pose proof (exact16_nonempty _ (getFeatureBuildingId_exact _ _ Hid)) as Hne.
  rewrite Hne. unfold BuildingSelector.fetchThen.
  set (w0 := BuildingSelector.withCurrentBuildingId (Some pandId)
               (BuildingSelector.selectFeature feature
                  (BuildingSelector.clearSelection w))).
  assert (Hsvc : BuildingSelector.dataService w0
                 = BuildingSelector.dataService w).
  { unfold w0. simpl.
    apply (clearSelection_besides BuildingSelector.dataService); reflexivity. }
  unfold PropertyDataService.lookupProperties. rewrite Hne, Hsvc, Hcache.
  simpl.
  rewrite (clearSelection_besides BuildingSelector.pending) by reflexivity.
  rewrite (clearSelection_besides BuildingSelector.infoPanel) by reflexivity.
  rewrite (clearSelection_besides BuildingSelector.dataService)
    by reflexivity.
  rewrite (clearSelection_besides BuildingSelector.floorGenerator)
    by reflexivity.
  repeat split.
Qed.

Lemma picking_an_uncached_building_launches_one_request_witness :
  BuildingSelector.pending
    (BuildingSelector.step Scenarios.start
       (Scenarios.click (Scenarios.building 1 Scenarios.X)))
  = BuildingSelector.pending Scenarios.start
    ++ [BuildingSelector.PickFetch Scenarios.X].
Proof.
  assert (Hid : FeatureIdentifier.getFeatureBuildingId (H := flatEngine)
                  (Scenarios.building 1 Scenarios.X) = Some Scenarios.X)
    by reflexivity.
  assert (Hcache : PropertyDataService.cache
                     (BuildingSelector.dataService Scenarios.start)
                     !! Scenarios.X = None)
    by (vm_compute; reflexivity).
  exact (proj1 (picking_an_uncached_building_launches_one_request
                  (H := flatEngine) Scenarios.quiet Scenarios.start
                  (Scenarios.building 1 Scenarios.X) Scenarios.X
                  Hid Hcache)).
Defined.

(** ** Deselecting and the floor toggle *)

Section Deselecting.
Context `{CesiumMath}.
Import BuildingSelector.

Lemma clearSelection_clears (w : World) :
  selectedFeature (clearSelection w) = None.
Proof.
  unfold clearSelection. destruct (selectedFeature w) eqn:E; [reflexivity |].
  exact E.
Qed.

End Deselecting.

(** X11. A left click that hits neither a building nor a floor entity
    deselects: nothing is selected and no building is current, the panel
    is hidden, the map of floor entities is empty and no building shows a
    floor. Requests that are in flight are not cancelled, and the floor
    mode, the service and the position cache stay as they were. *)
Theorem clicking_beside_the_buildings_deselects `{CesiumMath}
  (env : BuildingSelector.SceneQueries) (w : BuildingSelector.World)
  (pickedFeature : BuildingSelector.Picked) :
  (forall feature, pickedFeature <> BuildingSelector.PickedFeature feature) ->
  (forall entityId,
      pickedFeature = BuildingSelector.PickedEntity (inl entityId) ->
      startsWith entityId "floor_" = false) ->
  let w' := BuildingSelector.step w (env, BuildingSelector.LeftClick pickedFeature) in
  BuildingSelector.selectedFeature w' = None
  /\ BuildingSelector.currentBuildingId w' = None
  /\ InfoPanel.visible (BuildingSelector.infoPanel w') = false
  /\ FloorGenerator.floorEntities (BuildingSelector.floorGenerator w') = ∅
  /\ (forall buildingId,
        BuildingSelector.showsFloorsOf w' buildingId = false)
  /\ BuildingSelector.pending w' = BuildingSelector.pending w
  /\ BuildingSelector.showFloorsForSelectedBuilding w'
     = BuildingSelector.showFloorsForSelectedBuilding w
  /\ BuildingSelector.dataService w' = BuildingSelector.dataService w
  /\ FloorGenerator.buildingPositions (BuildingSelector.floorGenerator w')
     = FloorGenerator.buildingPositions (BuildingSelector.floorGenerator w).
Proof.
  intros Hnf Hnfloor w'.
  assert (E : w' = BuildingSelector.deselect (BuildingSelector.clearSelection w)).
  { subst w'. unfold BuildingSelector.step, BuildingSelector.onLeftClick.
    cbv zeta. destruct pickedFeature as [feature | [entityId | n] |];
      try reflexivity.
    - destruct (Hnf feature eq_refl).
    - rewrite (Hnfloor entityId eq_refl). reflexivity. }
  rewrite E. clear E w'. unfold BuildingSelector.deselect,
    BuildingSelector.showsFloorsOf. simpl.
  rewrite clearSelection_clears.
  rewrite (clearSelection_besides BuildingSelector.pending) by reflexivity.
  rewrite (clearSelection_besides
             BuildingSelector.showFloorsForSelectedBuilding) by reflexivity.
  rewrite (clearSelection_besides BuildingSelector.dataService)
    by reflexivity.
  rewrite (clearSelection_besides BuildingSelector.floorGenerator)
    by reflexivity.
  repeat split.
  apply (removeAllFloorModels_frame FloorGenerator.keepsPositions).
Qed.

Lemma clicking_beside_the_buildings_deselects_witness :
  BuildingSelector.selectedFeature Scenarios.pickedX
  = Some (Scenarios.building 1 Scenarios.X)
  /\ BuildingSelector.selectedFeature
       (BuildingSelector.step Scenarios.pickedX
          (Scenarios.quiet,
           BuildingSelector.LeftClick BuildingSelector.PickedNothing))
     = None.
Proof.
  split; [vm_compute; reflexivity |].
  apply (clicking_beside_the_buildings_deselects (H := flatEngine)
           Scenarios.quiet Scenarios.pickedX BuildingSelector.PickedNothing).
  - intros feature. discriminate.
  - intros entityId. discriminate.
Defined.

(** X12. Switching the floors on for a building whose properties are
    cached builds nothing in the same step: every floor model is removed
    and generation is left to the 200 ms timer. When the scene gives a
    window position for the building, the anchor is stored for it: the
    globe pick under that position if there is one, else the ellipsoid
    pick, else the hard-coded position of the building. When the scene
    gives no window position, no anchor is stored and the position cache
    is left as it was; generation is deferred all the same. *)
Theorem switching_floors_on_anchors_and_defers `{CesiumMath}
  (env : BuildingSelector.SceneQueries) (w : BuildingSelector.World)
  (buildingId : string) (feature : Feature) (p : PropertyRecord)
  (ps : list PropertyRecord) :
  BuildingSelector.currentBuildingId w = Some buildingId ->
  buildingId <> "" ->
  BuildingSelector.selectedFeature w = Some feature ->
  PropertyDataService.cache (BuildingSelector.dataService w) !! buildingId
  = Some (p :: ps) ->
  let w' := BuildingSelector.toggleFloorModels env true w in
  let anchor :=
    match BuildingSelector.globePick env, BuildingSelector.ellipsoidPick env
    with
    | Some picked, _ => picked
    | None, Some picked => picked
    | None, None => BuildingSelector.getKnownBuildingPosition (Some buildingId)
    end in
  FloorGenerator.floorEntities (BuildingSelector.floorGenerator w') = ∅
  /\ match BuildingSelector.screenPosition env with
     | Some screen =>
         FloorGenerator.getBuildingPosition
           (BuildingSelector.floorGenerator w') (Some buildingId)
         = Some {| FloorGenerator.pi_position := anchor;
                   FloorGenerator.pi_screenPosition := Some screen;
                   FloorGenerator.pi_isManual := false |}
     | None =>
         FloorGenerator.buildingPositions (BuildingSelector.floorGenerator w')
         = FloorGenerator.buildingPositions (BuildingSelector.floorGenerator w)
     end
  /\ BuildingSelector.pending w'
     = BuildingSelector.pending w ++ [BuildingSelector.ToggleTimer (p :: ps)]
  /\ BuildingSelector.showFloorsForSelectedBuilding w' = true
  /\ BuildingSelector.featureColor w' !! fid feature = Some (YELLOW (9 # 10))
  /\ BuildingSelector.floorGenerationError w' = None.
Proof.
  intros Hcur Hne Hsel Hcache w' anchor. subst w' anchor.
  assert (Hempty : String.eqb buildingId "" = false)
    by (apply String.eqb_neq, Hne).
  pose proof (removeAllFloorModels_frame FloorGenerator.keepsPositions
                (BuildingSelector.floorGenerator w)) as Hkept.
  unfold FloorGenerator.keepsPositions in Hkept.
  unfold BuildingSelector.toggleFloorModels, BuildingSelector.fetchThen,
    PropertyDataService.lookupProperties, BuildingSelector.getEarthPosition,
    BuildingSelector.paint, FloorGenerator.getBuildingPosition.
  simpl. rewrite Hcur, Hempty, Hsel. simpl.
  rewrite Hcache. simpl.
  destruct (BuildingSelector.screenPosition env) as [screen |]; simpl;
    rewrite Hsel; simpl.
  - destruct (BuildingSelector.globePick env) as [g |],
      (BuildingSelector.ellipsoidPick env) as [e |]; simpl;
      rewrite ?Hcur, !lookup_insert_eq; repeat split.
  - rewrite lookup_insert_eq. repeat split. exact Hkept.
Qed.

Lemma switching_floors_on_anchors_and_defers_witness :
  FloorGenerator.getBuildingPosition
    (BuildingSelector.floorGenerator
       (BuildingSelector.toggleFloorModels Scenarios.globe true
          Scenarios.pickedX))
    (Some Scenarios.X)
  = Some {| FloorGenerator.pi_position := Scenarios.picked;
            FloorGenerator.pi_screenPosition := Some (640, 360)%Q;
            FloorGenerator.pi_isManual := false |}
  /\ FloorGenerator.buildingPositions
       (BuildingSelector.floorGenerator
          (BuildingSelector.toggleFloorModels Scenarios.quiet true
             Scenarios.pickedX))
     = FloorGenerator.buildingPositions
         (BuildingSelector.floorGenerator Scenarios.pickedX).
Proof.
  assert (Hcur : BuildingSelector.currentBuildingId Scenarios.pickedX
                 = Some Scenarios.X) by (vm_compute; reflexivity).
  assert (Hne : Scenarios.X <> "") by discriminate.
  assert (Hsel : BuildingSelector.selectedFeature Scenarios.pickedX
                 = Some (Scenarios.building 1 Scenarios.X))
    by (vm_compute; reflexivity).
  assert (Hcache : PropertyDataService.cache
                     (BuildingSelector.dataService Scenarios.pickedX)
                     !! Scenarios.X
                   = Some (Scenarios.unit_ Scenarios.X (FNum 0) (FNum 2)
                           :: [Scenarios.unit_ Scenarios.X (FNum 0) (FNum 2);
                               Scenarios.unit_ Scenarios.X (FNum 1) (FNum 2)]))
    by (vm_compute; reflexivity).
  destruct (switching_floors_on_anchors_and_defers (H := flatEngine)
              Scenarios.globe Scenarios.pickedX Scenarios.X
              (Scenarios.building 1 Scenarios.X) _ _
              Hcur Hne Hsel Hcache) as (_ & Hanchor & _).
  destruct (switching_floors_on_anchors_and_defers (H := flatEngine)
              Scenarios.quiet Scenarios.pickedX Scenarios.X
              (Scenarios.building 1 Scenarios.X) _ _
              Hcur Hne Hsel Hcache) as (_ & Hnone & _).
  split; [exact Hanchor | exact Hnone].
Defined.

(** ** Styles *)

(** X13. The database filter style paints a feature gray exactly when
    the feature carries a sixteen-digit id, as a string property or
    embedded in one, that the database set of the manager does not hold
    at the time the feature is drawn; every other feature is white, one
    without any id included. When the style is installed with an empty
    database set, every feature is white whatever is loaded later. *)
Theorem database_filter_grays_unlisted_ids `{CesiumMath}
  (sm that : TileStyleManager.StyleManager) (feature : Feature) :
  let colour := TileStyleManager.applyDatabaseFilterStyle sm that feature in
  (TileStyleManager.databaseBuildingIds sm = ∅ -> colour = WHITE (7 # 10))
  /\ (TileStyleManager.databaseBuildingIds sm <> ∅ ->
      (colour = GRAY (5 # 10)
       <-> exists id,
             FeatureIdentifier.scanAllProperties feature = Some id
             /\ id ∉ TileStyleManager.databaseBuildingIds that)
      /\ (colour = GRAY (5 # 10) \/ colour = WHITE (7 # 10))).
Proof.
  intros colour. subst colour. unfold TileStyleManager.applyDatabaseFilterStyle.
  split.
  - intros ->. reflexivity.
  - intros Hne.
    destruct (Nat.eqb_spec (size (TileStyleManager.databaseBuildingIds sm)) 0)
      as [E | _];
      [apply size_empty_iff, leibniz_equiv in E; destruct (Hne E) |].
    destruct (FeatureIdentifier.scanAllProperties feature) as [id |] eqn:Hscan.
    + rewrite (exact16_nonempty _ (scanNames_exact _ _ _ Hscan)).
      destruct (decide (id ∈ TileStyleManager.databaseBuildingIds that))
        as [Hin | Hnin].
      * rewrite (bool_decide_eq_true_2 _ Hin). split; [| right; reflexivity].
        split; [discriminate |]. intros (x & [= <-] & Hx). contradiction.
      * rewrite (bool_decide_eq_false_2 _ Hnin). split; [| left; reflexivity].
        split; [| reflexivity]. intros _. exists id. split; [reflexivity |].
        exact Hnin.
    + split; [| right; reflexivity].
      split; [discriminate |]. intros (x & Hx & _). discriminate.
Qed.

(** X14. The no-info style paints a feature white exactly when the
    feature carries a sixteen-digit id that is marked as having info at
    the time the feature is drawn, and gray otherwise; so once
    [markBuildingHasInfo] has been called with the id a feature carries,
    the feature is white. *)
Theorem no_info_style_whitens_marked_buildings `{CesiumMath}
  (sm that : TileStyleManager.StyleManager) (feature : Feature) :
  let colour := TileStyleManager.applyNoInfoBuildingStyle sm that feature in
  (colour = WHITE (7 # 10)
   <-> exists id,
         FeatureIdentifier.scanAllProperties feature = Some id
         /\ TileStyleManager.hasBuildingInfo that id = true)
  /\ (colour = WHITE (7 # 10) \/ colour = GRAY (5 # 10))
  /\ (forall id,
        FeatureIdentifier.scanAllProperties feature = Some id ->
        TileStyleManager.applyNoInfoBuildingStyle sm
          (TileStyleManager.markBuildingHasInfo id that) feature
        = WHITE (7 # 10)).
Proof.
  intros colour. subst colour. unfold TileStyleManager.applyNoInfoBuildingStyle,
    TileStyleManager.hasBuildingInfo.
  destruct (FeatureIdentifier.scanAllProperties feature) as [id |] eqn:Hscan.
  - pose proof (exact16_nonempty _ (scanNames_exact _ _ _ Hscan)) as Hne.
    rewrite Hne. split; [| split].
    + destruct (bool_decide (id ∈ TileStyleManager.buildingsWithInfo that))
        eqn:Hin.
      * split; [| reflexivity]. intros _. exists id. split; [reflexivity |].
        exact Hin.
      * split; [discriminate |]. intros (x & [= <-] & Hx). congruence.
    + destruct (bool_decide (id ∈ TileStyleManager.buildingsWithInfo that));
        [left | right]; reflexivity.
    + intros x [= <-]. unfold TileStyleManager.markBuildingHasInfo.
      rewrite Hne. simpl. rewrite bool_decide_eq_true_2; [reflexivity |].
      apply elem_of_union_r, elem_of_singleton. reflexivity.
  - split; [| split].
    + split; [discriminate |]. intros (x & Hx & _). discriminate.
    + right. reflexivity.
    + intros id Hid. discriminate.
Qed.

(** ** The dataset *)

(** X15. Once the identifier file has been loaded, a building is a member
    exactly when its id is truthy and, as a trimmed string, is one of the
    identifiers of the file; a load that fails afterwards leaves the
    loader as it is. *)
Theorem loaded_classifier_tests_membership (ids : list string)
  (before : BuildingDataLoader.Loader) (buildingId : value) :
  let l :=
    (BuildingDataLoader.loadBuildingIdsFromFile
       (BuildingDataLoader.LoadOk ids) before).2 in
  BuildingDataLoader.loaded l = true
  /\ (BuildingDataLoader.hasBuildingId l buildingId = true
      <-> truthy buildingId = true
          /\ BuildingDataLoader.trim (toString buildingId) ∈ ids)
  /\ (forall status,
        BuildingDataLoader.loadBuildingIdsFromFile
          (BuildingDataLoader.LoadHttpError status) l = (false, l))
  /\ BuildingDataLoader.loadBuildingIdsFromFile
       BuildingDataLoader.LoadNetworkError l = (false, l)
  /\ BuildingDataLoader.loadBuildingIdsFromFile
       BuildingDataLoader.LoadInvalid l = (false, l).
Proof.
  intros l. subst l. simpl. split; [reflexivity |].
  split; [| repeat split].
  unfold BuildingDataLoader.hasBuildingId. simpl.
  destruct (truthy buildingId); simpl.
  - rewrite bool_decide_eq_true, elem_of_list_to_set. tauto.
  - split; [discriminate | intros [? _]; discriminate].
Qed.

Section ServerFile.
Import Server.

Lemma add_elem (x y : string) (set : list string) :
  y ∈ add x set <-> y = x \/ y ∈ set.
Proof.
  unfold add. destruct (bool_decide (x ∈ set)) eqn:E.
  - apply bool_decide_eq_true in E. split; [auto |].
    intros [-> | Hy]; assumption.
  - rewrite elem_of_app, list_elem_of_singleton. tauto.
Qed.

Lemma add_NoDup (x : string) (set : list string) :
  NoDup set -> NoDup (add x set).
Proof.
  intros Hnd. unfold add. destruct (bool_decide (x ∈ set)) eqn:E;
    [exact Hnd |].
  apply bool_decide_eq_false in E. apply NoDup_app. split; [exact Hnd |].
  split; [| apply NoDup_singleton].
  intros y Hy Hx. apply list_elem_of_singleton in Hx. subst y. contradiction.
Qed.

(** The id a line contributes to [/api/buildingIds]. *)
Lemma collectBuildingId_elem (unique : list string) (line : string)
  (x : string) :
  x ∈ collectBuildingId unique line
  <-> x ∈ unique
      \/ exists pandid,
           split ";" line !! 5%nat = Some pandid
           /\ BuildingDataLoader.trim pandid = x /\ x <> "".
Proof.
  unfold collectBuildingId.
  destruct (Nat.leb_spec 6 (length (split ";" line))) as [Hlen | Hlen].
  - destruct (split ";" line !! 5%nat) as [pandid |] eqn:Hp.
    + destruct (String.eqb_spec pandid "") as [-> | Hne]; simpl.
      * split; [auto |]. intros [Hx | (p & [= <-] & Ht & Hn)]; [exact Hx |].
        destruct Hn. rewrite <- Ht. reflexivity.
      * destruct (String.eqb_spec (BuildingDataLoader.trim pandid) "")
          as [E | E]; simpl.
        -- split; [auto |]. intros [Hx | (p & [= <-] & Ht & Hn)]; [exact Hx |].
           congruence.
        -- rewrite add_elem. split.
           ++ intros [-> | Hx]; [right | left; exact Hx].
              exists pandid. auto.
           ++ intros [Hx | (p & [= <-] & Ht & Hn)]; [right; exact Hx |].
              left. congruence.
    + split; [auto |]. intros [Hx | (p & Hp' & _)]; [exact Hx | discriminate].
  - split; [auto |]. intros [Hx | (p & Hp & _)]; [exact Hx |].
    apply lookup_lt_Some in Hp. lia.
Qed.

Lemma collectBuildingId_NoDup (unique : list string) (line : string) :
  NoDup unique -> NoDup (collectBuildingId unique line).
Proof.
  intros Hnd. unfold collectBuildingId.
  destruct (6 <=? length (split ";" line))%nat; [| exact Hnd].
  destruct (split ";" line !! 5%nat) as [pandid |]; [| exact Hnd].
  destruct (negb (String.eqb pandid "")
            && negb (String.eqb (BuildingDataLoader.trim pandid) ""));
    [apply add_NoDup, Hnd | exact Hnd].
Qed.

Lemma foldl_collectBuildingId (lines : list string) (unique : list string)
  (x : string) :
  (NoDup unique -> NoDup (foldl collectBuildingId unique lines))
  /\ (x ∈ foldl collectBuildingId unique lines
      <-> x ∈ unique
          \/ exists line pandid,
               line ∈ lines
               /\ split ";" line !! 5%nat = Some pandid
               /\ BuildingDataLoader.trim pandid = x /\ x <> "").
Proof.
  revert unique. induction lines as [| line lines IH]; intros unique; simpl.
  - split; [auto |]. split; [auto |].
    intros [Hx | (l & p & Hl & _)]; [exact Hx | inversion Hl].
  - destruct (IH (collectBuildingId unique line)) as [Hnd Hin].
    split; [intros Hu; apply Hnd, collectBuildingId_NoDup, Hu |].
    rewrite Hin, collectBuildingId_elem. split.
    + intros [[Hx | (p & Hp & Ht & Hn)] | (l & p & Hl & Hp & Ht & Hn)].
      * left. exact Hx.
      * right. exists line, p. split; [apply list_elem_of_here | auto].
      * right. exists l, p. split; [apply list_elem_of_further, Hl | auto].
    + intros [Hx | (l & p & Hl & Hp & Ht & Hn)]; [left; left; exact Hx |].
      apply elem_of_cons in Hl. destruct Hl as [-> | Hl].
      * left. right. exists p. auto.
      * right. exists l, p. auto.
Qed.

Lemma buildingIds_elem (lines : list string) (id : string) :
  id ∈ buildingIds lines
  <-> exists line pandid,
        line ∈ tail lines
        /\ split ";" line !! 5%nat = Some pandid
        /\ BuildingDataLoader.trim pandid = id /\ id <> "".
Proof.
  unfold buildingIds.
  rewrite (proj2 (foldl_collectBuildingId (tail lines) [] id)).
  split; [intros [Hx | Hx]; [inversion Hx | exact Hx] | auto].
Qed.

End ServerFile.

(** X16. The identifiers [/api/buildingIds] answers with are, without
    repetition, the non-empty trimmed sixth fields of the lines of the
    file after the header: the header line contributes nothing, and a
    line with fewer than six fields or a blank sixth field is skipped. *)
Theorem buildingIds_lists_the_sixth_column (lines : list string) :
  NoDup (Server.buildingIds lines)
  /\ forall id,
       id ∈ Server.buildingIds lines
       <-> exists line pandid,
             line ∈ tail lines
             /\ Server.split ";" line !! 5%nat = Some pandid
             /\ BuildingDataLoader.trim pandid = id /\ id <> "".
Proof.
  split.
  - unfold Server.buildingIds.
    apply (foldl_collectBuildingId (tail lines) [] ""), NoDup_nil_2.
  - intros id. unfold Server.buildingIds. apply buildingIds_elem.
Qed.

(** X17. End to end: after the loader has taken the answer of
    [/api/buildingIds] for a file, a string is classified as a member
    exactly when it is not blank and some line of the file after the
    header carries, in its sixth field, the same id up to surrounding
    white space. *)
Theorem file_membership_end_to_end (lines : list string) (id : string) :
  let l :=
    (BuildingDataLoader.loadBuildingIdsFromFile
       (BuildingDataLoader.LoadOk (Server.buildingIds lines))
       BuildingDataLoader.new).2 in
  BuildingDataLoader.hasBuildingId l (JStr id) = true
  <-> exists line pandid,
        line ∈ tail lines
        /\ Server.split ";" line !! 5%nat = Some pandid
        /\ BuildingDataLoader.trim pandid = BuildingDataLoader.trim id
        /\ BuildingDataLoader.trim id <> "".
Proof.
  intros l. subst l. unfold BuildingDataLoader.hasBuildingId. simpl.
  destruct (String.eqb_spec id "") as [-> | Hne]; simpl.
  - split; [discriminate |]. intros (line & p & _ & _ & _ & Hn).
    destruct Hn. reflexivity.
  - rewrite bool_decide_eq_true, elem_of_list_to_set.
    apply buildingIds_elem.
Qed.

(** X18. The server remembers its first look into the file: once
    [buildingExistsInDataset] has scanned the file for an id, every later
    call answers the same for that id, whatever the file holds by then or
    whether it still exists. The first answer is whether some line after
    the header has the id as its sixth field, untrimmed. A call made
    while the file is missing answers [false] and is not remembered. *)
Theorem existence_answers_are_final (lines : list string)
  (later : option (list string)) (pandid : string)
  (c : Server.ExistenceCache) :
  Server.buildingsWithData c ⊆ Server.checkedBuildingIds c ->
  pandid ∉ Server.checkedBuildingIds c ->
  let first := (Server.buildingExistsInDataset (Some lines) pandid c).1 in
  let c' := (Server.buildingExistsInDataset (Some lines) pandid c).2 in
  first = existsb (Server.mentions pandid) (tail lines)
  /\ Server.buildingExistsInDataset later pandid c' = (first, c')
  /\ Server.buildingsWithData c' ⊆ Server.checkedBuildingIds c'
  /\ Server.buildingExistsInDataset None pandid c = (false, c).
Proof.
  intros Hsub Hnew first c'. subst first c'.
  unfold Server.buildingExistsInDataset.
  rewrite (bool_decide_eq_false_2 _ Hnew). simpl.
  rewrite bool_decide_eq_true_2
    by (apply elem_of_union_r, elem_of_singleton_2; reflexivity).
  split; [reflexivity |]. split; [| split; [| reflexivity]].
  - f_equal. destruct (existsb (Server.mentions pandid) (tail lines)).
    + apply bool_decide_eq_true_2, elem_of_union_r, elem_of_singleton_2.
      reflexivity.
    + apply bool_decide_eq_false_2. intros Hin. apply Hnew, Hsub, Hin.
  - destruct (existsb (Server.mentions pandid) (tail lines)); simpl;
      intros x Hx.
    + apply elem_of_union in Hx as [Hx | Hx];
        [apply elem_of_union_l, Hsub, Hx | apply elem_of_union_r, Hx].
    + apply elem_of_union_l, Hsub, Hx.
Qed.

Lemma existence_answers_are_final_witness :
  (Server.buildingExistsInDataset (Some Scenarios.datasetLines) Scenarios.X
     Server.noneChecked).1 = true
  /\ (Server.buildingExistsInDataset None Scenarios.X
        (Server.buildingExistsInDataset (Some Scenarios.datasetLines)
           Scenarios.X Server.noneChecked).2).1 = true.
Proof.
  assert (Hsub : Server.buildingsWithData Server.noneChecked
                 ⊆ Server.checkedBuildingIds Server.noneChecked)
    by (intros x Hx; exact Hx).
  assert (Hnew : Scenarios.X ∉ Server.checkedBuildingIds Server.noneChecked)
    by apply not_elem_of_empty.
  destruct (existence_answers_are_final Scenarios.datasetLines None
              Scenarios.X Server.noneChecked Hsub Hnew)
    as (Hfirst & Hlater & _).
  split.
  - rewrite Hfirst. vm_compute. reflexivity.
  - rewrite Hlater. simpl. rewrite Hfirst. vm_compute. reflexivity.
Defined.

Section ServerPandIds.
Import Server.

Lemma sixth_field (line : string) (x : string) :
  split ";" line !! 5%nat = Some x -> (6 <=? length (split ";" line))%nat = true.
Proof.
  intros Hx. apply Nat.leb_le. apply lookup_lt_Some in Hx. lia.
Qed.

Lemma collectPandId_elem (unique : list string) (line : string) (x : string) :
  x ∈ collectPandId unique line
  <-> x ∈ unique \/ (split ";" line !! 5%nat = Some x /\ x <> "").
Proof.
  unfold collectPandId.
  destruct (split ";" line !! 5%nat) as [pandid |] eqn:Hp.
  - rewrite (sixth_field _ _ Hp).
    destruct (String.eqb_spec pandid "") as [-> | Hne]; simpl.
    + split; [auto |]. intros [Hx | [[= <-] Hx]]; [exact Hx | congruence].
    + rewrite add_elem. split.
      * intros [-> | Hx]; [right; auto | left; exact Hx].
      * intros [Hx | [[= <-] _]]; [right; exact Hx | left; reflexivity].
  - destruct (6 <=? length (split ";" line))%nat;
      (split; [auto | intros [Hx | [[=] _]]; exact Hx]).
Qed.

Lemma collectPandId_NoDup (unique : list string) (line : string) :
  NoDup unique -> NoDup (collectPandId unique line).
Proof.
  intros Hnd. unfold collectPandId.
  destruct (6 <=? length (split ";" line))%nat; [| exact Hnd].
  destruct (split ";" line !! 5%nat) as [pandid |]; [| exact Hnd].
  destruct (negb (String.eqb pandid "")); [apply add_NoDup, Hnd | exact Hnd].
Qed.

Lemma foldl_collectPandId (lines : list string) (unique : list string)
  (x : string) :
  (NoDup unique -> NoDup (foldl collectPandId unique lines))
  /\ (x ∈ foldl collectPandId unique lines
      <-> x ∈ unique
          \/ exists line,
               line ∈ lines /\ split ";" line !! 5%nat = Some x /\ x <> "").
Proof.
  revert unique. induction lines as [| line lines IH]; intros unique; simpl.
  - split; [auto |]. split; [auto |].
    intros [Hx | (l & Hl & _)]; [exact Hx | inversion Hl].
  - destruct (IH (collectPandId unique line)) as [Hnd Hin].
    split; [intros Hu; apply Hnd, collectPandId_NoDup, Hu |].
    rewrite Hin, collectPandId_elem. split.
    + intros [[Hx | [Hp Hn]] | (l & Hl & Hp & Hn)].
      * left. exact Hx.
      * right. exists line. split; [apply list_elem_of_here | auto].
      * right. exists l. split; [apply list_elem_of_further, Hl | auto].
    + intros [Hx | (l & Hl & Hp & Hn)]; [left; left; exact Hx |].
      apply elem_of_cons in Hl. destruct Hl as [-> | Hl].
      * left. right. auto.
      * right. exists l. auto.
Qed.

Lemma existsb_mentions (pandid : string) (lines : list string) :
  existsb (mentions pandid) lines = true
  <-> exists line, line ∈ lines /\ split ";" line !! 5%nat = Some pandid.
Proof.
  rewrite existsb_exists. split.
  - intros (line & Hin & Hm). exists line.
    split; [apply list_elem_of_In, Hin |].
    unfold mentions in Hm. apply andb_true_iff in Hm as [_ Hm].
    destruct (split ";" line !! 5%nat) as [v |]; [| discriminate].
    apply String.eqb_eq in Hm. congruence.
  - intros (line & Hin & Hp). exists line.
    split; [apply list_elem_of_In, Hin |].
    unfold mentions. rewrite (sixth_field _ _ Hp), Hp. simpl.
    apply String.eqb_refl.
Qed.

End ServerPandIds.

(** X19. The two readings of the file agree: the ids [/api/pandids] takes
    from the file are, without repetition, exactly the non-empty ids for
    which [buildingExistsInDataset], asked for the first time, answers
    that the building exists. They are the sixth fields as written, so
    the trimmed form of each of them is an id of [/api/buildingIds] or
    blank. *)
Theorem pandIds_are_the_buildings_that_exist (lines : list string) :
  NoDup (Server.pandIds lines)
  /\ (forall id,
        id ∈ Server.pandIds lines
        <-> id <> ""
            /\ (Server.buildingExistsInDataset (Some lines) id
                  Server.noneChecked).1 = true)
  /\ (forall id,
        id ∈ Server.pandIds lines ->
        BuildingDataLoader.trim id = ""
        \/ BuildingDataLoader.trim id ∈ Server.buildingIds lines).
Proof.
  split; [| split].
  - unfold Server.pandIds.
    apply (foldl_collectPandId (tail lines) [] ""), NoDup_nil_2.
  - intros id. unfold Server.pandIds, Server.buildingExistsInDataset.
    rewrite (proj2 (foldl_collectPandId (tail lines) [] id)).
    rewrite bool_decide_eq_false_2 by apply not_elem_of_empty.
    simpl. rewrite existsb_mentions. split.
    + intros [Hx | (line & Hl & Hp & Hn)]; [inversion Hx |].
      split; [exact Hn | exists line; auto].
    + intros (Hn & line & Hl & Hp). right. exists line. auto.
  - intros id Hid. unfold Server.pandIds in Hid.
    apply (proj2 (foldl_collectPandId (tail lines) [] id)) in Hid.
    destruct Hid as [Hx | (line & Hl & Hp & Hn)]; [inversion Hx |].
    destruct (String.eqb_spec (BuildingDataLoader.trim id) "") as [E | E];
      [left; exact E | right].
    apply buildingIds_elem. exists line, id. auto.
Qed.

(** ** The property service *)

(** X20. [getPropertiesByPandId] answers from its cache when the id is
    cached, without a request, and otherwise with what the request gives.
    Data that arrive, an empty array included, are written to the cache
    under that id alone and replace whatever is cached there: nothing
    keeps two calls made before the first answer from both asking the
    server, and of two answers for one id the one that arrives last is
    the one that stays cached. A failed request rejects and leaves the
    cache as it was. A missing or empty id rejects with "PANDID is
    required" without a request. *)
Theorem properties_cache_holds_the_last_answer
  (svc : PropertyDataService.Service) (pandId : string) :
  pandId <> "" ->
  (forall cached resp,
      PropertyDataService.cache svc !! pandId = Some cached ->
      PropertyDataService.getPropertiesByPandId svc (Some pandId) resp
      = (PropertyDataService.Resolved cached, svc))
  /\ (forall resp,
        PropertyDataService.cache svc !! pandId = None ->
        PropertyDataService.getPropertiesByPandId svc (Some pandId) resp
        = PropertyDataService.receiveProperties svc pandId resp)
  /\ (forall data,
        (PropertyDataService.receiveProperties svc pandId
           (PropertyDataService.Ok data)).1
        = PropertyDataService.Resolved data
        /\ PropertyDataService.cache
             (PropertyDataService.receiveProperties svc pandId
                (PropertyDataService.Ok data)).2 !! pandId
           = Some data
        /\ forall other, other <> pandId ->
             PropertyDataService.cache
               (PropertyDataService.receiveProperties svc pandId
                  (PropertyDataService.Ok data)).2 !! other
             = PropertyDataService.cache svc !! other)
  /\ (forall first second,
        PropertyDataService.cache
          (PropertyDataService.receiveProperties
             (PropertyDataService.receiveProperties svc pandId
                (PropertyDataService.Ok first)).2
             pandId (PropertyDataService.Ok second)).2 !! pandId
        = Some second)
  /\ (forall resp,
        PropertyDataService.isFailure resp = true ->
        exists reason,
          PropertyDataService.receiveProperties svc pandId resp
          = (PropertyDataService.Rejected reason, svc))
  /\ (forall resp,
        PropertyDataService.getPropertiesByPandId svc None resp
        = (PropertyDataService.Rejected "PANDID is required", svc)
        /\ PropertyDataService.getPropertiesByPandId svc (Some "") resp
           = (PropertyDataService.Rejected "PANDID is required", svc)).
Proof.
  intros Hne. apply String.eqb_neq in Hne.
  unfold PropertyDataService.getPropertiesByPandId,
    PropertyDataService.lookupProperties.
  rewrite Hne. split; [| split; [| split; [| split; [| split]]]].
  - intros cached resp Hhit. rewrite Hhit. reflexivity.
  - intros resp Hmiss. rewrite Hmiss. reflexivity.
  - intros data. simpl. split; [reflexivity |].
    split; [apply lookup_insert_eq |].
    intros other Ho. apply lookup_insert_ne. congruence.
  - intros first second. simpl. apply lookup_insert_eq.
  - intros resp Hfail.
    destruct resp; try discriminate; eexists; reflexivity.
  - intros resp. split; reflexivity.
Qed.

Lemma properties_cache_holds_the_last_answer_witness :
  PropertyDataService.getPropertiesByPandId PropertyDataService.new
    (Some Scenarios.X) (PropertyDataService.Ok Scenarios.recordsX)
  = PropertyDataService.receiveProperties PropertyDataService.new Scenarios.X
      (PropertyDataService.Ok Scenarios.recordsX)
  /\ PropertyDataService.cache
       (PropertyDataService.receiveProperties
          (PropertyDataService.receiveProperties PropertyDataService.new
             Scenarios.X (PropertyDataService.Ok Scenarios.recordsX)).2
          Scenarios.X (PropertyDataService.Ok [])).2 !! Scenarios.X
     = Some [].
Proof.
  assert (Hne : Scenarios.X <> "") by discriminate.
  destruct (properties_cache_holds_the_last_answer PropertyDataService.new
              Scenarios.X Hne) as (_ & Hmiss & _ & Hlast & _).
  split; [apply Hmiss, lookup_empty | apply Hlast].
Defined.

(** X21. [buildingExistsInDatabase]: while the identifiers have not
    been loaded, a request that fails makes it answer [false], whatever
    the id, and leaves the service as it was, so the next call asks
    again; a request that succeeds makes it answer whether the id is in
    the list, and from then on every call is answered from that list
    without a request. A missing or empty id is answered [false] without
    a request. *)
Theorem buildingExistsInDatabase_answers_from_the_list
  (svc : PropertyDataService.Service) (pandId : string) :
  pandId <> "" ->
  PropertyDataService.databaseBuildingIds svc = None ->
  (forall resp,
      PropertyDataService.isFailure resp = true ->
      PropertyDataService.buildingExistsInDatabase svc (Some pandId) resp
      = (false, svc))
  /\ (forall ids,
        let svc' :=
          (PropertyDataService.buildingExistsInDatabase svc (Some pandId)
             (PropertyDataService.Ok ids)).2 in
        (PropertyDataService.buildingExistsInDatabase svc (Some pandId)
           (PropertyDataService.Ok ids)).1 = bool_decide (pandId ∈ ids)
        /\ forall other resp,
             other <> "" ->
             PropertyDataService.buildingExistsInDatabase svc' (Some other)
               resp
             = (bool_decide (other ∈ ids), svc'))
  /\ (forall resp,
        PropertyDataService.buildingExistsInDatabase svc None resp
        = (false, svc)
        /\ PropertyDataService.buildingExistsInDatabase svc (Some "") resp
           = (false, svc)).
Proof.
  intros Hne Hnone. apply String.eqb_neq in Hne.
  unfold PropertyDataService.buildingExistsInDatabase,
    PropertyDataService.getAllPandIds.
  rewrite Hne, Hnone. split; [| split].
  - intros resp Hfail. destruct resp; try discriminate; simpl;
      rewrite Hnone; reflexivity.
  - intros ids. simpl. split; [reflexivity |].
    intros other resp Ho. apply String.eqb_neq in Ho. rewrite Ho.
    reflexivity.
  - intros resp. split; reflexivity.
Qed.

Lemma buildingExistsInDatabase_answers_from_the_list_witness :
  PropertyDataService.buildingExistsInDatabase PropertyDataService.new
    (Some Scenarios.X) PropertyDataService.NetworkError
  = (false, PropertyDataService.new)
  /\ (PropertyDataService.buildingExistsInDatabase PropertyDataService.new
        (Some Scenarios.X)
        (PropertyDataService.Ok [Scenarios.X; Scenarios.Y])).1
     = true.
Proof.
  assert (Hne : Scenarios.X <> "") by discriminate.
  assert (Hnone : PropertyDataService.databaseBuildingIds
                    PropertyDataService.new = None) by reflexivity.
  destruct (buildingExistsInDatabase_answers_from_the_list
              PropertyDataService.new Scenarios.X Hne Hnone)
    as (Hfail & Hok & _).
  split.
  - apply Hfail. reflexivity.
  - rewrite (proj1 (Hok [Scenarios.X; Scenarios.Y])).
    apply bool_decide_eq_true_2, list_elem_of_here.
Defined.

(** ** The pages of the info panel *)

Section Pages.
Import InfoPanel.

Lemma totalPages_bounds (p : Pager) :
  (10 * (totalPages p - 1) < Z.of_nat (length (allProperties p))
   <= 10 * totalPages p)%Z.
Proof.
  unfold totalPages, itemsPerPage, Qceiling, Qfloor, Qdiv, Qmult, Qinv,
    Qopp, inject_Z.
  simpl. generalize (Z.of_nat (length (allProperties p))). intros n.
  change (Z.pos (1 * 10)) with 10%Z. rewrite Z.mul_1_r.
  pose proof (Z.div_mod (- n) 10 ltac:(lia)) as E.
  pose proof (Z.mod_pos_bound (- n) 10 ltac:(lia)) as B.
  lia.
Qed.

Lemma pageRows_slice (p : Pager) :
  (1 <= currentPage p)%Z ->
  pageRows p
  = Some <$> take 10 (drop (Z.to_nat (startIndex p)) (allProperties p)).
Proof.
  intros Hpage. unfold pageRows, endIndex, startIndex, itemsPerPage.
  set (start := ((currentPage p - 1) * 10)%Z).
  assert (Hstart : (0 <= start)%Z) by (subst start; lia).
  apply list_eq. intros i.
  rewrite !list_lookup_fmap, lookup_take, lookup_drop.
  set (n := length (allProperties p)).
  destruct (decide (i < 10)%nat) as [Hi | Hi].
  - destruct (decide (Z.to_nat start + i < n)%nat) as [Hin | Hout].
    + rewrite lookup_seqZ_lt by lia. simpl. unfold at_index.
      destruct (Z.ltb_spec (start + Z.of_nat i) 0); [lia |].
      replace (Z.to_nat (start + Z.of_nat i)) with (Z.to_nat start + i)%nat
        by lia.
      destruct (lookup_lt_is_Some_2 (allProperties p) (Z.to_nat start + i)
                  Hin) as [x Hx].
      rewrite Hx. reflexivity.
    + rewrite lookup_seqZ_ge by lia. simpl.
      rewrite lookup_ge_None_2 by (fold n; lia). reflexivity.
  - rewrite lookup_seqZ_ge by lia. reflexivity.
Qed.

Lemma clickPageButton_range (b : PageButton) (p : Pager) :
  (1 <= currentPage p <= totalPages p)%Z ->
  allProperties (clickPageButton b p) = allProperties p
  /\ (1 <= currentPage (clickPageButton b p)
      <= totalPages (clickPageButton b p))%Z.
Proof.
  intros Hp. split; [reflexivity |].
  unfold totalPages. simpl. fold (totalPages p).
  destruct b as [| | i].
  - destruct (Z.ltb_spec 1 (currentPage p)); lia.
  - destruct (Z.ltb_spec (currentPage p) (totalPages p)); lia.
  - destruct (bool_decide (i ∈ pageNumbers p)) eqn:E; [| lia].
    apply bool_decide_eq_true in E. unfold pageNumbers in E.
    apply elem_of_seqZ in E. unfold endPage, startPage in E. lia.
Qed.

End Pages.

(** X22. Whatever page buttons are clicked after a non-empty unit list
    was displayed, the panel stays on an existing page: the page number
    is between 1 and the number of pages, it is one of the numbered
    buttons, and the rows listed are the units of that page, in order,
    at least one and at most ten, with no row left undefined. *)
Theorem pager_stays_on_a_page (properties : list PropertyRecord)
  (clicks : list InfoPanel.PageButton) :
  properties <> [] ->
  let p := foldl (fun p b => InfoPanel.clickPageButton b p)
             (InfoPanel.openPager properties) clicks in
  InfoPanel.allProperties p = properties
  /\ (1 <= InfoPanel.currentPage p <= InfoPanel.totalPages p)%Z
  /\ InfoPanel.currentPage p ∈ InfoPanel.pageNumbers p
  /\ InfoPanel.pageRows p
     = Some <$> take 10
         (drop (Z.to_nat ((InfoPanel.currentPage p - 1) * 10)) properties)
  /\ (1 <= length (InfoPanel.pageRows p) <= 10)%nat.
Proof.
  intros Hne p.
  assert (Hinv : InfoPanel.allProperties p = properties
                 /\ (1 <= InfoPanel.currentPage p
                     <= InfoPanel.totalPages p)%Z).
  { subst p. induction clicks as [| b clicks IH] using rev_ind.
    - simpl. split; [reflexivity |].
      pose proof (totalPages_bounds (InfoPanel.openPager properties)) as B.
      simpl in B. destruct properties; [congruence |]. simpl length in B.
      lia.
    - rewrite foldl_app. simpl. destruct IH as [IHp IHr].
      destruct (clickPageButton_range b _ IHr) as [E R].
      split; [congruence | exact R]. }
  destruct Hinv as [Hprops Hrange].
  pose proof (totalPages_bounds p) as B. rewrite Hprops in B.
  assert (Hrows : InfoPanel.pageRows p
                  = Some <$> take 10
                      (drop (Z.to_nat ((InfoPanel.currentPage p - 1) * 10))
                         properties)).
  { rewrite pageRows_slice by lia. rewrite Hprops. reflexivity. }
  split; [exact Hprops |]. split; [exact Hrange |].
  split; [| split; [exact Hrows |]].
  - unfold InfoPanel.pageNumbers. apply elem_of_seqZ.
    unfold InfoPanel.endPage, InfoPanel.startPage. lia.
  - rewrite Hrows, length_fmap, length_take, length_drop. lia.
Qed.

Lemma pager_stays_on_a_page_witness :
  InfoPanel.currentPage
    (foldl (fun p b => InfoPanel.clickPageButton b p)
       (InfoPanel.openPager Scenarios.recordsX)
       [InfoPanel.NextPage; InfoPanel.PageNumber 7; InfoPanel.PrevPage])
  ∈ InfoPanel.pageNumbers
      (foldl (fun p b => InfoPanel.clickPageButton b p)
         (InfoPanel.openPager Scenarios.recordsX)
         [InfoPanel.NextPage; InfoPanel.PageNumber 7; InfoPanel.PrevPage]).
Proof.
  assert (Hne : Scenarios.recordsX <> []) by discriminate.
  destruct (pager_stays_on_a_page Scenarios.recordsX
              [InfoPanel.NextPage; InfoPanel.PageNumber 7;
               InfoPanel.PrevPage] Hne) as (_ & _ & Hbutton & _).
  exact Hbutton.
Defined.

(** X23. Every unit of the displayed list can be reached with the Next
    button: unit number [i], counted from zero, is row [i mod 10] of
    page [i / 10 + 1], and [i / 10] clicks on Next after the list was
    displayed lead to that page. *)
Theorem every_unit_is_on_a_page (properties : list PropertyRecord)
  (i : nat) (prop : PropertyRecord) :
  properties !! i = Some prop ->
  let p := foldl (fun p b => InfoPanel.clickPageButton b p)
             (InfoPanel.openPager properties)
             (replicate (i / 10) InfoPanel.NextPage) in
  InfoPanel.currentPage p = (Z.of_nat (i / 10) + 1)%Z
  /\ InfoPanel.pageRows p !! (i mod 10)%nat = Some (Some prop).
Proof.
  intros Hi p.
  pose proof (lookup_lt_Some _ _ _ Hi) as Hlt.
  pose proof (Nat.div_mod_eq i 10) as Hdm.
  pose proof (Nat.mod_upper_bound i 10 ltac:(lia)) as Hmod.
  assert (Hpage : forall k, (k <= i / 10)%nat ->
            let q := foldl (fun p b => InfoPanel.clickPageButton b p)
                       (InfoPanel.openPager properties)
                       (replicate k InfoPanel.NextPage) in
            InfoPanel.allProperties q = properties
            /\ InfoPanel.currentPage q = (Z.of_nat k + 1)%Z).
  { induction k as [| k IH]; intros Hk; [split; reflexivity |].
    replace (S k) with (k + 1)%nat by lia.
    rewrite replicate_add, foldl_app. simpl.
    destruct (IH ltac:(lia)) as [IHp IHc].
    split; [exact IHp |].
    pose proof (totalPages_bounds
                  (foldl (fun p b => InfoPanel.clickPageButton b p)
                     (InfoPanel.openPager properties)
                     (replicate k InfoPanel.NextPage))) as B.
    rewrite IHp in B. rewrite IHc.
    destruct (Z.ltb_spec (Z.of_nat k + 1)
                (InfoPanel.totalPages
                   (foldl (fun p b => InfoPanel.clickPageButton b p)
                      (InfoPanel.openPager properties)
                      (replicate k InfoPanel.NextPage)))); lia. }
  destruct (Hpage (i / 10)%nat ltac:(lia)) as [Hprops Hcur].
  fold p in Hprops, Hcur. split; [exact Hcur |].
  rewrite pageRows_slice by lia.
  unfold InfoPanel.startIndex, InfoPanel.itemsPerPage.
  rewrite Hprops, Hcur, list_lookup_fmap, lookup_take, lookup_drop.
  destruct (decide (i mod 10 < 10)%nat); [| lia].
  replace (Z.to_nat ((Z.of_nat (i / 10) + 1 - 1) * 10) + i mod 10)%nat
    with i by lia.
  rewrite Hi. reflexivity.
Qed.

Lemma every_unit_is_on_a_page_witness :
  InfoPanel.pageRows (InfoPanel.openPager Scenarios.recordsX) !! 2%nat
  = Some (Some (Scenarios.unit_ Scenarios.X (FNum 1) (FNum 2))).
Proof.
  assert (Hi : Scenarios.recordsX !! 2%nat
               = Some (Scenarios.unit_ Scenarios.X (FNum 1) (FNum 2)))
    by reflexivity.
  exact (proj2 (every_unit_is_on_a_page Scenarios.recordsX 2 _ Hi)).
Defined.

(** ** The height control *)


(** ** Buildings marked as having info *)

Section Marks.
Context `{CesiumMath}.

Lemma foldl_markBuildingHasInfo (ids : list string)
  (sm : TileStyleManager.StyleManager) :
  let sm' := foldl (fun sm id => TileStyleManager.markBuildingHasInfo id sm)
               sm ids in
  TileStyleManager.buildingDataLoader sm'
  = TileStyleManager.buildingDataLoader sm
  /\ TileStyleManager.databaseBuildingIds sm'
     = TileStyleManager.databaseBuildingIds sm
  /\ forall id,
       id ∈ TileStyleManager.buildingsWithInfo sm'
       <-> id ∈ TileStyleManager.buildingsWithInfo sm
           \/ (id ∈ ids /\ id <> "").
Proof.
  induction ids as [| x ids IH] using rev_ind; simpl.
  - repeat split; [tauto |]. intros [Hx | [Hx _]]; [exact Hx |].
    inversion Hx.
  - rewrite foldl_app. simpl. simpl in IH. destruct IH as (Hl & Hd & Hm).
    set (smk := foldl (fun sm id => TileStyleManager.markBuildingHasInfo id sm)
                  sm ids) in *.
    unfold TileStyleManager.markBuildingHasInfo.
    destruct (String.eqb_spec x "") as [-> | Hx]; simpl.
    + split; [exact Hl |]. split; [exact Hd |]. intros id.
      rewrite Hm, elem_of_app, list_elem_of_singleton. split.
      * intros [Hi | [Hi Hne]]; [left; exact Hi | right; tauto].
      * intros [Hi | [[Hi | ->] Hne]];
          [left; exact Hi | right; tauto | congruence].
    + split; [exact Hl |]. split; [exact Hd |]. intros id.
      rewrite elem_of_union, elem_of_singleton, Hm, elem_of_app,
        list_elem_of_singleton.
      split.
      * intros [[Hi | [Hi Hne]] | ->];
          [left; exact Hi | right; tauto | right; tauto].
      * intros [Hi | [[Hi | ->] Hne]];
          [left; left; exact Hi | left; right; tauto | right; reflexivity].
Qed.

End Marks.

(** X25. [updateBuildingsWithInfo] replaces the marks on both sides:
    afterwards the selector and its style manager say that a building
    has information exactly when its id is in the list given, whatever
    was marked before. They differ on the empty id only, which the
    selector takes from the list and the style manager never marks. The
    rest of the style manager is untouched. *)
Theorem updateBuildingsWithInfo_replaces_the_marks `{CesiumMath}
  (pandIds : list string) (w : BuildingSelector.World)
  (sm : TileStyleManager.StyleManager) :
  BuildingSelector.styleManager w = Some sm ->
  let w' := BuildingSelector.updateBuildingsWithInfo pandIds w in
  exists sm',
    BuildingSelector.styleManager w' = Some sm'
    /\ (forall id,
          BuildingSelector.hasBuildingInfo w' id = bool_decide (id ∈ pandIds))
    /\ (forall id,
          TileStyleManager.hasBuildingInfo sm' id
          = bool_decide (id ∈ pandIds) && negb (String.eqb id ""))
    /\ TileStyleManager.databaseBuildingIds sm'
       = TileStyleManager.databaseBuildingIds sm
    /\ TileStyleManager.buildingDataLoader sm'
       = TileStyleManager.buildingDataLoader sm.
Proof.
  intros Hsm w'. subst w'. unfold BuildingSelector.updateBuildingsWithInfo.
  rewrite Hsm. simpl.
  destruct (foldl_markBuildingHasInfo pandIds
              (TileStyleManager.resetBuildingsWithInfo sm)) as (Hl & Hd & Hm).
  eexists. split; [reflexivity |]. split; [| split; [| split]].
  - intros id. unfold BuildingSelector.hasBuildingInfo. simpl.
    apply bool_decide_ext. apply elem_of_list_to_set.
  - intros id. unfold TileStyleManager.hasBuildingInfo.
    destruct (String.eqb_spec id "") as [-> | Hne]; simpl.
    + rewrite andb_false_r. apply bool_decide_eq_false_2. rewrite Hm.
      simpl. intros [Hx | [_ Hx]]; [set_solver | congruence].
    + rewrite andb_true_r. apply bool_decide_ext. rewrite Hm. simpl.
      split; [intros [Hx | [Hx _]]; [set_solver | exact Hx] | tauto].
  - exact Hd.
  - exact Hl.
Qed.

Lemma updateBuildingsWithInfo_replaces_the_marks_witness :
  BuildingSelector.hasBuildingInfo
    (BuildingSelector.updateBuildingsWithInfo [Scenarios.Y] Scenarios.pickedX)
    Scenarios.X = false.
Proof.
  assert (Hsm : exists sm,
             BuildingSelector.styleManager Scenarios.pickedX = Some sm).
  { eexists. vm_compute. reflexivity. }
  destruct Hsm as [sm Hsm].
  destruct (updateBuildingsWithInfo_replaces_the_marks (H := flatEngine)
              [Scenarios.Y] Scenarios.pickedX sm Hsm)
    as (sm' & _ & Hselector & _).
  rewrite Hselector. apply bool_decide_eq_false_2.
  intros Hin. apply list_elem_of_singleton in Hin. discriminate.
Defined.

(** X26. [setStyleManager] hands the selector's marks over to the new
    style manager: afterwards the manager marks a building when it
    marked it before or when the selector has it marked, the empty id
    apart. The selector's own marks and the rest of the manager are
    untouched; giving no manager changes the marks of nothing. *)
Theorem setStyleManager_hands_over_the_marks `{CesiumMath}
  (sm : TileStyleManager.StyleManager) (w : BuildingSelector.World) :
  let w' := BuildingSelector.setStyleManager (Some sm) w in
  BuildingSelector.buildingsWithInfo w' = BuildingSelector.buildingsWithInfo w
  /\ BuildingSelector.buildingsWithInfo
       (BuildingSelector.setStyleManager None w)
     = BuildingSelector.buildingsWithInfo w
  /\ BuildingSelector.styleManager (BuildingSelector.setStyleManager None w)
     = None
  /\ exists sm',
       BuildingSelector.styleManager w' = Some sm'
       /\ (forall id,
             TileStyleManager.hasBuildingInfo sm' id
             = TileStyleManager.hasBuildingInfo sm id
               || (BuildingSelector.hasBuildingInfo w id
                   && negb (String.eqb id "")))
       /\ TileStyleManager.databaseBuildingIds sm'
          = TileStyleManager.databaseBuildingIds sm
       /\ TileStyleManager.buildingDataLoader sm'
          = TileStyleManager.buildingDataLoader sm.
Proof.
  intros w'. subst w'. unfold BuildingSelector.setStyleManager. simpl.
  split; [reflexivity |]. split; [reflexivity |]. split; [reflexivity |].
  eexists. split; [reflexivity |].
  destruct (foldl_markBuildingHasInfo
              (elements (BuildingSelector.buildingsWithInfo w)) sm)
    as (Hl & Hd & Hm).
  destruct (Nat.ltb_spec 0 (size (BuildingSelector.buildingsWithInfo w)))
    as [Hpos | Hzero].
  - split; [| split; [exact Hd | exact Hl]].
    intros id. unfold TileStyleManager.hasBuildingInfo,
      BuildingSelector.hasBuildingInfo.
    rewrite <- (bool_decide_ext _ _
                  (elem_of_elements (BuildingSelector.buildingsWithInfo w)
                     id)).
    destruct (bool_decide (id ∈ TileStyleManager.buildingsWithInfo sm))
      eqn:E1; simpl.
    + apply bool_decide_eq_true in E1.
      apply bool_decide_eq_true_2. apply (proj2 (Hm id)). left. exact E1.
    + apply bool_decide_eq_false in E1.
      destruct (bool_decide
                  (id ∈ elements (BuildingSelector.buildingsWithInfo w)))
        eqn:E2; simpl.
      * apply bool_decide_eq_true in E2.
        destruct (String.eqb_spec id "") as [-> | Hne]; simpl.
        -- apply bool_decide_eq_false_2. rewrite Hm. tauto.
        -- apply bool_decide_eq_true_2. apply (proj2 (Hm id)). right. tauto.
      * apply bool_decide_eq_false in E2.
        apply bool_decide_eq_false_2. rewrite Hm. tauto.
  - split; [| split; reflexivity].
    intros id. unfold BuildingSelector.hasBuildingInfo.
    assert (Hempty : BuildingSelector.buildingsWithInfo w = ∅).
    { apply leibniz_equiv, size_empty_iff. lia. }
    rewrite Hempty. rewrite (bool_decide_eq_false_2 (id ∈ (∅ : gset string)))
      by set_solver.
    simpl. rewrite orb_false_r. reflexivity.
Qed.

(** X27. When the list of database ids asked for at start-up arrives and
    is not empty, the style manager's marks are replaced by the ids of
    the list, the empty id apart, whatever the manager had marked
    before; the selector's own marks are not touched, so the two can
    differ from then on. The service keeps the list. When the request
    fails or the list is empty, the marks on both sides stay as they
    were. *)
Theorem mapping_answer_replaces_the_manager_marks `{CesiumMath}
  (env : BuildingSelector.SceneQueries) (w : BuildingSelector.World)
  (k : nat) (sm : TileStyleManager.StyleManager) (ids : list string) :
  BuildingSelector.pending w !! k = Some BuildingSelector.MappingFetch ->
  BuildingSelector.styleManager w = Some sm ->
  PropertyDataService.databaseBuildingIds (BuildingSelector.dataService w)
  = None ->
  ids <> [] ->
  let w' :=
    BuildingSelector.step w
      (env, BuildingSelector.MappingSettled k (PropertyDataService.Ok ids)) in
  BuildingSelector.buildingsWithInfo w' = BuildingSelector.buildingsWithInfo w
  /\ (exists sm',
        BuildingSelector.styleManager w' = Some sm'
        /\ forall id,
             TileStyleManager.hasBuildingInfo sm' id
             = bool_decide (id ∈ ids) && negb (String.eqb id ""))
  /\ PropertyDataService.databaseBuildingIds (BuildingSelector.dataService w')
     = Some ids
  /\ BuildingSelector.pending w' !! k = Some BuildingSelector.Settled
  /\ (forall resp,
        PropertyDataService.isFailure resp = true
        \/ resp = PropertyDataService.Ok [] ->
        BuildingSelector.styleManager
          (BuildingSelector.step w (env, BuildingSelector.MappingSettled k resp))
        = Some sm
        /\ BuildingSelector.buildingsWithInfo
             (BuildingSelector.step w
                (env, BuildingSelector.MappingSettled k resp))
           = BuildingSelector.buildingsWithInfo w).
Proof.
  intros Hpend Hsm Hnone Hne w'. subst w'.
  unfold BuildingSelector.step. rewrite Hpend.
  unfold PropertyDataService.getAllPandIds. rewrite Hnone.
  destruct ids as [| p ps]; [congruence |].
  unfold BuildingSelector.mappingSettled. simpl. rewrite Hsm. simpl.
  destruct (foldl_markBuildingHasInfo (p :: ps)
              (TileStyleManager.resetBuildingsWithInfo sm)) as (_ & _ & Hm).
  split; [reflexivity |]. split; [| split; [reflexivity | split]].
  - eexists. split; [reflexivity |]. intros id.
    unfold TileStyleManager.hasBuildingInfo.
    destruct (String.eqb_spec id "") as [-> | Hid]; simpl.
    + rewrite andb_false_r. apply bool_decide_eq_false_2.
      intros Hin. apply (proj1 (Hm "")) in Hin.
      destruct Hin as [Hin | [_ Hin]]; [| congruence].
      simpl in Hin. apply not_elem_of_empty in Hin. exact Hin.
    + rewrite andb_true_r. apply bool_decide_ext. split.
      * intros Hin. apply (proj1 (Hm id)) in Hin.
        destruct Hin as [Hin | [Hin _]]; [| exact Hin].
        simpl in Hin. apply not_elem_of_empty in Hin. destruct Hin.
      * intros Hin. apply (proj2 (Hm id)). right. split; assumption.
  - apply list_lookup_insert_eq. apply (lookup_lt_Some _ _ _ Hpend).
  - intros resp [Hfail | ->].
    + destruct resp; try discriminate; simpl; rewrite ?Hsm; split;
        reflexivity.
    + simpl. rewrite ?Hsm. split; reflexivity.
Qed.

Lemma mapping_answer_replaces_the_manager_marks_witness :
  BuildingSelector.buildingsWithInfo
    (BuildingSelector.step Scenarios.pickedX
       (Scenarios.quiet,
        BuildingSelector.MappingSettled 0
          (PropertyDataService.Ok [Scenarios.Y])))
  = BuildingSelector.buildingsWithInfo Scenarios.pickedX
  /\ exists sm',
       BuildingSelector.styleManager
         (BuildingSelector.step Scenarios.pickedX
            (Scenarios.quiet,
             BuildingSelector.MappingSettled 0
               (PropertyDataService.Ok [Scenarios.Y])))
       = Some sm'
       /\ TileStyleManager.hasBuildingInfo sm' Scenarios.X = false.
Proof.
  assert (Hpend : BuildingSelector.pending Scenarios.pickedX !! 0%nat
                  = Some BuildingSelector.MappingFetch)
    by (vm_compute; reflexivity).
  assert (Hsm : BuildingSelector.styleManager Scenarios.pickedX
                = Some (TileStyleManager.markBuildingHasInfo Scenarios.X
                          Scenarios.styleManager))
    by (vm_compute; reflexivity).
  assert (Hnone : PropertyDataService.databaseBuildingIds
                    (BuildingSelector.dataService Scenarios.pickedX) = None)
    by (vm_compute; reflexivity).
  assert (Hne : [Scenarios.Y] <> []) by discriminate.
  destruct (mapping_answer_replaces_the_manager_marks (H := flatEngine)
              Scenarios.quiet Scenarios.pickedX 0 _ [Scenarios.Y]
              Hpend Hsm Hnone Hne) as (Hselector & (sm' & Hsm' & Hmarks) & _).
  split; [exact Hselector |]. exists sm'. split; [exact Hsm' |].
  rewrite Hmarks. reflexivity.
Defined.

(** ** Geometry *)

(** X28. A position stored for the building always anchors its geometry:
    [extractDetailedGeometry] then succeeds for any feature, none at all
    included, with the stored position as position, the east-north-up
    frame there as orientation and a square footprint. With no stored
    position it fails exactly when the feature has no content, or its
    content has neither a model matrix nor a bounding sphere on its
    primitive, its tile or itself. *)
Theorem stored_position_anchors_the_geometry `{CesiumMath}
  (feature : option Feature) (stored : FloorGenerator.PositionInfo) :
  (exists g,
      FloorGenerator.extractDetailedGeometry feature (Some stored) = Some g
      /\ FloorGenerator.g_position g = FloorGenerator.pi_position stored
      /\ FloorGenerator.g_orientationQuaternion g
         = eastNorthUpQuaternion (FloorGenerator.pi_position stored)
      /\ FloorGenerator.g_width g = FloorGenerator.g_length g)
  /\ (FloorGenerator.extractDetailedGeometry feature None = None
      <-> forall f c,
            feature = Some f -> _content f = Some c ->
            modelMatrix c = None
            /\ primitive f ≫= primitive_boundingSphere = None
            /\ tile c ≫= tile_boundingSphere = None
            /\ content_boundingSphere c = None).
Proof.
  split.
  - unfold FloorGenerator.extractDetailedGeometry.
    destruct feature as [f |]; simpl;
      [| eexists; split; [reflexivity | repeat split]].
    destruct (_content f) as [c |]; simpl;
      [| eexists; split; [reflexivity | repeat split]].
    destruct (primitive f ≫= primitive_boundingSphere); simpl;
      [eexists; split; [reflexivity | repeat split] |].
    destruct (tile c ≫= tile_boundingSphere); simpl;
      [eexists; split; [reflexivity | repeat split] |].
    destruct (content_boundingSphere c); simpl;
      eexists; (split; [reflexivity | repeat split]).
  - assert (Hiff : forall (P : Prop) f c,
              feature = Some f -> _content f = Some c ->
              (P <-> modelMatrix c = None
                     /\ primitive f ≫= primitive_boundingSphere = None
                     /\ tile c ≫= tile_boundingSphere = None
                     /\ content_boundingSphere c = None)
              -> (P <-> forall f' c',
                    feature = Some f' -> _content f' = Some c' ->
                    modelMatrix c' = None
                    /\ primitive f' ≫= primitive_boundingSphere = None
                    /\ tile c' ≫= tile_boundingSphere = None
                    /\ content_boundingSphere c' = None)).
    { intros P f c Ef Ec HP. rewrite HP. split.
      - intros HQ f' c' Ef' Ec'.
        assert (f' = f) as -> by congruence.
        assert (c' = c) as -> by congruence. exact HQ.
      - intros HQ. apply (HQ f c); assumption. }
    destruct feature as [f |] eqn:Ef;
      [| split; [intros _ f c [=] | reflexivity]].
    destruct (_content f) as [c |] eqn:Ec.
    2: { unfold FloorGenerator.extractDetailedGeometry. simpl. rewrite Ec.
         simpl. split; [intros _ f' c' [= <-]; congruence | reflexivity]. }
    apply (Hiff _ f c eq_refl Ec). clear Hiff.
    unfold FloorGenerator.extractDetailedGeometry. simpl. rewrite Ec. simpl.
    destruct (primitive f) as [pr |]; simpl;
      [destruct (primitive_boundingSphere pr); simpl |];
      (destruct (tile c) as [t |]; simpl;
       [destruct (tile_boundingSphere t); simpl |]);
      destruct (content_boundingSphere c); simpl;
      destruct (modelMatrix c); simpl;
      (split; [first [discriminate | tauto]
              | first [tauto | intros (E1 & E2 & E3 & E4); congruence]]).
Qed.
